(** * The LiveStore schema diagnostic scripts, embedded in Rocq

    The repository holds two Node.js scripts that drive the LiveStore client
    library: [src/test-bug.js] (the original report) and its corrected
    version [src/unnamed/part_000].  Both are one [async function main]
    followed by [main().catch(...).finally(...)].  A third file,
    [src/unnamed/part_001], is the text of steps 1 to 5 of the original
    report as a module body, without the store block.

    The library is a black box: each call site of the scripts asks an oracle
    ([lib_call]) whether the call returns a value or raises an error.  What
    the library does inside a call is not recorded, with one exception: when
    the store runs the [onUpdate] handler of the corrected script during a
    call, the body of the handler is run as the script's own code
    ([onUpdate_runs] says with which results).  The callback and the
    materializer handler of [src/test-bug.js] are handed over as opaque
    values; a library that runs them is not followed.  The scripts
    themselves are embedded statement by statement in a small monad that
    records what leaves [main] and the top-level handlers (console output,
    library calls, timers, [process.exit]), how long the [await]s take, and
    how a block completes. *)

From Stdlib Require Import String Ascii ZArith List Bool Lia DecimalString.
Import ListNotations.
Local Open Scope string_scope.
Local Open Scope Z_scope.
Set Warnings "-register-all".

(** ** JavaScript values *)

(** An error object as the handlers of the scripts read it: the name of its
    constructor ([e.constructor.name]) and its message, a string.  Everything
    the library or the engine throws is such an object: the library is taken
    to honour the types of its API, and a thrown value that is no error
    object (as in [throw "text"]) is outside the model. *)
Record JsError : Type := mkError {
  err_constructor_name : string;
  err_message : string
}.

Inductive Settlement (V : Type) : Type :=
| Fulfilled (v : V)
| Rejected (e : JsError).
Arguments Fulfilled {V} v.
Arguments Rejected {V} e.

(** A promise is described by when it settles, in milliseconds after it was
    created, and how; or by the fact that it never does. *)
Inductive PromiseOf (V : Type) : Type :=
| Settles (ms : Z) (s : Settlement V)
| NeverSettles.
Arguments Settles {V} ms s.
Arguments NeverSettles {V}.

(** The values the scripts handle.  Numbers are the integer-valued ones,
    strings are strings of one-byte characters.
    [VObject] is an ordinary object given by its own enumerable string-keyed
    properties, in the order [Object.keys] lists them.  [VMap] is a [Map]
    given by its entry list ([[MapData]]); its entries are not properties.
    [VFunction] is a function the script never looks into (library functions
    and the script's own callbacks). *)
Inductive Value : Type :=
| VUndefined
| VNull
| VBool (b : bool)
| VNumber (n : Z)
| VString (s : string)
| VFunction (label : string)
| VArray (items : list Value)
| VObject (props : list (string * Value))
| VMap (entries : list (Value * Value))
| VError (e : JsError)
| VPromise (p : PromiseOf Value).

Definition Promise : Type := PromiseOf Value.

(** A synchronous call either returns or raises. *)
Inductive Outcome (A : Type) : Type :=
| Returns (a : A)
| Raises (e : JsError).
Arguments Returns {A} a.
Arguments Raises {A} e.

Definition TypeError (msg : string) : JsError := mkError "TypeError" msg.
Definition Error (msg : string) : JsError := mkError "Error" msg.

(** ** The built-ins the scripts use *)

Definition string_of_nat (n : nat) : string :=
  NilZero.string_of_uint (Nat.to_uint n).

Definition string_of_Z (z : Z) : string :=
  NilZero.string_of_int (Z.to_int z).

(** [v ? ... : ...], [v || w]: ToBoolean. *)
Definition truthy (v : Value) : bool :=
  match v with
  | VUndefined | VNull => false
  | VBool b => b
  | VNumber n => negb (n =? 0)
  | VString s => negb (String.eqb s "")
  | _ => true
  end.

(** [a || b] *)
Definition js_or (a b : Value) : Value := if truthy a then a else b.

(** The index keys "0", "1", ... of an array or a string of length [n]. *)
Definition index_keys (n : nat) : list string :=
  map string_of_nat (seq 0 n).

(** [Object.keys(v)]: the own enumerable string keys; throws on [undefined]
    and [null].  A Map, an error, a promise and a function have none. *)
Definition Object_keys (v : Value) : Outcome (list string) :=
  match v with
  | VUndefined | VNull =>
      Raises (TypeError "Cannot convert undefined or null to object")
  | VString s => Returns (index_keys (String.length s))
  | VArray items => Returns (index_keys (List.length items))
  | VObject props => Returns (map fst props)
  | VBool _ | VNumber _ | VFunction _ | VMap _ | VError _ | VPromise _ =>
      Returns []
  end.

Fixpoint lookup_prop (name : string) (props : list (string * Value)) : Value :=
  match props with
  | [] => VUndefined
  | (k, v) :: rest => if String.eqb k name then v else lookup_prop name rest
  end.

Definition describe_nullish (v : Value) : string :=
  match v with VNull => "null" | _ => "undefined" end.

(** [v.name]: throws on [undefined] and [null]; otherwise the own property,
    the built-in accessors [size] of a Map and [length] of an array or a
    string, the fields of an error, or [undefined]. *)
Definition get_prop (v : Value) (name : string) : Outcome Value :=
  match v with
  | VUndefined | VNull =>
      Raises (TypeError ("Cannot read properties of " ++ describe_nullish v
                         ++ " (reading '" ++ name ++ "')"))
  | VObject props => Returns (lookup_prop name props)
  | VMap entries =>
      if String.eqb name "size"
      then Returns (VNumber (Z.of_nat (List.length entries)))
      else Returns VUndefined
  | VArray items =>
      if String.eqb name "length"
      then Returns (VNumber (Z.of_nat (List.length items)))
      else Returns VUndefined
  | VString s =>
      if String.eqb name "length"
      then Returns (VNumber (Z.of_nat (String.length s)))
      else Returns VUndefined
  | VError e =>
      if String.eqb name "message" then Returns (VString (err_message e))
      else Returns VUndefined
  | VBool _ | VNumber _ | VFunction _ | VPromise _ => Returns VUndefined
  end.

(** [typeof v] *)
Definition js_typeof (v : Value) : string :=
  match v with
  | VUndefined => "undefined"
  | VBool _ => "boolean"
  | VNumber _ => "number"
  | VString _ => "string"
  | VFunction _ => "function"
  | VNull | VArray _ | VObject _ | VMap _ | VError _ | VPromise _ => "object"
  end.

(** [s.split("\n")[0]]: the text before the first line feed. *)
Fixpoint first_line (s : string) : string :=
  match s with
  | EmptyString => EmptyString
  | String c rest =>
      if Ascii.eqb c (ascii_of_nat 10) then EmptyString
      else String c (first_line rest)
  end.

(** ** What leaves the script *)

(** The call sites into the library, one per place in the source text.
    [State.SQLite.text] is called at two places.  The last four exist in the
    corrected script only. *)
Inductive CallSite : Type :=
| Schema_Struct
| Events_synced
| SQLite_text_id
| SQLite_text_message
| SQLite_table
| SQLite_materializers
| SQLite_makeState
| makeSchema
| makeAdapter
| createStorePromise
| store_subscribe
| store_commit
| store_close
| table_where
| queryDb
| events_testEvent
| eventsDefsMap_keys.

(** An argument of [console.log]: a string literal of the source text, or
    a value computed at run time. *)
Inductive Arg : Type :=
| Lit (text : string)
| Val (v : Value).

(** [ClearTimeout] is what cancelling a timer would look like; it is part
    of the vocabulary so that its absence can be stated. *)
Inductive Event : Type :=
| ConsoleLog (args : list Arg)
| ConsoleError (args : list Arg)
| LibCall (site : CallSite) (args : list Value)
| SetTimeout (ms : Z)
| ClearTimeout
| ProcessExit (code : Z).

(** How a block of statements ends: normally, by a throw, by
    [process.exit] (nothing runs afterwards), or suspended at an [await] of
    a promise that never settles: the block is then never resumed.  What
    becomes of the process in that case is not the block's doing; see
    [process_end]. *)
Inductive Completion (A : Type) : Type :=
| Normal (a : A)
| Throw (e : JsError)
| Exited (code : Z)
| Suspended.
Arguments Normal {A} a.
Arguments Throw {A} e.
Arguments Exited {A} code.
Arguments Suspended {A}.

(** A run of a block: the events in order, the milliseconds spent waiting
    at [await]s, and the completion. *)
Record Run (A : Type) : Type := mkRun {
  trace : list Event;
  elapsed : Z;
  completion : Completion A
}.
Arguments mkRun {A} trace elapsed completion.
Arguments trace {A} r.
Arguments elapsed {A} r.
Arguments completion {A} r.

Definition ret {A : Type} (a : A) : Run A := mkRun [] 0 (Normal a).

Definition bind {A B : Type} (m : Run A) (f : A -> Run B) : Run B :=
  match completion m with
  | Normal a =>
      let r := f a in
      mkRun (trace m ++ trace r) (elapsed m + elapsed r) (completion r)
  | Throw e => mkRun (trace m) (elapsed m) (Throw e)
  | Exited code => mkRun (trace m) (elapsed m) (Exited code)
  | Suspended => mkRun (trace m) (elapsed m) Suspended
  end.

Notation "x <- m ;; k" := (bind m (fun x => k))
  (at level 61, m at next level, right associativity).
Notation "m ;; k" := (bind m (fun _ => k))
  (at level 61, right associativity).

Definition emit (e : Event) : Run unit := mkRun [e] 0 (Normal tt).
Definition throw {A : Type} (e : JsError) : Run A := mkRun [] 0 (Throw e).

(** [console.log(...)], [console.error(...)] *)
Definition console_log (args : list Arg) : Run unit := emit (ConsoleLog args).
Definition console_error (args : list Arg) : Run unit := emit (ConsoleError args).

(** [process.exit(code)] does not return. *)
Definition process_exit {A : Type} (code : Z) : Run A :=
  mkRun [ProcessExit code] 0 (Exited code).

(** A built-in that returns or throws, as a block. *)
Definition lift {A : Type} (o : Outcome A) : Run A :=
  match o with
  | Returns a => ret a
  | Raises e => throw e
  end.

(** [try { body } catch (e) { handler }], and [p.catch(handler)] on the
    promise of an async block: only a throw reaches the handler. *)
Definition try_catch {A : Type} (body : Run A) (handler : JsError -> Run A) : Run A :=
  match completion body with
  | Throw e =>
      let r := handler e in
      mkRun (trace body ++ trace r) (elapsed body + elapsed r) (completion r)
  | _ => body
  end.

(** [p.finally(handler)]: the handler runs once [p] has settled either way,
    and the settlement of [p] is kept unless the handler itself ends
    otherwise.  It does not run when the process has exited or [p] never
    settles. *)
Definition finally_ {A : Type} (body : Run A) (handler : Run unit) : Run A :=
  match completion body with
  | Normal _ | Throw _ =>
      mkRun (trace body ++ trace handler) (elapsed body + elapsed handler)
        (match completion handler with
         | Normal _ => completion body
         | Throw e => Throw e
         | Exited code => Exited code
         | Suspended => Suspended
         end)
  | Exited _ | Suspended => body
  end.

(** [await v] *)
Definition await (v : Value) : Run Value :=
  match v with
  | VPromise (Settles ms (Fulfilled x)) => mkRun [] ms (Normal x)
  | VPromise (Settles ms (Rejected e)) => mkRun [] ms (Throw e)
  | VPromise NeverSettles => mkRun [] 0 Suspended
  | _ => ret v
  end.

(** Calling an [async] function whose body does nothing observable after
    its last [await]: the synchronous part runs at once, and the promise
    returned settles when and how the body completes. *)
Definition async (body : Run Value) : Run Promise :=
  mkRun (trace body) 0
    (match completion body with
     | Normal v => Normal (Settles (elapsed body) (Fulfilled v))
     | Throw e => Normal (Settles (elapsed body) (Rejected e))
     | Exited code => Exited code
     | Suspended => Normal NeverSettles
     end).

(** [new Promise((_, reject) => setTimeout(() => reject(err), ms))] *)
Definition reject_after (ms : Z) (err : JsError) : Run Promise :=
  emit (SetTimeout ms) ;; ret (Settles ms (Rejected err)).

(** [Promise.race([...])]: settles as the member that settles first; of two
    members settled at the same time the earlier in the array wins. *)
Definition race2 (p q : Promise) : Promise :=
  match p, q with
  | NeverSettles, _ => q
  | _, NeverSettles => p
  | Settles tp _, Settles tq _ => if tp <=? tq then p else q
  end.

Fixpoint Promise_race (ps : list Promise) : Promise :=
  match ps with
  | [] => NeverSettles
  | p :: rest => race2 p (Promise_race rest)
  end.

(** ** The environment of a run *)

(** Everything outside the script: what each library call does with its
    arguments, the library constant [Schema.String], [process.version],
    [JSON.stringify(v, null, 2)], [Array.from(v)] for a value handed out by
    the library, the engine's answer to [v > 0] for an operand that is a
    string or an object (ToPrimitive and ToNumber are not modelled), and
    the results with which the store runs the [onUpdate] handler of the
    corrected script during a call, in order, before the call returns or
    raises.  Nothing ties these runs to an earlier [subscribe]: a store
    that was never handed the handler has none to make, and what is proved
    for every environment holds for such a store as well. *)
Record Env : Type := mkEnv {
  lib_call : CallSite -> list Value -> Outcome Value;
  Schema_String : Value;
  process_version : Value;
  JSON_stringify : Value -> Outcome Value;
  Array_from : Value -> Outcome Value;
  coerced_gt_zero : Value -> bool;
  onUpdate_runs : CallSite -> list Value -> list Value
}.

(** A call into the library at [site]. *)
Definition lib (env : Env) (site : CallSite) (args : list Value) : Run Value :=
  emit (LibCall site args) ;; lift (lib_call env site args).

(** [v > 0] *)
Definition gt_zero (env : Env) (v : Value) : bool :=
  match v with
  | VUndefined | VNull => false
  | VBool b => b
  | VNumber n => 0 <? n
  | _ => coerced_gt_zero env v
  end.

Definition strings (l : list string) : Value := VArray (map VString l).

Definition dq : string := String (ascii_of_nat 34) EmptyString.

(** [receiver.method(args)] on an object the library handed out; the
    receiver is recorded in front of the arguments. *)
Definition method (env : Env) (site : CallSite) (receiver : Value)
    (args : list Value) : Run Value :=
  lib env site (receiver :: args).

(** [p.catch(handler)] on the promise of an async block. *)
Definition promise_catch {A : Type} (p : Run A) (handler : JsError -> Run A) : Run A :=
  try_catch p handler.

(** What the read of [receiver.name] finds when it is the callee of a call
    [receiver.name(...)].  On [undefined] and [null] the read throws, before
    any argument of the call is evaluated.  An object or a function of the
    library's keeps its methods to itself (they are no own enumerable
    properties): whether [name] is a function there is for the library to
    say, and the call of a missing method is a call that raises; only an own
    property that is no function settles it here.  Every other value, a
    primitive, an array, a Map, an error or a promise, has no method of the
    names the scripts use.  [true] stands for a function of the library's,
    [false] for a value that is no function. *)
Definition method_of (receiver : Value) (name : string) : Outcome bool :=
  match receiver with
  | VUndefined | VNull =>
      Raises (TypeError ("Cannot read properties of "
                         ++ describe_nullish receiver
                         ++ " (reading '" ++ name ++ "')"))
  | VObject props =>
      match lookup_prop name props with
      | VUndefined | VFunction _ => Returns true
      | _ => Returns false
      end
  | VFunction _ => Returns true
  | _ => Returns false
  end.

(** The error of a call whose callee, written [expr] in the source, is no
    function. *)
Definition not_a_function (expr : string) : JsError :=
  TypeError (expr ++ " is not a function").

(** The call [receiver.name(args)] once the callee was read and the
    arguments were evaluated; [expr] is the callee as the source writes
    it. *)
Definition call_method (env : Env) (site : CallSite) (expr : string)
    (callee : bool) (receiver : Value) (args : list Value) : Run Value :=
  if callee then lib env site (receiver :: args)
  else throw (not_a_function expr).

(** The call [f(args)] of a value: only a function can be called. *)
Definition call_function (env : Env) (site : CallSite) (expr : string)
    (f : Value) (args : list Value) : Run Value :=
  match f with
  | VFunction _ => lib env site (f :: args)
  | _ => throw (not_a_function expr)
  end.

(** ** The part the two scripts have in common

    Lines 12-61 (steps 1 to 3) and the function [testWithTimeout] read the
    same in [src/test-bug.js] and in [src/unnamed/part_000]. *)
Module Shared.
Section Script.
Variable env : Env.

(** Step 1 (lines 13-26).  The arguments of a call are evaluated before the
    call, so [Schema.Struct] runs before [Events.synced]. *)
Definition step1_events : Run Value :=
  console_log [Lit "Step 1: Defining events..."] ;;
  struct <- lib env Schema_Struct
      [VObject [("id", Schema_String env); ("message", Schema_String env)]] ;;
  testEvent <- lib env Events_synced
      [VObject [("name", VString "v1.TestEvent"); ("schema", struct)]] ;;
  let events := VObject [("testEvent", testEvent)] in
  keys <- lift (Object_keys events) ;;
  console_log [Lit "✅ Events defined:"; Val (strings keys)] ;;
  t <- lift (get_prop events "testEvent") ;;
  console_log [Lit "✅ Event function type:"; Val (VString (js_typeof t))] ;;
  console_log [Lit ""] ;;
  ret events.

(** The handler of lines 41-42; the library calls it, the script does not. *)
Definition materializer_handler : Value :=
  VFunction "({ id, message }) => tables.testTable.insert({ id, message })".

(** Step 2 (lines 29-51); returns [tables] and [state]. *)
Definition step2_state (events : Value) : Run (Value * Value) :=
  console_log [Lit "Step 2: Defining state..."] ;;
  id_column <- lib env SQLite_text_id [VObject [("primaryKey", VBool true)]] ;;
  message_column <- lib env SQLite_text_message [] ;;
  testTable <- lib env SQLite_table
      [VObject [("name", VString "test");
                ("columns", VObject [("id", id_column);
                                     ("message", message_column)])]] ;;
  let tables := VObject [("testTable", testTable)] in
  materializers <- lib env SQLite_materializers
      [events; VObject [("v1.TestEvent", materializer_handler)]] ;;
  state <- lib env SQLite_makeState
      [VObject [("tables", tables); ("materializers", materializers)]] ;;
  console_log [Lit "✅ State defined with materializers"] ;;
  console_log [Lit ""] ;;
  ret (tables, state).

(** Step 3 (lines 54-61). *)
Definition step3_schema (events state : Value) : Run Value :=
  console_log [Lit "Step 3: Creating schema with makeSchema()..."] ;;
  schema <- lib env makeSchema
      [VObject [("events", events); ("state", state)]] ;;
  console_log [Lit "✅ Schema created"] ;;
  console_log [Lit ""] ;;
  ret schema.

Definition timeoutMs : Z := 5000.

(** [testWithTimeout] (lines 112-127) *)
Definition testWithTimeout (schema : Value) : Run Promise :=
  async (
    adapter <- lib env makeAdapter
        [VObject [("storage", VObject [("type", VString "in-memory")])]] ;;
    creation <- lib env createStorePromise
        [VObject [("adapter", adapter); ("schema", schema);
                  ("storeId", VString "test-bug-repro")]] ;;
    store <- await creation ;;
    ret store).

(** The awaited race (lines 130-138 of [src/test-bug.js], 113-121 of the
    corrected script): the array is built left to right, so the store
    creation is started before the timer is set. *)
Definition race_store_creation (schema : Value) : Run Value :=
  creation <- testWithTimeout schema ;;
  timer <- reject_after timeoutMs (Error "Store creation timed out") ;;
  await (VPromise (Promise_race [creation; timer])).

(** The lines that open [main] up to the schema (lines 8-61), given the
    title line; returns [events], [tables] and [schema]. *)
Definition steps_1_to_3 (title : string) : Run (Value * Value * Value) :=
  console_log [Lit title] ;;
  console_log [Lit "=============================================="] ;;
  console_log [Lit ""] ;;
  events <- step1_events ;;
  ts <- step2_state events ;;
  schema <- step3_schema events (snd ts) ;;
  ret (events, fst ts, schema).

(** Several [console.log] lines in a row. *)
Definition emit_all (es : list Event) : Run unit := mkRun es 0 (Normal tt).

End Script.
End Shared.

(** ** src/test-bug.js *)

Module TestBug.
Import Shared.
Section Script.
Variable env : Env.

(** [Object.keys(schema.eventsDefsMap || {})] *)
Definition eventsDefsMap_keys_guarded (schema : Value) : Run (list string) :=
  m <- lift (get_prop schema "eventsDefsMap") ;;
  lift (Object_keys (js_or m (VObject []))).

(** Step 4 (lines 64-75). *)
Definition step4_inspect (schema : Value) : Run unit :=
  console_log [Lit "Step 4: Inspecting schema results..."] ;;
  schema_keys <- lift (Object_keys schema) ;;
  console_log [Lit "Schema keys:"; Val (strings schema_keys)] ;;
  console_log [Lit ""] ;;
  console_log [Lit "🔍 EXPECTED: eventsDefsMap should contain event definitions"] ;;
  console_log [Lit "📊 ACTUAL RESULTS:"] ;;
  keys <- eventsDefsMap_keys_guarded schema ;;
  console_log [Lit "  eventsDefsMap keys:"; Val (strings keys)] ;;
  keys' <- eventsDefsMap_keys_guarded schema ;;
  console_log [Lit "  eventsDefsMap count:";
               Val (VNumber (Z.of_nat (List.length keys')))] ;;
  console_log [Lit ""].

Definition bug_confirmed_lines : list Event :=
  [ ConsoleLog [Lit "❌ BUG CONFIRMED: eventsDefsMap is empty!"];
    ConsoleLog [Lit ""];
    ConsoleLog [Lit "This causes the following errors when creating a store:"];
    ConsoleLog [Lit ("  - store.subscribe(" ++ dq ++ "v1.TestEvent" ++ dq
       ++ ", callback) throws: " ++ dq
       ++ "Cannot read properties of undefined (reading 'super')" ++ dq)];
    ConsoleLog [Lit ("  - store.commit(" ++ dq ++ "v1.TestEvent" ++ dq
       ++ ", data) throws: " ++ dq ++ "No mutation definition found" ++ dq)];
    ConsoleLog [Lit ""];
    ConsoleLog [Lit "📋 Expected behavior (from official docs):"];
    ConsoleLog [Lit ("  - eventsDefsMap should contain: { " ++ dq
       ++ "v1.TestEvent" ++ dq ++ ": [EventDefinition] }")];
    ConsoleLog [Lit "  - store.subscribe() and store.commit() should work normally"] ].

Definition working_lines : list Event :=
  [ ConsoleLog [Lit "✅ Schema appears to be working correctly"] ].

(** The condition of line 80:
    [Object.keys(schema.eventsDefsMap || {}).length === 0] *)
Definition eventsDefsMap_is_empty (schema : Value) : Run bool :=
  keys <- eventsDefsMap_keys_guarded schema ;;
  ret (Z.of_nat (List.length keys) =? 0).

(** Step 5 (lines 78-102). *)
Definition step5_impact (schema : Value) : Run unit :=
  console_log [Lit "Step 5: Demonstrating bug impact..."] ;;
  empty <- eventsDefsMap_is_empty schema ;;
  (if (empty : bool)
   then emit_all bug_confirmed_lines
   else emit_all working_lines) ;;
  console_log [Lit ""].

(** The callback of lines 146-148. *)
Definition subscribe_callback : Value :=
  VFunction ("(event) => { console.log(" ++ dq ++ "Event received:" ++ dq
             ++ ", event); }").

(** Test 1 (lines 144-154) *)
Definition test1_subscribe (store : Value) : Run unit :=
  console_log [Lit "Test 1: Attempting store.subscribe()..."] ;;
  try_catch
    (method env store_subscribe store
        [VString "v1.TestEvent"; subscribe_callback] ;;
     console_log [Lit "✅ Subscribe worked (unexpected - bug may be fixed!)"])
    (fun subscribeError =>
     console_log [Lit "❌ SUBSCRIBE FAILED:";
                  Val (VString (err_message subscribeError))] ;;
     console_log [Lit "   Error type:";
                  Val (VString (err_constructor_name subscribeError))] ;;
     console_log [Lit "   This confirms the eventsDefsMap bug impact"]).

(** Test 2 (lines 159-170) *)
Definition test2_commit (store : Value) : Run unit :=
  console_log [Lit "Test 2: Attempting store.commit()..."] ;;
  try_catch
    (method env store_commit store
        [VString "v1.TestEvent";
         VObject [("id", VString "test-123");
                  ("message", VString "Hello World")]] ;;
     console_log [Lit "✅ Commit worked (unexpected - bug may be fixed!)"])
    (fun commitError =>
     console_log [Lit "❌ COMMIT FAILED:";
                  Val (VString (first_line (err_message commitError)))] ;;
     console_log [Lit "   Error type:";
                  Val (VString (err_constructor_name commitError))] ;;
     console_log [Lit "   This confirms the eventsDefsMap bug impact"]).

(** Step 6 (lines 105-185) *)
Definition step6_store (schema : Value) : Run unit :=
  console_log [Lit "Step 6: Creating store and testing subscribe/commit..."] ;;
  console_log [Lit ""] ;;
  console_log [Lit ("⏱️  Setting " ++ string_of_Z timeoutMs
                        ++ "ms timeout to prevent hanging...")] ;;
  try_catch
    (store <- race_store_creation env schema ;;
     console_log [Lit "✅ Store created successfully"] ;;
     console_log [Lit ""] ;;
     test1_subscribe store ;;
     console_log [Lit ""] ;;
     test2_commit store ;;
     console_log [Lit ""] ;;
     console_log [Lit "💡 Both failures are directly caused by the empty eventsDefsMap"] ;;
     console_log [Lit ""] ;;
     console_log [Lit "🔄 Closing store..."] ;;
     closing <- method env store_close store [] ;;
     await closing ;;
     console_log [Lit "✅ Store closed"])
    (fun storeError =>
     console_log [Lit "❌ STORE CREATION FAILED:";
                  Val (VString (err_message storeError))] ;;
     console_log [Lit "   This might be another symptom of the same bug"]).

(** Lines 187-197. *)
Definition final_diagnostics (schema : Value) : Run unit :=
  console_log [Lit ""] ;;
  console_log [Lit "🔗 Reference: https://docs.livestore.dev/reference/syncing/server-side-clients/"] ;;
  console_log [Lit "📦 LiveStore version:"; Lit "0.3.1"] ;;
  console_log [Lit "🚀 Node.js version:"; Val (process_version env)] ;;
  console_log [Lit ""] ;;
  console_log [Lit "Full schema structure:"] ;;
  json <- lift (JSON_stringify env schema) ;;
  console_log [Val json] ;;
  console_log [Lit ""] ;;
  console_log [Lit "🏁 Test completed - exiting..."].

(** [async function main()] (lines 7-198) *)
Definition main : Run unit :=
  ets <- steps_1_to_3 env "🔍 LiveStore Node.js Adapter Bug Reproduction" ;;
  let schema := snd ets in
  step4_inspect schema ;;
  step5_impact schema ;;
  step6_store schema ;;
  final_diagnostics schema.

(** Lines 201-209: [main().catch(...).finally(...)]. *)
Definition script : Run unit :=
  finally_
    (promise_catch main
       (fun error =>
        console_error [Lit "❌ Unhandled error:"; Val (VError error)] ;;
        process_exit 1))
    (process_exit 0).

End Script.
End TestBug.

(** ** src/unnamed/part_000, the corrected script *)

Module Fixed.
Import Shared.
Section Script.
Variable env : Env.

(** [Array.from(schema.eventsDefsMap.keys())] (line 71).  [keys] is built in
    for a Map and an array, whose iterator is given by the list it yields;
    an ordinary object has it only as an own property, a function of the
    library's. *)
Definition eventsDefsMap_keys_array (m : Value) : Run Value :=
  match m with
  | VUndefined | VNull =>
      throw (TypeError ("Cannot read properties of " ++ describe_nullish m
                        ++ " (reading 'keys')"))
  | VMap entries => ret (VArray (map fst entries))
  | VArray items =>
      ret (VArray (map (fun i => VNumber (Z.of_nat i))
                       (seq 0 (List.length items))))
  | VObject props =>
      match lookup_prop "keys" props with
      | VFunction _ =>
          r <- method env eventsDefsMap_keys m [] ;;
          lift (Array_from env r)
      | _ => throw (TypeError "schema.eventsDefsMap.keys is not a function")
      end
  | _ => throw (TypeError "schema.eventsDefsMap.keys is not a function")
  end.

(** [schema.eventsDefsMap.size] *)
Definition eventsDefsMap_size (schema : Value) : Run Value :=
  m <- lift (get_prop schema "eventsDefsMap") ;;
  lift (get_prop m "size").

(** Step 4 (lines 64-72). *)
Definition step4_inspect (schema : Value) : Run unit :=
  console_log [Lit "Step 4: Inspecting schema results (CORRECTED)..."] ;;
  schema_keys <- lift (Object_keys schema) ;;
  console_log [Lit "Schema keys:"; Val (strings schema_keys)] ;;
  console_log [Lit ""] ;;
  console_log [Lit "🔍 CORRECTED: Using proper Map inspection methods"] ;;
  console_log [Lit "📊 ACTUAL RESULTS:"] ;;
  size <- eventsDefsMap_size schema ;;
  console_log [Lit "  eventsDefsMap size:"; Val size] ;;
  m <- lift (get_prop schema "eventsDefsMap") ;;
  keys <- eventsDefsMap_keys_array m ;;
  console_log [Lit "  eventsDefsMap keys:"; Val keys] ;;
  console_log [Lit ""].

Definition populated_lines : list Event :=
  [ ConsoleLog [Lit "✅ CORRECTED: eventsDefsMap is properly populated!"];
    ConsoleLog [Lit "   The original bug report was due to incorrect Map inspection"];
    ConsoleLog [Lit "   (Used Object.keys() on a Map instead of .size and Array.from(.keys()))"] ].

Definition still_empty_lines : list Event :=
  [ ConsoleLog [Lit "❌ eventsDefsMap is still empty - this would be a real bug"] ].

(** The condition of line 77: [schema.eventsDefsMap.size > 0] *)
Definition eventsDefsMap_is_populated (schema : Value) : Run bool :=
  size <- eventsDefsMap_size schema ;;
  ret (gt_zero env size).

(** Step 5 (lines 75-85). *)
Definition step5_verify (schema : Value) : Run unit :=
  console_log [Lit "Step 5: Verifying eventsDefsMap is properly populated..."] ;;
  populated <- eventsDefsMap_is_populated schema ;;
  (if (populated : bool)
   then emit_all populated_lines
   else emit_all still_empty_lines) ;;
  console_log [Lit ""].

(** The callback of lines 134-136, as the value handed to the store. *)
Definition onUpdate_callback : Value :=
  VFunction ("(results) => { console.log(" ++ dq ++ "Query results updated:"
             ++ dq ++ ", results); }").

(** Its body (line 135), run with [results]. *)
Definition onUpdate (results : Value) : Run unit :=
  console_log [Lit "Query results updated:"; Val results].

(** The handler run once for each of [runs], in order. *)
Fixpoint run_handler (runs : list Value) : Run unit :=
  match runs with
  | [] => ret tt
  | results :: rest => onUpdate results ;; run_handler rest
  end.

(** The call [store.name(args)] of a method of the store, once the callee
    was read and the arguments were evaluated: a call into the library
    during which the store may run the handler. *)
Definition call_store (site : CallSite) (expr : string) (callee : bool)
    (store : Value) (args : list Value) : Run Value :=
  if callee
  then emit (LibCall site (store :: args)) ;;
       run_handler (onUpdate_runs env site (store :: args)) ;;
       lift (lib_call env site (store :: args))
  else throw (not_a_function expr).

(** Test 1 (lines 127-145).  In [queryDb(tables.testTable.where({}))] the
    argument is evaluated before [queryDb] is called; in
    [store.subscribe(...)] the callee is read first. *)
Definition test1_subscribe (tables store : Value) : Run unit :=
  console_log [Lit "Test 1: Attempting store.subscribe() with CORRECT API..."] ;;
  try_catch
    (testTable <- lift (get_prop tables "testTable") ;;
     where_ <- lift (method_of testTable "where") ;;
     filter <- call_method env table_where "tables.testTable.where" where_
                 testTable [VObject []] ;;
     testQuery <- lib env queryDb [filter] ;;
     subscribe <- lift (method_of store "subscribe") ;;
     call_store store_subscribe "store.subscribe" subscribe store
        [testQuery; VObject [("onUpdate", onUpdate_callback)]] ;;
     console_log [Lit "✅ Subscribe worked with correct API!"] ;;
     console_log [Lit "   Used queryDb() to create query object"] ;;
     console_log [Lit "   Subscribed to query object, not event string"])
    (fun subscribeError =>
     console_log [Lit "❌ SUBSCRIBE FAILED:";
                  Val (VString (err_message subscribeError))] ;;
     console_log [Lit "   Error type:";
                  Val (VString (err_constructor_name subscribeError))] ;;
     console_log [Lit "   This would indicate a different issue"]).

(** Test 2 (lines 150-163).  In [store.commit(events.testEvent({...}))]
    the callee [store.commit] is read first (which throws on a store that is
    [undefined] or [null]), then the argument is evaluated, which calls the
    event factory, and then [commit] is called. *)
Definition test2_commit (events store : Value) : Run unit :=
  console_log [Lit "Test 2: Attempting store.commit() with CORRECT API..."] ;;
  try_catch
    (commit <- lift (method_of store "commit") ;;
     testEvent <- lift (get_prop events "testEvent") ;;
     event <- call_function env events_testEvent "events.testEvent" testEvent
        [VObject [("id", VString "test-123");
                  ("message", VString "Hello World")]] ;;
     call_store store_commit "store.commit" commit store [event] ;;
     console_log [Lit "✅ Commit worked with correct API!"] ;;
     console_log [Lit "   Used events.testEvent(data) instead of string"])
    (fun commitError =>
     console_log [Lit "❌ COMMIT FAILED:";
                  Val (VString (first_line (err_message commitError)))] ;;
     console_log [Lit "   Error type:";
                  Val (VString (err_constructor_name commitError))] ;;
     console_log [Lit "   This would indicate a different issue"]).

(** Step 6 (lines 88-178) *)
Definition step6_store (events tables schema : Value) : Run unit :=
  console_log [Lit "Step 6: Creating store and testing CORRECT subscribe/commit..."] ;;
  console_log [Lit ""] ;;
  console_log [Lit ("⏱️  Setting " ++ string_of_Z timeoutMs
                        ++ "ms timeout to prevent hanging...")] ;;
  try_catch
    (store <- race_store_creation env schema ;;
     console_log [Lit "✅ Store created successfully"] ;;
     console_log [Lit ""] ;;
     test1_subscribe tables store ;;
     console_log [Lit ""] ;;
     test2_commit events store ;;
     console_log [Lit ""] ;;
     console_log [Lit "💡 Key fixes applied:"] ;;
     console_log [Lit "   1. Added queryDb import"] ;;
     console_log [Lit "   2. Created query object with queryDb(tables.testTable.where({}))"] ;;
     console_log [Lit "   3. Subscribe to query object, not event string"] ;;
     console_log [Lit "   4. Commit with events.testEvent(data), not string"] ;;
     console_log [Lit ""] ;;
     console_log [Lit "✅ Store operations completed successfully"])
    (fun storeError =>
     console_log [Lit "❌ STORE CREATION FAILED:";
                  Val (VString (err_message storeError))] ;;
     console_log [Lit "   This might indicate a different issue"]).

(** Lines 180-190. *)
Definition final_diagnostics : Run unit :=
  console_log [Lit ""] ;;
  console_log [Lit "📚 Key Learnings:"] ;;
  console_log [Lit "   • Events are for committing: store.commit(events.eventName(data))"] ;;
  console_log [Lit "   • Queries are for subscribing: store.subscribe(queryDb(...), options)"] ;;
  console_log [Lit "   • eventsDefsMap is a Map, not an object - use .size and Array.from(.keys())"] ;;
  console_log [Lit ""] ;;
  console_log [Lit "🔗 Reference: https://docs.livestore.dev/reference/syncing/server-side-clients/"] ;;
  console_log [Lit "📦 LiveStore version:"; Lit "0.3.1"] ;;
  console_log [Lit "🚀 Node.js version:"; Val (process_version env)] ;;
  console_log [Lit ""] ;;
  console_log [Lit "🏁 Test completed with CORRECT API usage - exiting..."].

(** [async function main()] (lines 7-191) *)
Definition main : Run unit :=
  ets <- steps_1_to_3 env "🔍 LiveStore Node.js Adapter - Fixed API Usage" ;;
  let '(events, tables, schema) := ets in
  step4_inspect schema ;;
  step5_verify schema ;;
  step6_store events tables schema ;;
  final_diagnostics.

(** Lines 194-202: [main().catch(...).finally(...)]. *)
Definition script : Run unit :=
  finally_
    (promise_catch main
       (fun error =>
        console_error [Lit "❌ Unhandled error:"; Val (VError error)] ;;
        process_exit 1))
    (process_exit 0).

End Script.
End Fixed.

(** ** src/unnamed/part_001, the script without the store block

    The module body is the text of steps 1 to 5 of [src/test-bug.js]
    (lines 8-102 there, lines 5-88 here) outside any function, followed by
    the reference lines and the dump of the schema.  It has no [main], no
    store and no exit handler; what Node.js does with an error that leaves
    the module is not part of the text and not modelled. *)

Module SchemaOnly.
Import Shared.
Section Script.
Variable env : Env.

(** Lines 89-94. *)
Definition final_diagnostics (schema : Value) : Run unit :=
  console_log [Lit "🔗 Reference: https://docs.livestore.dev/reference/syncing/server-side-clients/"] ;;
  console_log [Lit "📦 LiveStore version:"; Lit "0.3.1"] ;;
  console_log [Lit "🚀 Node.js version:"; Val (process_version env)] ;;
  console_log [Lit ""] ;;
  console_log [Lit "Full schema structure:"] ;;
  json <- lift (JSON_stringify env schema) ;;
  console_log [Val json].

(** Lines 5-94. *)
Definition script : Run unit :=
  ets <- steps_1_to_3 env "🔍 LiveStore Node.js Adapter Bug Reproduction" ;;
  let schema := snd ets in
  TestBug.step4_inspect schema ;;
  TestBug.step5_impact schema ;;
  final_diagnostics schema.

End Script.
End SchemaOnly.

(** ** Observations on a trace *)

Scheme Equality for CallSite.

(** The library call sites reached, in order. *)
Definition calls (tr : list Event) : list CallSite :=
  flat_map (fun e => match e with LibCall site _ => [site] | _ => [] end) tr.

(** How often [site] is called. *)
Definition call_count (site : CallSite) (tr : list Event) : nat :=
  List.length (filter (CallSite_beq site) (calls tr)).

(** The exit codes passed to [process.exit], in order. *)
Definition exit_codes (tr : list Event) : list Z :=
  flat_map (fun e => match e with ProcessExit code => [code] | _ => [] end) tr.

(** The landmarks of a run: the "Step n:" headings, the library calls, the
    timer, and the first line of text of the final diagnostics. *)
Inductive Marker : Type :=
| MHeading (n : nat)
| MCall (site : CallSite)
| MTimer
| MFinal.

Scheme Equality for Marker.

Definition heading (text : string) : list Marker :=
  if prefix "Step 1:" text then [MHeading 1]
  else if prefix "Step 2:" text then [MHeading 2]
  else if prefix "Step 3:" text then [MHeading 3]
  else if prefix "Step 4:" text then [MHeading 4]
  else if prefix "Step 5:" text then [MHeading 5]
  else if prefix "Step 6:" text then [MHeading 6]
  else if prefix "🔗 Reference:" text then [MFinal]
  else [].

Definition marker (e : Event) : list Marker :=
  match e with
  | LibCall site _ => [MCall site]
  | SetTimeout _ => [MTimer]
  | ConsoleLog (Lit text :: _) => heading text
  | _ => []
  end.

Definition markers (tr : list Event) : list Marker := flat_map marker tr.

(** [subseq l c]: [l] is [c] with some elements left out. *)
Fixpoint subseq (l c : list Marker) : bool :=
  match l, c with
  | [], _ => true
  | _ :: _, [] => false
  | x :: l', y :: c' => if Marker_beq x y then subseq l' c' else subseq l c'
  end.

(** The order of [main] in [src/test-bug.js], top to bottom. *)
Definition script_order : list Marker :=
  [ MHeading 1; MCall Schema_Struct; MCall Events_synced;   (* the event *)
    MHeading 2; MCall SQLite_text_id; MCall SQLite_text_message;
    MCall SQLite_table; MCall SQLite_materializers;
    MCall SQLite_makeState;                                 (* table, state *)
    MHeading 3; MCall makeSchema;                           (* schema factory *)
    MHeading 4; MHeading 5;                                 (* inspection *)
    MHeading 6; MCall makeAdapter; MCall createStorePromise;
    MTimer;                                                 (* the race *)
    MCall store_subscribe;
    MCall store_commit;
    MCall store_close;
    MFinal ].                                               (* diagnostics *)

(** The success and failure lines: what [console.log] or [console.error]
    prints with a first argument that is a literal starting with a check
    mark or a cross. *)
Definition narration_line (e : Event) : list string :=
  match e with
  | ConsoleLog (Lit text :: _) | ConsoleError (Lit text :: _) =>
      if prefix "✅" text || prefix "❌" text then [text] else []
  | _ => []
  end.

Definition narration (tr : list Event) : list string :=
  flat_map narration_line tr.




(** The receiver of a method call is not one of its arguments. *)
Definition is_method (site : CallSite) : bool :=
  match site with
  | store_subscribe | store_commit | store_close
  | table_where | events_testEvent | eventsDefsMap_keys => true
  | _ => false
  end.

Definition passed (site : CallSite) (args : list Value) : list Value :=
  if is_method site then tl args else args.

(** A non-null object. *)
Definition is_object (v : Value) : Prop :=
  match v with
  | VFunction _ | VArray _ | VObject _ | VMap _ | VError _ | VPromise _ => True
  | VUndefined | VNull | VBool _ | VNumber _ | VString _ => False
  end.

(** [ordered r c]: the landmarks of [r] occur in the order of [c]. *)
Definition ordered {A : Type} (r : Run A) (c : list Marker) : Prop :=
  subseq (markers (trace r)) c = true.

(** [every p r]: all events of [r] satisfy [p]. *)
Definition every {A : Type} (p : Event -> bool) (r : Run A) : Prop :=
  forallb p (trace r) = true.

(** A value that [await] hands over before the timeout: anything but a
    promise that is rejected, is still pending, or takes [timeoutMs] or
    longer. *)
Definition settles_in_time (v : Value) : Prop :=
  match v with
  | VPromise (Settles ms (Fulfilled _)) => ms < Shared.timeoutMs
  | VPromise _ => False
  | _ => True
  end.

(** [undefined] or [null]. *)
Definition nullish (v : Value) : bool :=
  match v with VUndefined | VNull => true | _ => false end.

(** Nothing goes wrong: every library call returns, what it returns can be
    awaited in time, the schema is an object of some kind, and
    [JSON.stringify] returns. *)
Definition all_calls_succeed (env : Env) : Prop :=
  (forall site args, exists v,
      lib_call env site args = Returns v /\ settles_in_time v
      /\ (site = makeSchema -> nullish v = false))
  /\ (forall v, exists json, JSON_stringify env v = Returns json).

(** [runs_to r l a]: [r] completes normally with [a], passing the landmarks
    [l]. *)
Definition runs_to {A : Type} (r : Run A) (l : list Marker) (a : A) : Prop :=
  markers (trace r) = l /\ completion r = Normal a.

(** An event that cancels nothing: it is not a [clearTimeout], and when it
    is the call of [createStorePromise], the options carry [adapter],
    [schema] and [storeId] and no cancellation token. *)
Definition cancels_nothing (e : Event) : bool :=
  match e with
  | ClearTimeout => false
  | LibCall createStorePromise [VObject [(k1, _); (k2, _); (k3, _)]] =>
      String.eqb k1 "adapter" && String.eqb k2 "schema"
      && String.eqb k3 "storeId"
  | LibCall createStorePromise _ => false
  | _ => true
  end.

(** The promise of the timer in the race. *)
Definition timer_promise : Promise :=
  Settles 5000 (Rejected (Error "Store creation timed out")).

(** ** Sample environments *)

Definition sample_schema : Value :=
  VObject [("eventsDefsMap",
            VMap [(VString "v1.TestEvent",
                   VObject [("name", VString "v1.TestEvent")])]);
           ("state", VObject [])].

Definition sample_store : Value := VObject [("storeId", VString "test-bug-repro")].

(** A library that answers every call, the store after 120 ms. *)
Definition obliging_library (site : CallSite) (args : list Value) : Outcome Value :=
  match site with
  | Events_synced => Returns (VFunction "testEvent")
  | makeSchema => Returns sample_schema
  | createStorePromise => Returns (VPromise (Settles 120 (Fulfilled sample_store)))
  | store_close => Returns (VPromise (Settles 3 (Fulfilled VUndefined)))
  | _ => Returns (VObject [])
  end.

Definition host (library : CallSite -> list Value -> Outcome Value) : Env :=
  mkEnv library (VFunction "String") (VString "v24.1.0")
    (fun _ => Returns (VString "{}")) (fun v => Returns v) (fun _ => false)
    (fun _ _ => []).

Definition obliging_env : Env := host obliging_library.

(** The library as the README describes it: [subscribe] and [commit]
    called with an event name raise, called as documented they return. *)
Definition strict_library (site : CallSite) (args : list Value) : Outcome Value :=
  match site, args with
  | store_subscribe, [_; VString _; _] =>
      Raises (TypeError "Cannot read properties of undefined (reading 'super')")
  | store_commit, [_; VString _; _] =>
      Raises (Error ("No mutation definition found"
                     ++ String (ascii_of_nat 10) "    at commit"))
  | _, _ => obliging_library site args
  end.

Definition strict_env : Env := host strict_library.

(** A library whose store creation never settles. *)
Definition hanging_library (site : CallSite) (args : list Value) : Outcome Value :=
  match site with
  | createStorePromise => Returns (VPromise NeverSettles)
  | _ => obliging_library site args
  end.

Definition hanging_env : Env := host hanging_library.

(** A library whose store creation is rejected after 10 ms. *)
Definition refusing_library (site : CallSite) (args : list Value) : Outcome Value :=
  match site with
  | createStorePromise =>
      Returns (VPromise (Settles 10 (Rejected (Error "adapter not ready"))))
  | _ => obliging_library site args
  end.

Definition refusing_env : Env := host refusing_library.

(** ** Notions used in the statements *)

(** [returns_control r]: [r] does not end the process. *)
Definition returns_control {A : Type} (r : Run A) : Prop :=
  forall code, completion r <> Exited code.

(** An event that neither ends the process nor cancels a timer. *)
Definition keeps_going (e : Event) : bool :=
  match e with
  | ProcessExit _ | ClearTimeout => false
  | _ => true
  end.

(** The receiver and the arguments of [store.subscribe(...)] (line 146) and
    of [store.commit(...)] (line 161). *)
Definition subscribe_args (store : Value) : list Value :=
  [store; VString "v1.TestEvent"; TestBug.subscribe_callback].

Definition commit_args (store : Value) : list Value :=
  [store; VString "v1.TestEvent";
   VObject [("id", VString "test-123"); ("message", VString "Hello World")]].

(** What Test 1 prints after the call, by what the call did. *)
Definition subscribe_lines (o : Outcome Value) : list Event :=
  match o with
  | Returns _ =>
      [ConsoleLog [Lit "✅ Subscribe worked (unexpected - bug may be fixed!)"]]
  | Raises e =>
      [ConsoleLog [Lit "❌ SUBSCRIBE FAILED:"; Val (VString (err_message e))];
       ConsoleLog [Lit "   Error type:";
                   Val (VString (err_constructor_name e))];
       ConsoleLog [Lit "   This confirms the eventsDefsMap bug impact"]]
  end.

(** What Test 2 prints after the call, by what the call did. *)
Definition commit_lines (o : Outcome Value) : list Event :=
  match o with
  | Returns _ =>
      [ConsoleLog [Lit "✅ Commit worked (unexpected - bug may be fixed!)"]]
  | Raises e =>
      [ConsoleLog [Lit "❌ COMMIT FAILED:";
                   Val (VString (first_line (err_message e)))];
       ConsoleLog [Lit "   Error type:";
                   Val (VString (err_constructor_name e))];
       ConsoleLog [Lit "   This confirms the eventsDefsMap bug impact"]]
  end.

(** How [await store.close()] and the line after it end. *)
Definition close_run (env : Env) (store : Value) : Run unit :=
  closing <- method env store_close store [] ;;
  await closing ;;
  console_log [Lit "✅ Store closed"].

(** What the outer handler prints (lines 183-184). *)
Definition store_failure_lines (e : JsError) : list Event :=
  [ConsoleLog [Lit "❌ STORE CREATION FAILED:"; Val (VString (err_message e))];
   ConsoleLog [Lit "   This might be another symptom of the same bug"]].

(** [e] is a call at [site]. *)
Definition is_call (site : CallSite) (e : Event) : bool :=
  match e with
  | LibCall s _ => CallSite_beq site s
  | _ => false
  end.



(** The options of [createStorePromise] (lines 119-124). *)
Definition store_options (adapter schema : Value) : list Value :=
  [VObject [("adapter", adapter); ("schema", schema);
            ("storeId", VString "test-bug-repro")]].


(** [env] with the answer of the library at [site] replaced by [o]. *)
Definition override (env : Env) (site : CallSite) (o : Outcome Value) : Env :=
  mkEnv (fun s args => if CallSite_beq s site then o else lib_call env s args)
    (Schema_String env) (process_version env) (JSON_stringify env)
    (Array_from env) (coerced_gt_zero env) (onUpdate_runs env).








(** The data the claim C7 lists, with any library value in the places of
    the embedded library values: the event definition, a struct of the
    fields [id] and [message] (the schema of the event, and the commit
    payload), the table, the option of its primary-key column, the options
    of the adapter and of the store. *)
Definition claimed_literal (v : Value) : bool :=
  match v with
  | VObject [("name", VString "v1.TestEvent"); ("schema", _)] => true
  | VObject [("id", _); ("message", _)] => true
  | VObject [("name", VString "test");
             ("columns", VObject [("id", _); ("message", _)])] => true
  | VObject [("primaryKey", VBool true)] => true
  | VObject [("storage", VObject [("type", VString "in-memory")])] => true
  | VObject [("adapter", _); ("schema", _);
             ("storeId", VString "test-bug-repro")] => true
  | _ => false
  end.

(** What else [src/test-bug.js] hands to the library. *)
Definition further_literal (v : Value) : bool :=
  match v with
  | VObject [("testEvent", _)] => true
  | VObject [("v1.TestEvent", VFunction label)] =>
      String.eqb label
        "({ id, message }) => tables.testTable.insert({ id, message })"
  | VObject [("tables", VObject [("testTable", _)]); ("materializers", _)] =>
      true
  | VObject [("events", VObject [("testEvent", _)]); ("state", _)] => true
  | VString "v1.TestEvent" => true
  | VFunction label =>
      String.eqb label
        ("(event) => { console.log(" ++ dq ++ "Event received:" ++ dq
         ++ ", event); }")%string
  | _ => false
  end.

(** All that [src/test-bug.js] hands to the library. *)
Definition in_inventory (v : Value) : bool :=
  claimed_literal v || further_literal v.

(** The arguments of a library call are all in the inventory. *)
Definition passes_inventory (e : Event) : bool :=
  match e with
  | LibCall site args => forallb in_inventory (passed site args)
  | _ => true
  end.

(** The arguments handed to the library, call by call. *)
Definition handed_over (tr : list Event) : list Value :=
  flat_map (fun e => match e with
                     | LibCall site args => passed site args
                     | _ => []
                     end) tr.

(** The claim C7 as it is stated: whatever the script hands to the library
    is an item of the claim's list. *)
Definition constructs_only_claimed_data : Prop :=
  forall env v,
    In v (handed_over (trace (TestBug.script env))) ->
    claimed_literal v = true.

(** ** Notions used in the further properties *)

(** The title line of [src/test-bug.js] and of [src/unnamed/part_001]. *)
Definition report_title : string :=
  "🔍 LiveStore Node.js Adapter Bug Reproduction".

(** The title line of the corrected script. *)
Definition corrected_title : string :=
  "🔍 LiveStore Node.js Adapter - Fixed API Usage".

(** [completes r]: [r] ends normally or by a throw; it neither ends the
    process nor is left suspended. *)
Definition completes {A : Type} (r : Run A) : Prop :=
  match completion r with
  | Normal _ | Throw _ => True
  | Exited _ | Suspended => False
  end.

(** [instant r]: [r] waits at no [await]. *)
Definition instant {A : Type} (r : Run A) : Prop := elapsed r = 0.

(** The options of [makeAdapter] (lines 114-117 of [src/test-bug.js]). *)
Definition adapter_options : list Value :=
  [VObject [("storage", VObject [("type", VString "in-memory")])]].

(** The promise [await v] waits for: [v] itself when it is a promise, a
    promise already fulfilled with [v] otherwise. *)
Definition awaited (v : Value) : Promise :=
  match v with
  | VPromise p => p
  | _ => Settles 0 (Fulfilled v)
  end.

(** A value with at least one own enumerable string key: a non-empty
    ordinary object, array or string. *)
Definition has_own_keys (m : Value) : bool :=
  match m with
  | VObject (_ :: _) | VArray (_ :: _) | VString (String _ _) => true
  | _ => false
  end.

(** The order of [main] in the corrected script, top to bottom.  The call
    of [keys] is a landmark only when [eventsDefsMap] is an object of the
    library's with a [keys] function; for a Map it is built in. *)
Definition corrected_order : list Marker :=
  [ MHeading 1; MCall Schema_Struct; MCall Events_synced;
    MHeading 2; MCall SQLite_text_id; MCall SQLite_text_message;
    MCall SQLite_table; MCall SQLite_materializers;
    MCall SQLite_makeState;
    MHeading 3; MCall makeSchema;
    MHeading 4; MCall eventsDefsMap_keys; MHeading 5;
    MHeading 6; MCall makeAdapter; MCall createStorePromise;
    MTimer;
    MCall table_where; MCall queryDb; MCall store_subscribe;
    MCall events_testEvent; MCall store_commit;
    MFinal ].

(** Every schema the library makes holds its event definitions in a Map. *)
Definition schema_holds_Map (env : Env) : Prop :=
  forall args v,
    lib_call env makeSchema args = Returns v ->
    exists entries, get_prop v "eventsDefsMap" = Returns (VMap entries).

(** The arguments of the three calls of Test 1 of the corrected script
    (lines 130-137), receivers in front. *)
Definition where_args (testTable : Value) : list Value :=
  [testTable; VObject []].

Definition query_subscribe_args (store testQuery : Value) : list Value :=
  [store; testQuery; VObject [("onUpdate", Fixed.onUpdate_callback)]].

(** The arguments of the two calls of Test 2 of the corrected script
    (lines 153-156). *)
Definition testEvent_args (testEvent : Value) : list Value :=
  [testEvent;
   VObject [("id", VString "test-123"); ("message", VString "Hello World")]].

Definition event_commit_args (store event : Value) : list Value :=
  [store; event].

(** What the handler of Test 1 of the corrected script prints (lines
    142-144), and what the test prints when nothing was thrown (138-140). *)
Definition corrected_subscribe_failure (e : JsError) : list Event :=
  [ConsoleLog [Lit "❌ SUBSCRIBE FAILED:"; Val (VString (err_message e))];
   ConsoleLog [Lit "   Error type:"; Val (VString (err_constructor_name e))];
   ConsoleLog [Lit "   This would indicate a different issue"]].

Definition corrected_subscribe_success : list Event :=
  [ConsoleLog [Lit "✅ Subscribe worked with correct API!"];
   ConsoleLog [Lit "   Used queryDb() to create query object"];
   ConsoleLog [Lit "   Subscribed to query object, not event string"]].

(** The same for Test 2 (lines 160-162 and 157-158). *)
Definition corrected_commit_failure (e : JsError) : list Event :=
  [ConsoleLog [Lit "❌ COMMIT FAILED:";
               Val (VString (first_line (err_message e)))];
   ConsoleLog [Lit "   Error type:"; Val (VString (err_constructor_name e))];
   ConsoleLog [Lit "   This would indicate a different issue"]].

Definition corrected_commit_success : list Event :=
  [ConsoleLog [Lit "✅ Commit worked with correct API!"];
   ConsoleLog [Lit "   Used events.testEvent(data) instead of string"]].

(** What a test prints after its last call, by what the call did. *)
Definition after_call (o : Outcome Value) (success : list Event)
    (failure : JsError -> list Event) : list Event :=
  match o with
  | Returns _ => success
  | Raises e => failure e
  end.

(** The line feed, and a text without one. *)
Definition LF : string := String (ascii_of_nat 10) EmptyString.

Fixpoint no_line_feed (s : string) : bool :=
  match s with
  | EmptyString => true
  | String c rest => negb (Ascii.eqb c (ascii_of_nat 10)) && no_line_feed rest
  end.

(** An event that is no library call. *)
Definition no_call (e : Event) : bool :=
  match e with LibCall _ _ => false | _ => true end.

(** The call sites of the store block of [src/test-bug.js]. *)
Definition is_store_site (site : CallSite) : bool :=
  match site with
  | makeAdapter | createStorePromise
  | store_subscribe | store_commit | store_close => true
  | _ => false
  end.

(** An event of a script that only defines and inspects a schema: a line
    of [console.log], or one of the eight calls of steps 1 to 3. *)
Definition defines_schema_only (e : Event) : bool :=
  match e with
  | ConsoleLog _ => true
  | LibCall site _ =>
      match site with
      | Schema_Struct | Events_synced | SQLite_text_id | SQLite_text_message
      | SQLite_table | SQLite_materializers | SQLite_makeState
      | makeSchema => true
      | _ => false
      end
  | _ => false
  end.

(** [raised_by_last_call env r]: when [r] throws, it throws the error the
    library raised at the last call [r] made. *)
Definition raised_by_last_call {A : Type} (env : Env) (r : Run A) : Prop :=
  forall e,
    completion r = Throw e ->
    exists site args pre,
      trace r = (pre ++ [LibCall site args])%list
      /\ lib_call env site args = Raises e.

(** Every call made in the events [tr] returned. *)
Definition all_returned (env : Env) (tr : list Event) : Prop :=
  forall site args,
    In (LibCall site args) tr -> exists v, lib_call env site args = Returns v.

(** What Test 1 of the corrected script prints when the store runs the
    handler with each of [runs]. *)
Definition handler_lines (runs : list Value) : list Event :=
  map (fun results => ConsoleLog [Lit "Query results updated:"; Val results])
    runs.

(** The values the corrected script calls, or calls methods of, can be
    used that way: what [Events.synced] returns is a function, the table is
    an object of the library's, and so is the store the race hands over. *)
Definition usable_values (env : Env) : Prop :=
  (forall args v,
      lib_call env Events_synced args = Returns v ->
      exists label, v = VFunction label)
  /\ (forall args v,
      lib_call env SQLite_table args = Returns v ->
      method_of v "where" = Returns true)
  /\ (forall schema store,
      completion (Shared.race_store_creation env schema) = Normal store ->
      method_of store "subscribe" = Returns true
      /\ method_of store "commit" = Returns true).

(** A store that runs the handler once, with no rows, when it is
    subscribed to. *)
Definition notifying_env : Env :=
  mkEnv obliging_library (VFunction "String") (VString "v24.1.0")
    (fun _ => Returns (VString "{}")) (fun v => Returns v) (fun _ => false)
    (fun site _ => match site with
                   | store_subscribe => [VArray []]
                   | _ => []
                   end).

(** ** How the process ends *)

(** What the shell sees of a run of a script.  A call of [process.exit]
    ends the process with its code.  Without one, Node.js ends the process
    by itself once nothing is pending any more: with status 0 when the
    script ran to its end or was left suspended at an [await] (the promise
    of [main] is not awaited by the module), with status 1 after reporting
    an error nobody caught.  The timer of the race counts as pending until
    it has fired, since the scripts never clear it; whether the library
    keeps anything else pending (an open handle) is for the environment to
    say, here [held_open]. *)
Inductive ProcessEnd : Type :=
| ExitCalled (code : Z)
| EndedByItself (status : Z)
| KeptAlive.

Definition process_end (held_open : bool) (r : Run unit) : ProcessEnd :=
  match completion r with
  | Exited code => ExitCalled code
  | Throw _ => EndedByItself 1
  | Normal _ | Suspended =>
      if held_open then KeptAlive else EndedByItself 0
  end.

(** ** The arguments of the calls of steps 1 to 3 *)

Definition struct_fields (env : Env) : list Value :=
  [VObject [("id", Schema_String env); ("message", Schema_String env)]].

Definition event_definition (struct : Value) : list Value :=
  [VObject [("name", VString "v1.TestEvent"); ("schema", struct)]].

Definition primary_key : list Value := [VObject [("primaryKey", VBool true)]].

Definition table_definition (id_column message_column : Value) : list Value :=
  [VObject [("name", VString "test");
            ("columns", VObject [("id", id_column);
                                 ("message", message_column)])]].

Definition materializer_args (events : Value) : list Value :=
  [events; VObject [("v1.TestEvent", Shared.materializer_handler)]].

Definition state_args (testTable materializers : Value) : list Value :=
  [VObject [("tables", VObject [("testTable", testTable)]);
            ("materializers", materializers)]].

Definition schema_args (events state : Value) : list Value :=
  [VObject [("events", events); ("state", state)]].


(** ** The claims C6, C7 and C10 as they are stated *)




(** What [src/test-bug.js] hands to the library at each call site: the
    literals of the source text, with any value in the places the source
    fills with values of the library.  The last four sites are not in this
    script. *)
Definition constructed_args (env : Env) (site : CallSite) (args : list Value)
    : Prop :=
  match site with
  | Schema_Struct => args = struct_fields env
  | Events_synced => exists struct, args = event_definition struct
  | SQLite_text_id => args = primary_key
  | SQLite_text_message => args = []
  | SQLite_table =>
      exists id_column message_column,
        args = table_definition id_column message_column
  | SQLite_materializers =>
      exists testEvent,
        args = materializer_args (VObject [("testEvent", testEvent)])
  | SQLite_makeState =>
      exists testTable materializers, args = state_args testTable materializers
  | makeSchema =>
      exists testEvent state,
        args = schema_args (VObject [("testEvent", testEvent)]) state
  | makeAdapter =>
      args = [VObject [("storage", VObject [("type", VString "in-memory")])]]
  | createStorePromise =>
      exists adapter schema, args = store_options adapter schema
  | store_subscribe => exists store, args = subscribe_args store
  | store_commit => exists store, args = commit_args store
  | store_close => exists store, args = [store]
  | table_where | queryDb | events_testEvent | eventsDefsMap_keys => False
  end.

(** An event of [src/test-bug.js] carries what the source text gives it:
    a call its arguments, the timer its delay. *)
Definition constructs (env : Env) (e : Event) : Prop :=
  match e with
  | LibCall site args => constructed_args env site args
  | SetTimeout ms => ms = Shared.timeoutMs
  | _ => True
  end.




(** * Properties *)

Local Open Scope list_scope.

(** ** How blocks compose *)

Section Composition.
Context {A B : Type}.

Lemma trace_bind (m : Run A) (k : A -> Run B) :
  trace (bind m k)
  = trace m ++ match completion m with Normal a => trace (k a) | _ => [] end.
Proof.
  unfold bind. destruct (completion m); cbn; auto using app_nil_r.
Qed.

Lemma completion_bind (m : Run A) (k : A -> Run B) :
  completion (bind m k)
  = match completion m with
    | Normal a => completion (k a)
    | Throw e => Throw e
    | Exited code => Exited code
    | Suspended => Suspended
    end.
Proof. unfold bind. destruct (completion m); reflexivity. Qed.

Lemma trace_try_catch (body : Run A) (h : JsError -> Run A) :
  trace (try_catch body h)
  = trace body ++ match completion body with Throw e => trace (h e) | _ => [] end.
Proof.
  unfold try_catch. destruct (completion body); cbn; auto using app_nil_r.
Qed.

Lemma completion_try_catch (body : Run A) (h : JsError -> Run A) :
  completion (try_catch body h)
  = match completion body with
    | Throw e => completion (h e)
    | c => c
    end.
Proof. unfold try_catch. destruct (completion body) eqn:E; auto. Qed.

End Composition.

(** ** Subsequences *)

Lemma Marker_beq_refl (x : Marker) : Marker_beq x x = true.
Proof. apply internal_Marker_dec_lb. reflexivity. Qed.

Lemma subseq_nil (c : list Marker) : subseq [] c = true.
Proof. destruct c; reflexivity. Qed.

Lemma subseq_refl (l : list Marker) : subseq l l = true.
Proof. induction l as [|x l IH]; cbn; [|rewrite Marker_beq_refl]; auto. Qed.

Lemma subseq_tail (x : Marker) (l c : list Marker) :
  subseq (x :: l) c = true -> subseq l c = true.
Proof.
  revert x l. induction c as [|y c IH]; intros x l H; cbn in H.
  - discriminate.
  - destruct l as [|x' l']; [reflexivity|].
    assert (H' : subseq (x' :: l') c = true).
    { destruct (Marker_beq x y); [exact H | exact (IH _ _ H)]. }
    cbn. destruct (Marker_beq x' y); [exact (IH _ _ H') | exact H'].
Qed.

Lemma subseq_skip (y : Marker) (l c : list Marker) :
  subseq l c = true -> subseq l (y :: c) = true.
Proof.
  destruct l as [|x l]; [reflexivity|]. intros H. cbn.
  destruct (Marker_beq x y); [apply (subseq_tail _ _ _ H) | exact H].
Qed.

Lemma subseq_app (l1 l2 c1 c2 : list Marker) :
  subseq l1 c1 = true -> subseq l2 c2 = true ->
  subseq (l1 ++ l2) (c1 ++ c2) = true.
Proof.
  revert l1. induction c1 as [|y c1 IH]; intros l1 H1 H2.
  - destruct l1; [exact H2 | discriminate].
  - destruct l1 as [|x l1].
    + cbn [app]. apply subseq_skip. apply (IH []); [apply subseq_nil | exact H2].
    + cbn in H1 |- *. destruct (Marker_beq x y).
      * apply IH; auto.
      * apply (IH (x :: l1)); auto.
Qed.

Lemma subseq_In (l c : list Marker) (x : Marker) :
  subseq l c = true -> In x l -> In x c.
Proof.
  revert l. induction c as [|y c IH]; intros l H Hin.
  - destruct l; [destruct Hin | discriminate].
  - destruct l as [|x' l]; [destruct Hin|]. cbn in H.
    destruct (Marker_beq x' y) eqn:E.
    + apply internal_Marker_dec_bl in E. subst y.
      destruct Hin as [->|Hin]; [left; reflexivity | right; eauto].
    + right. eauto.
Qed.

Lemma subseq_NoDup (l c : list Marker) :
  subseq l c = true -> NoDup c -> NoDup l.
Proof.
  revert l. induction c as [|y c IH]; intros l H Hc.
  - destruct l; [constructor | discriminate].
  - destruct l as [|x l]; [constructor|]. inversion Hc as [|? ? Hy Hc']; subst.
    cbn in H. destruct (Marker_beq x y) eqn:E.
    + apply internal_Marker_dec_bl in E. subst y. constructor; auto.
      intros Hin. apply Hy. eapply subseq_In; eauto.
    + auto.
Qed.

(** ** The order of landmarks, block by block *)

Lemma markers_app (l1 l2 : list Event) :
  markers (l1 ++ l2) = markers l1 ++ markers l2.
Proof. apply flat_map_app. Qed.

Section Ordered.
Context {A B : Type}.

Lemma ordered_bind (m : Run A) (k : A -> Run B) (c1 c2 : list Marker) :
  ordered m c1 -> (forall a, ordered (k a) c2) -> ordered (bind m k) (c1 ++ c2).
Proof.
  unfold ordered. intros H1 H2. rewrite trace_bind, markers_app.
  apply subseq_app; [exact H1|]. destruct (completion m); auto using subseq_nil.
Qed.

Lemma ordered_try_catch (body : Run A) (h : JsError -> Run A)
    (c1 c2 : list Marker) :
  ordered body c1 -> (forall e, ordered (h e) c2) ->
  ordered (try_catch body h) (c1 ++ c2).
Proof.
  unfold ordered. intros H1 H2. rewrite trace_try_catch, markers_app.
  apply subseq_app; [exact H1|]. destruct (completion body); auto using subseq_nil.
Qed.

Lemma ordered_finally (body : Run A) (h : Run unit) (c1 c2 : list Marker) :
  ordered body c1 -> ordered h c2 -> ordered (finally_ body h) (c1 ++ c2).
Proof.
  unfold ordered, finally_. intros H1 H2.
  destruct (completion body); cbn [trace];
    try (rewrite markers_app; apply subseq_app; assumption);
    rewrite <- (app_nil_r (markers _)); apply subseq_app; auto using subseq_nil.
Qed.

Lemma ordered_if (b : bool) (x y : Run A) (c : list Marker) :
  ordered x c -> ordered y c -> ordered (if b then x else y) c.
Proof. destruct b; auto. Qed.

Lemma ordered_as (r : Run A) (c c' : list Marker) :
  ordered r c -> c = c' -> ordered r c'.
Proof. intros H <-. exact H. Qed.

Lemma ordered_silent (r : Run A) : markers (trace r) = [] -> ordered r [].
Proof. unfold ordered. intros ->. reflexivity. Qed.

End Ordered.

Lemma ordered_emit (e : Event) : ordered (emit e) (marker e).
Proof. unfold ordered. cbn. rewrite app_nil_r. apply subseq_refl. Qed.

Lemma ordered_log_lit (text : string) (rest : list Arg) :
  ordered (console_log (Lit text :: rest)) (heading text).
Proof. apply (ordered_emit (ConsoleLog (Lit text :: rest))). Qed.

Lemma ordered_log_val (v : Value) (rest : list Arg) :
  ordered (console_log (Val v :: rest)) [].
Proof. reflexivity. Qed.

Lemma ordered_lift {A : Type} (o : Outcome A) : ordered (lift o) [].
Proof. destruct o; reflexivity. Qed.

Lemma ordered_await (v : Value) : ordered (await v) [].
Proof. destruct v as [| | | | | | | | | |[ms [x|e]|]]; reflexivity. Qed.

Lemma ordered_lib (env : Env) (site : CallSite) (args : list Value) :
  ordered (lib env site args) [MCall site].
Proof.
  unfold lib. apply (ordered_bind _ _ [MCall site] []).
  - apply (ordered_emit (LibCall site args)).
  - intros _. apply ordered_lift.
Qed.

Lemma ordered_async (body : Run Value) (c : list Marker) :
  ordered body c -> ordered (async body) c.
Proof. exact (fun H => H). Qed.

Lemma ordered_reject_after (ms : Z) (err : JsError) :
  ordered (reject_after ms err) [MTimer].
Proof. reflexivity. Qed.

Lemma ordered_call_method (env : Env) (site : CallSite) (expr : string)
    (callee : bool) (receiver : Value) (args : list Value) :
  ordered (call_method env site expr callee receiver args) [MCall site].
Proof. destruct callee; [apply ordered_lib | reflexivity]. Qed.

Lemma ordered_call_function (env : Env) (site : CallSite) (expr : string)
    (f : Value) (args : list Value) :
  ordered (call_function env site expr f args) [MCall site].
Proof. destruct f; try reflexivity. apply ordered_lib. Qed.

Lemma run_handler_trace (runs : list Value) :
  trace (Fixed.run_handler runs)
  = map (fun results => ConsoleLog [Lit "Query results updated:"; Val results])
      runs.
Proof.
  induction runs as [|results rest IH]; [reflexivity|].
  cbn [Fixed.run_handler map]. rewrite trace_bind. cbn. rewrite IH.
  reflexivity.
Qed.

Lemma run_handler_ends (runs : list Value) :
  completion (Fixed.run_handler runs) = Normal tt
  /\ elapsed (Fixed.run_handler runs) = 0.
Proof.
  induction runs as [|results rest [IH1 IH2]]; [split; reflexivity|].
  cbn [Fixed.run_handler]. unfold bind. cbn. rewrite IH1, IH2.
  split; reflexivity.
Qed.

(** A call of the store, event by event. *)
Lemma call_store_run (env : Env) (site : CallSite) (expr : string)
    (store : Value) (args : list Value) :
  Fixed.call_store env site expr true store args
  = mkRun (LibCall site (store :: args)
           :: map (fun results =>
                     ConsoleLog [Lit "Query results updated:"; Val results])
                (onUpdate_runs env site (store :: args)))
      0
      (match lib_call env site (store :: args) with
       | Returns v => Normal v
       | Raises e => Throw e
       end).
Proof.
  unfold Fixed.call_store.
  destruct (run_handler_ends (onUpdate_runs env site (store :: args)))
    as [Hc He].
  unfold bind at 1. cbn [emit completion trace elapsed].
  unfold bind. rewrite Hc, He, run_handler_trace.
  destruct (lib_call env site (store :: args)); cbn; rewrite app_nil_r;
    reflexivity.
Qed.

Lemma handler_markers (runs : list Value) (site : CallSite)
    (args : list Value) :
  markers (LibCall site args
           :: map (fun results =>
                     ConsoleLog [Lit "Query results updated:"; Val results])
                runs)
  = [MCall site].
Proof.
  unfold markers. cbn [flat_map marker app]. f_equal.
  induction runs as [|results rest IH]; [reflexivity|].
  cbn [map flat_map]. exact IH.
Qed.

Lemma ordered_call_store (env : Env) (site : CallSite) (expr : string)
    (callee : bool) (store : Value) (args : list Value) :
  ordered (Fixed.call_store env site expr callee store args) [MCall site].
Proof.
  destruct callee; [|reflexivity]. rewrite call_store_run.
  unfold ordered. cbn [trace].
  rewrite (handler_markers (onUpdate_runs env site (store :: args)) site
             (store :: args)).
  apply subseq_refl.
Qed.

Ltac ordered_step :=
  lazymatch goal with
  | |- ordered (bind _ _) _ => eapply ordered_bind; [| intros ?]
  | |- ordered (call_method _ _ _ _ _ _) _ => eapply ordered_call_method
  | |- ordered (call_function _ _ _ _ _) _ => eapply ordered_call_function
  | |- ordered (Fixed.call_store _ _ _ _ _ _) _ => eapply ordered_call_store
  | |- ordered (try_catch _ _) _ => eapply ordered_try_catch; [| intros ?]
  | |- ordered (promise_catch _ _) _ => eapply ordered_try_catch; [| intros ?]
  | |- ordered (finally_ _ _) _ => eapply ordered_finally
  | |- ordered (if _ then _ else _) _ => eapply ordered_if
  | |- ordered (console_log (Lit _ :: _)) _ => eapply ordered_log_lit
  | |- ordered (console_log (Val _ :: _)) _ => eapply ordered_log_val
  | |- ordered (console_error _) _ => eapply ordered_silent; reflexivity
  | |- ordered (emit _) _ => eapply ordered_emit
  | |- ordered (lib _ _ _) _ => eapply ordered_lib
  | |- ordered (method _ _ _ _) _ => eapply ordered_lib
  | |- ordered (lift _) _ => eapply ordered_lift
  | |- ordered (await _) _ => eapply ordered_await
  | |- ordered (async _) _ => eapply ordered_async
  | |- ordered (reject_after _ _) _ => eapply ordered_reject_after
  | |- ordered (Shared.emit_all _) _ => eapply ordered_silent; reflexivity
  | |- ordered (ret _) _ => eapply ordered_silent; reflexivity
  | |- ordered (throw _) _ => eapply ordered_silent; reflexivity
  | |- ordered (process_exit _) _ => eapply ordered_silent; reflexivity
  end.

Ltac unfold_test_bug :=
  unfold TestBug.main, Shared.steps_1_to_3, Shared.step1_events,
    Shared.step2_state, Shared.step3_schema, TestBug.step4_inspect,
    TestBug.step5_impact, TestBug.eventsDefsMap_is_empty,
    TestBug.eventsDefsMap_keys_guarded, TestBug.step6_store,
    Shared.race_store_creation, Shared.testWithTimeout,
    TestBug.test1_subscribe, TestBug.test2_commit,
    TestBug.final_diagnostics;
  cbv zeta.

Ltac unfold_fixed :=
  unfold Fixed.main, Shared.steps_1_to_3, Shared.step1_events,
    Shared.step2_state, Shared.step3_schema, Fixed.step4_inspect,
    Fixed.step5_verify, Fixed.eventsDefsMap_is_populated,
    Fixed.eventsDefsMap_size, Fixed.step6_store,
    Shared.race_store_creation, Shared.testWithTimeout,
    Fixed.test1_subscribe, Fixed.test2_commit,
    Fixed.final_diagnostics;
  cbv zeta.

(** ** Invariants of the events, block by block *)

Section Every.
Context {A B : Type}.
Variable p : Event -> bool.

Lemma every_bind (m : Run A) (k : A -> Run B) :
  every p m -> (forall a, every p (k a)) -> every p (bind m k).
Proof.
  unfold every. intros H1 H2. rewrite trace_bind, forallb_app, H1.
  destruct (completion m); cbn; auto.
Qed.

Lemma every_try_catch (body : Run A) (h : JsError -> Run A) :
  every p body -> (forall e, every p (h e)) -> every p (try_catch body h).
Proof.
  unfold every. intros H1 H2. rewrite trace_try_catch, forallb_app, H1.
  destruct (completion body); cbn; auto.
Qed.

Lemma every_if (b : bool) (x y : Run A) :
  every p x -> every p y -> every p (if b then x else y).
Proof. destruct b; auto. Qed.

Lemma every_emit (e : Event) : p e = true -> every p (emit e).
Proof. unfold every. cbn. intros ->. reflexivity. Qed.

Lemma every_lift (o : Outcome A) : every p (lift o).
Proof. destruct o; reflexivity. Qed.

End Every.

Lemma every_lib (p : Event -> bool) (env : Env) (site : CallSite)
    (args : list Value) :
  p (LibCall site args) = true -> every p (lib env site args).
Proof.
  intros H. unfold lib. apply every_bind.
  - apply every_emit, H.
  - intros _. destruct (lib_call env site args); reflexivity.
Qed.

Lemma every_await (p : Event -> bool) (v : Value) : every p (await v).
Proof. destruct v as [| | | | | | | | | |[ms [x|e]|]]; reflexivity. Qed.

Lemma every_call_method (p : Event -> bool) (env : Env) (site : CallSite)
    (expr : string) (callee : bool) (receiver : Value) (args : list Value) :
  p (LibCall site (receiver :: args)) = true ->
  every p (call_method env site expr callee receiver args).
Proof. destruct callee; [apply every_lib | reflexivity]. Qed.

Lemma every_call_function (p : Event -> bool) (env : Env) (site : CallSite)
    (expr : string) (f : Value) (args : list Value) :
  p (LibCall site (f :: args)) = true ->
  every p (call_function env site expr f args).
Proof. destruct f; try reflexivity. apply every_lib. Qed.

Lemma every_call_store (p : Event -> bool) (env : Env) (site : CallSite)
    (expr : string) (callee : bool) (store : Value) (args : list Value) :
  p (LibCall site (store :: args)) = true ->
  (forall results,
      p (ConsoleLog [Lit "Query results updated:"; Val results]) = true) ->
  every p (Fixed.call_store env site expr callee store args).
Proof.
  intros H1 H2. destruct callee; [|reflexivity]. rewrite call_store_run.
  unfold every. cbn [trace forallb]. rewrite H1. cbn [andb].
  induction (onUpdate_runs env site (store :: args)); [reflexivity|].
  cbn [map forallb]. rewrite H2. exact IHl.
Qed.

Ltac every_step :=
  lazymatch goal with
  | |- every _ (bind _ _) => apply every_bind; [| intros ?]
  | |- every _ (call_method _ _ _ _ _ _) => apply every_call_method; reflexivity
  | |- every _ (call_function _ _ _ _ _) =>
      apply every_call_function; reflexivity
  | |- every _ (Fixed.call_store _ _ _ _ _ _) =>
      apply every_call_store; [reflexivity | intros ?; reflexivity]
  | |- every _ (try_catch _ _) => apply every_try_catch; [| intros ?]
  | |- every _ (promise_catch _ _) => apply every_try_catch; [| intros ?]
  | |- every _ (if _ then _ else _) => apply every_if
  | |- every _ (console_log _) => apply every_emit; reflexivity
  | |- every _ (console_error _) => apply every_emit; reflexivity
  | |- every _ (emit _) => apply every_emit; reflexivity
  | |- every _ (lib _ _ _) => apply every_lib; reflexivity
  | |- every _ (method _ _ _ _) => apply every_lib; reflexivity
  | |- every _ (lift _) => apply every_lift
  | |- every _ (await _) => apply every_await
  | |- every _ (async _) => unfold every, async; cbn [trace]; fold_every
  | |- every _ (reject_after _ _) => reflexivity
  | |- every _ (Shared.emit_all _) => reflexivity
  | |- every _ (ret _) => reflexivity
  | |- every _ (throw _) => reflexivity
  | |- every _ (process_exit _) => reflexivity
  end
with fold_every :=
  lazymatch goal with
  | |- forallb ?p (trace ?r) = true => change (every p r)
  end.

(** ** Blocks that hand control back *)

Section ReturnsControl.
Context {A B : Type}.

Lemma returns_control_bind (m : Run A) (k : A -> Run B) :
  returns_control m -> (forall a, returns_control (k a)) ->
  returns_control (bind m k).
Proof.
  unfold returns_control. intros H1 H2 code. rewrite completion_bind.
  destruct (completion m) eqn:E; try discriminate; auto. congruence.
Qed.

Lemma returns_control_try_catch (body : Run A) (h : JsError -> Run A) :
  returns_control body -> (forall e, returns_control (h e)) ->
  returns_control (try_catch body h).
Proof.
  unfold returns_control. intros H1 H2 code. rewrite completion_try_catch.
  destruct (completion body) eqn:E; try discriminate; auto.
Qed.

Lemma returns_control_if (b : bool) (x y : Run A) :
  returns_control x -> returns_control y ->
  returns_control (if b then x else y).
Proof. destruct b; auto. Qed.

Lemma returns_control_lift (o : Outcome A) : returns_control (lift o).
Proof. destruct o; discriminate. Qed.

End ReturnsControl.

Lemma returns_control_emit (e : Event) : returns_control (emit e).
Proof. discriminate. Qed.

Lemma returns_control_lib (env : Env) (site : CallSite) (args : list Value) :
  returns_control (lib env site args).
Proof.
  unfold lib. apply returns_control_bind; [discriminate|].
  intros _. apply returns_control_lift.
Qed.

Lemma returns_control_await (v : Value) : returns_control (await v).
Proof. destruct v as [| | | | | | | | | |[ms [x|e]|]]; discriminate. Qed.

Lemma returns_control_async (body : Run Value) :
  returns_control body -> returns_control (async body).
Proof.
  unfold returns_control, async. intros H code. cbn.
  destruct (completion body) eqn:E; try discriminate. congruence.
Qed.

Lemma returns_control_call_method (env : Env) (site : CallSite)
    (expr : string) (callee : bool) (receiver : Value) (args : list Value) :
  returns_control (call_method env site expr callee receiver args).
Proof. destruct callee; [apply returns_control_lib | discriminate]. Qed.

Lemma returns_control_call_function (env : Env) (site : CallSite)
    (expr : string) (f : Value) (args : list Value) :
  returns_control (call_function env site expr f args).
Proof. destruct f; try discriminate. apply returns_control_lib. Qed.

Lemma returns_control_call_store (env : Env) (site : CallSite)
    (expr : string) (callee : bool) (store : Value) (args : list Value) :
  returns_control (Fixed.call_store env site expr callee store args).
Proof.
  destruct callee; [|discriminate]. rewrite call_store_run.
  intros code. cbn. destruct (lib_call env site (store :: args)); discriminate.
Qed.

Ltac returns_control_step :=
  lazymatch goal with
  | |- returns_control (bind _ _) => apply returns_control_bind; [| intros ?]
  | |- returns_control (call_method _ _ _ _ _ _) =>
      apply returns_control_call_method
  | |- returns_control (call_function _ _ _ _ _) =>
      apply returns_control_call_function
  | |- returns_control (Fixed.call_store _ _ _ _ _ _) =>
      apply returns_control_call_store
  | |- returns_control (try_catch _ _) =>
      apply returns_control_try_catch; [| intros ?]
  | |- returns_control (if _ then _ else _) => apply returns_control_if
  | |- returns_control (lib _ _ _) => apply returns_control_lib
  | |- returns_control (method _ _ _ _) => apply returns_control_lib
  | |- returns_control (lift _) => apply returns_control_lift
  | |- returns_control (await _) => apply returns_control_await
  | |- returns_control (async _) => apply returns_control_async
  | |- returns_control _ => discriminate
  end.

Lemma keys_array_every (p : Event -> bool) (env : Env) (m : Value) :
  (forall args, p (LibCall eventsDefsMap_keys args) = true) ->
  every p (Fixed.eventsDefsMap_keys_array env m).
Proof.
  intros Hp. unfold Fixed.eventsDefsMap_keys_array.
  destruct m; try reflexivity.
  destruct (lookup_prop "keys" props); try reflexivity.
  apply every_bind; [apply every_lib, Hp | intros ?; apply every_lift].
Qed.

Lemma keys_array_returns_control (env : Env) (m : Value) :
  returns_control (Fixed.eventsDefsMap_keys_array env m).
Proof.
  unfold Fixed.eventsDefsMap_keys_array.
  destruct m; try discriminate.
  destruct (lookup_prop "keys" props); try discriminate.
  repeat returns_control_step.
Qed.

Lemma TestBug_main_keeps_going (env : Env) :
  every keeps_going (TestBug.main env).
Proof. unfold_test_bug. repeat every_step. Qed.

Lemma TestBug_main_returns_control (env : Env) :
  returns_control (TestBug.main env).
Proof. unfold_test_bug. repeat returns_control_step. Qed.

Lemma Fixed_main_keeps_going (env : Env) :
  every keeps_going (Fixed.main env).
Proof.
  unfold_fixed. repeat every_step.
  destruct a as [[events tables] schema].
  repeat first [every_step | apply keys_array_every; reflexivity].
Qed.

Lemma Fixed_main_returns_control (env : Env) :
  returns_control (Fixed.main env).
Proof.
  unfold_fixed. repeat returns_control_step.
  destruct a as [[events tables] schema].
  repeat first [apply keys_array_returns_control | returns_control_step].
Qed.

(** ** The last lines of both scripts: [main().catch(...).finally(...)] *)

Lemma keeps_going_exit_codes (tr : list Event) :
  forallb keeps_going tr = true -> exit_codes tr = [].
Proof.
  induction tr as [|e tr IH]; [reflexivity|]. cbn [forallb].
  intros H. apply andb_prop in H as [He Htr].
  destruct e; try discriminate; cbn; auto.
Qed.

Lemma exit_codes_app (l1 l2 : list Event) :
  exit_codes (l1 ++ l2) = exit_codes l1 ++ exit_codes l2.
Proof. apply flat_map_app. Qed.

(** What the handlers add to [main]. *)
Lemma top_level_run (main : Run unit) :
  finally_
    (promise_catch main
       (fun error =>
        console_error [Lit "❌ Unhandled error:"; Val (VError error)] ;;
        process_exit 1))
    (process_exit 0)
  = match completion main with
    | Normal _ =>
        mkRun (trace main ++ [ProcessExit 0]) (elapsed main + 0) (Exited 0)
    | Throw e =>
        mkRun (trace main
               ++ [ConsoleError [Lit "❌ Unhandled error:"; Val (VError e)];
                   ProcessExit 1])
              (elapsed main + (0 + 0)) (Exited 1)
    | _ => main
    end.
Proof.
  unfold promise_catch, try_catch, finally_.
  destruct main as [tr ms [[]|e|code|]]; reflexivity.
Qed.

(** ** Following a run that completes normally *)

Section RunsTo.
Context {A B : Type}.

Lemma runs_to_bind (m : Run A) (k : A -> Run B) l1 l2 a b :
  runs_to m l1 a -> runs_to (k a) l2 b -> runs_to (bind m k) (l1 ++ l2) b.
Proof.
  intros [H1 E1] [H2 E2]. split.
  - rewrite trace_bind, markers_app, E1, H1, H2. reflexivity.
  - rewrite completion_bind, E1. exact E2.
Qed.

Lemma runs_to_try_catch (body : Run A) (h : JsError -> Run A) l a :
  runs_to body l a -> runs_to (try_catch body h) l a.
Proof.
  intros [H E]. split.
  - rewrite trace_try_catch, E, app_nil_r. exact H.
  - rewrite completion_try_catch, E. reflexivity.
Qed.

Lemma runs_to_as (r : Run A) l l' a : runs_to r l a -> l = l' -> runs_to r l' a.
Proof. intros H <-. exact H. Qed.

End RunsTo.

Lemma runs_to_log_lit (text : string) (rest : list Arg) :
  runs_to (console_log (Lit text :: rest)) (heading text) tt.
Proof. split; [apply app_nil_r | reflexivity]. Qed.

Lemma runs_to_log_val (v : Value) (rest : list Arg) :
  runs_to (console_log (Val v :: rest)) [] tt.
Proof. split; reflexivity. Qed.

Lemma runs_to_lib (env : Env) (site : CallSite) (args : list Value) (v : Value) :
  lib_call env site args = Returns v ->
  runs_to (lib env site args) [MCall site] v.
Proof. intros H. unfold lib, runs_to, bind. cbn. rewrite H. auto. Qed.

Lemma runs_to_lift {A : Type} (a : A) : runs_to (lift (Returns a)) [] a.
Proof. split; reflexivity. Qed.


(** ** The inspection of [src/test-bug.js] *)

Lemma get_prop_returns (v : Value) (name : string) :
  nullish v = false -> exists m, get_prop v name = Returns m.
Proof.
  destruct v; try discriminate; intros _; cbn;
    try destruct (String.eqb name _); eauto.
Qed.

Lemma get_prop_not_nullish (v m : Value) (name : string) :
  get_prop v name = Returns m -> nullish v = false.
Proof. destruct v; try discriminate; reflexivity. Qed.

Lemma Object_keys_returns (v : Value) :
  nullish v = false -> exists keys, Object_keys v = Returns keys.
Proof. destruct v; try discriminate; intros _; cbn; eauto. Qed.

Lemma js_or_object_not_nullish (m : Value) :
  nullish (js_or m (VObject [])) = false.
Proof.
  unfold js_or. destruct m; cbn; try reflexivity.
  - destruct b; reflexivity.
  - destruct (n =? 0); reflexivity.
  - destruct (String.eqb s ""); reflexivity.
Qed.

(** [Object.keys(schema.eventsDefsMap || {})] returns whatever the field
    holds. *)
Lemma guarded_keys_returns (schema m : Value) :
  get_prop schema "eventsDefsMap" = Returns m ->
  exists keys,
    Object_keys (js_or m (VObject [])) = Returns keys
    /\ TestBug.eventsDefsMap_keys_guarded schema = ret keys.
Proof.
  intros H.
  destruct (Object_keys_returns _ (js_or_object_not_nullish m)) as [keys Hk].
  exists keys. split; [exact Hk|].
  unfold TestBug.eventsDefsMap_keys_guarded. rewrite H. cbn. rewrite Hk.
  reflexivity.
Qed.

Lemma TestBug_step4_runs (schema : Value) :
  nullish schema = false ->
  runs_to (TestBug.step4_inspect schema) [MHeading 4] tt.
Proof.
  intros H.
  destruct (Object_keys_returns _ H) as [ks Hks].
  destruct (get_prop_returns _ "eventsDefsMap" H) as [m Hm].
  destruct (guarded_keys_returns _ _ Hm) as (keys & _ & Hg).
  unfold TestBug.step4_inspect. rewrite Hks, Hg. split; reflexivity.
Qed.

Lemma TestBug_step5_runs (schema : Value) :
  nullish schema = false ->
  runs_to (TestBug.step5_impact schema) [MHeading 5] tt.
Proof.
  intros H.
  destruct (get_prop_returns _ "eventsDefsMap" H) as [m Hm].
  destruct (guarded_keys_returns _ _ Hm) as (keys & _ & Hg).
  unfold TestBug.step5_impact, TestBug.eventsDefsMap_is_empty. rewrite Hg.
  destruct keys; split; reflexivity.
Qed.

(** ** The race of store creation against the timer *)

Lemma trace_await (v : Value) : trace (await v) = [].
Proof. destruct v as [| | | | | | | | | |[ms [x|e]|]]; reflexivity. Qed.

Lemma testWithTimeout_returns (env : Env) (schema : Value) :
  exists creation,
    completion (Shared.testWithTimeout env schema) = Normal creation.
Proof.
  unfold Shared.testWithTimeout, async. cbn [completion].
  match goal with |- context [completion ?b] =>
    assert (H : returns_control b) by repeat returns_control_step;
    destruct (completion b) eqn:E
  end; eauto.
  destruct (H _ E).
Qed.

Lemma race_run (env : Env) (schema : Value) (creation : Promise) :
  completion (Shared.testWithTimeout env schema) = Normal creation ->
  Shared.race_store_creation env schema
  = mkRun (trace (Shared.testWithTimeout env schema) ++ [SetTimeout 5000])
      (elapsed (await (VPromise (Promise_race [creation; timer_promise]))))
      (completion (await (VPromise (Promise_race [creation; timer_promise])))).
Proof.
  intros H. unfold Shared.race_store_creation.
  assert (E : elapsed (Shared.testWithTimeout env schema) = 0) by reflexivity.
  unfold bind at 1. rewrite H, E.
  change (reject_after Shared.timeoutMs (Error "Store creation timed out"))
    with (mkRun [SetTimeout 5000] 0 (Normal timer_promise)).
  unfold bind. cbn [completion trace elapsed]. rewrite trace_await, app_nil_r.
  destruct (completion (await _)); reflexivity.
Qed.

Lemma race_creation_first (ms : Z) (s : Settlement Value) :
  ms < 5000 -> Promise_race [Settles ms s; timer_promise] = Settles ms s.
Proof.
  intros H. cbn. destruct (Z.leb_spec ms 5000); [reflexivity | lia].
Qed.

Lemma race_timer_first (ms : Z) (s : Settlement Value) :
  5000 < ms -> Promise_race [Settles ms s; timer_promise] = timer_promise.
Proof.
  intros H. cbn. destruct (Z.leb_spec ms 5000); [lia | reflexivity].
Qed.


(** When the awaited race throws, the outer handler narrates it. *)
Lemma TestBug_step6_on_failure (env : Env) (schema : Value) (e : JsError) :
  completion (Shared.race_store_creation env schema) = Throw e ->
  TestBug.step6_store env schema
  = mkRun
      ([ConsoleLog [Lit "Step 6: Creating store and testing subscribe/commit..."];
        ConsoleLog [Lit ""];
        ConsoleLog [Lit "⏱️  Setting 5000ms timeout to prevent hanging..."]]
       ++ trace (Shared.race_store_creation env schema)
       ++ [ConsoleLog [Lit "❌ STORE CREATION FAILED:";
                       Val (VString (err_message e))];
           ConsoleLog [Lit "   This might be another symptom of the same bug"]])
      (elapsed (Shared.race_store_creation env schema) + 0)
      (Normal tt).
Proof.
  intros H. unfold TestBug.step6_store.
  destruct (Shared.race_store_creation env schema) as [tr ms c].
  cbn in H. subst c. reflexivity.
Qed.

Lemma Fixed_step6_on_failure (env : Env) (events tables schema : Value)
    (e : JsError) :
  completion (Shared.race_store_creation env schema) = Throw e ->
  Fixed.step6_store env events tables schema
  = mkRun
      ([ConsoleLog [Lit "Step 6: Creating store and testing CORRECT subscribe/commit..."];
        ConsoleLog [Lit ""];
        ConsoleLog [Lit "⏱️  Setting 5000ms timeout to prevent hanging..."]]
       ++ trace (Shared.race_store_creation env schema)
       ++ [ConsoleLog [Lit "❌ STORE CREATION FAILED:";
                       Val (VString (err_message e))];
           ConsoleLog [Lit "   This might indicate a different issue"]])
      (elapsed (Shared.race_store_creation env schema) + 0)
      (Normal tt).
Proof.
  intros H. unfold Fixed.step6_store.
  destruct (Shared.race_store_creation env schema) as [tr ms c].
  cbn in H. subst c. reflexivity.
Qed.

Lemma TestBug_script_cancels_nothing (env : Env) :
  every cancels_nothing (TestBug.script env).
Proof.
  unfold TestBug.script, finally_.
  assert (H : every cancels_nothing
                (promise_catch (TestBug.main env)
                   (fun error =>
                    console_error [Lit "❌ Unhandled error:"; Val (VError error)] ;;
                    process_exit 1))).
  { unfold_test_bug. repeat every_step. }
  unfold every in *.
  destruct (completion _); cbn [trace]; rewrite ?forallb_app, ?H; reflexivity.
Qed.

Lemma Fixed_script_cancels_nothing (env : Env) :
  every cancels_nothing (Fixed.script env).
Proof.
  unfold Fixed.script, finally_.
  assert (H : every cancels_nothing
                (promise_catch (Fixed.main env)
                   (fun error =>
                    console_error [Lit "❌ Unhandled error:"; Val (VError error)] ;;
                    process_exit 1))).
  { unfold_fixed. repeat every_step.
    destruct a as [[events tables] schema].
    repeat first [every_step | apply keys_array_every; reflexivity]. }
  unfold every in *.
  destruct (completion _); cbn [trace]; rewrite ?forallb_app, ?H; reflexivity.
Qed.

(** ** The run of [src/test-bug.js] in which nothing goes wrong *)

Ltac run :=
  lazymatch goal with
  | |- runs_to (bind _ _) _ _ =>
      eapply runs_to_bind; [run | cbv beta zeta; cbn [fst snd]; run]
  | |- runs_to (try_catch _ _) _ _ => eapply runs_to_try_catch; run
  | |- runs_to (console_log (Lit _ :: _)) _ _ => apply runs_to_log_lit
  | |- runs_to (console_log (Val _ :: _)) _ _ => apply runs_to_log_val
  | |- runs_to (lib _ _ _) _ _ => eapply runs_to_lib; eassumption
  | |- runs_to (method _ _ _ _) _ _ => eapply runs_to_lib; eassumption
  | |- _ => first [eassumption | split; reflexivity]
  end.

Lemma race_runs (env : Env) (schema : Value) :
  all_calls_succeed env ->
  exists store,
    runs_to (Shared.race_store_creation env schema)
      [MCall makeAdapter; MCall createStorePromise; MTimer] store.
Proof.
  intros [Hlib _].
  destruct (Hlib makeAdapter
    [VObject [("storage", VObject [("type", VString "in-memory")])]])
    as (adapter & Ha & _ & _).
  destruct (Hlib createStorePromise
    [VObject [("adapter", adapter); ("schema", schema);
              ("storeId", VString "test-bug-repro")]])
    as (creation & Hc & Ht & _).
  destruct (testWithTimeout_returns env schema) as [p Hp].
  rewrite (race_run _ _ _ Hp).
  unfold Shared.testWithTimeout, lib, async, bind in Hp |- *.
  cbn in Hp |- *. rewrite Ha in Hp |- *. cbn in Hp |- *.
  rewrite Hc in Hp |- *. cbn in Hp |- *.
  unfold runs_to. cbn [trace completion].
  destruct creation as [| | | | | | | | | |[ms [x|e]|]]; cbn in Ht, Hp |- *;
    try contradiction; injection Hp as <-; cbn;
    try (eexists; split; reflexivity).
  unfold Shared.timeoutMs in Ht.
  destruct (Z.leb_spec (ms + 0) 5000); [|lia].
  eexists; split; reflexivity.
Qed.





(** ** The two guarded calls of [src/test-bug.js] *)

Lemma test1_run (env : Env) (store : Value) :
  TestBug.test1_subscribe env store
  = mkRun
      (ConsoleLog [Lit "Test 1: Attempting store.subscribe()..."]
       :: LibCall store_subscribe (subscribe_args store)
       :: subscribe_lines (lib_call env store_subscribe (subscribe_args store)))
      0 (Normal tt).
Proof.
  unfold TestBug.test1_subscribe, method, lib, subscribe_args.
  destruct (lib_call env store_subscribe _); reflexivity.
Qed.

Lemma test2_run (env : Env) (store : Value) :
  TestBug.test2_commit env store
  = mkRun
      (ConsoleLog [Lit "Test 2: Attempting store.commit()..."]
       :: LibCall store_commit (commit_args store)
       :: commit_lines (lib_call env store_commit (commit_args store)))
      0 (Normal tt).
Proof.
  unfold TestBug.test2_commit, method, lib, commit_args.
  destruct (lib_call env store_commit _); reflexivity.
Qed.

Ltac simpl_run :=
  repeat (progress
    (rewrite ?trace_bind, ?completion_bind, ?trace_try_catch,
       ?completion_try_catch;
     cbn beta iota delta [completion trace elapsed console_log emit])).

(** The store block once the race has handed over a store. *)
Lemma TestBug_step6_on_store (env : Env) (schema store : Value) :
  completion (Shared.race_store_creation env schema) = Normal store ->
  trace (TestBug.step6_store env schema)
  = [ConsoleLog [Lit "Step 6: Creating store and testing subscribe/commit..."];
     ConsoleLog [Lit ""];
     ConsoleLog [Lit "⏱️  Setting 5000ms timeout to prevent hanging..."]]
    ++ trace (Shared.race_store_creation env schema)
    ++ [ConsoleLog [Lit "✅ Store created successfully"]; ConsoleLog [Lit ""]]
    ++ trace (TestBug.test1_subscribe env store)
    ++ [ConsoleLog [Lit ""]]
    ++ trace (TestBug.test2_commit env store)
    ++ [ConsoleLog [Lit ""];
        ConsoleLog [Lit "💡 Both failures are directly caused by the empty eventsDefsMap"];
        ConsoleLog [Lit ""];
        ConsoleLog [Lit "🔄 Closing store..."]]
    ++ trace (close_run env store)
    ++ match completion (close_run env store) with
       | Throw e => store_failure_lines e
       | _ => []
       end
  /\ completion (TestBug.step6_store env schema)
     = match completion (close_run env store) with
       | Throw _ => Normal tt
       | c => c
       end.
Proof.
  intros H. unfold TestBug.step6_store.
  simpl_run. rewrite H. simpl_run. rewrite !test1_run, !test2_run. simpl_run.
  unfold close_run. simpl_run.
  destruct (completion (method env store_close store [])) as [closing|e|code|];
    simpl_run;
    [destruct (completion (await closing)); simpl_run | | |];
    rewrite ?app_nil_r, <- ?app_assoc; split; reflexivity.
Qed.

(** ** Order and multiplicity of the landmarks of [src/test-bug.js] *)

Lemma TestBug_script_ordered (env : Env) :
  ordered (TestBug.script env) script_order.
Proof.
  eapply ordered_as.
  - unfold TestBug.script. unfold_test_bug. repeat ordered_step.
  - vm_compute. reflexivity.
Qed.

Lemma script_order_NoDup : NoDup script_order.
Proof.
  unfold script_order.
  repeat (constructor; [cbn; intuition discriminate|]). constructor.
Qed.

Lemma heading_no_call (text : string) (site : CallSite) :
  ~ In (MCall site) (heading text).
Proof.
  unfold heading.
  repeat match goal with |- context [prefix ?a ?b] => destruct (prefix a b) end;
    cbn; intuition discriminate.
Qed.

Lemma marker_call_count (site : CallSite) (e : Event) :
  List.length
    (filter (CallSite_beq site)
       match e with LibCall s _ => [s] | _ => [] end)
  = count_occ Marker_eq_dec (marker e) (MCall site).
Proof.
  destruct e as [args|args|s args|ms| |code]; try reflexivity.
  - destruct args as [|[text|v] rest]; try reflexivity. cbn [marker].
    symmetry. apply count_occ_not_In, heading_no_call.
  - cbn. destruct (Marker_eq_dec (MCall s) (MCall site)) as [E|N].
    + injection E as ->.
      rewrite (internal_CallSite_dec_lb site site eq_refl). reflexivity.
    + destruct (CallSite_beq site s) eqn:B; [|reflexivity].
      apply internal_CallSite_dec_bl in B. subst s. destruct N. reflexivity.
Qed.

Lemma call_count_markers (site : CallSite) (tr : list Event) :
  call_count site tr = count_occ Marker_eq_dec (markers tr) (MCall site).
Proof.
  unfold call_count, calls, markers.
  induction tr as [|e tr IH]; [reflexivity|].
  cbn [flat_map]. rewrite filter_app, length_app, count_occ_app, IH.
  f_equal. apply marker_call_count.
Qed.


Lemma obliging_env_succeeds : all_calls_succeed obliging_env.
Proof.
  split.
  - intros site args. destruct site; eexists; cbn;
      (split; [reflexivity | split; [exact I || reflexivity | discriminate || reflexivity]]).
  - intros v. eexists. reflexivity.
Qed.

(** ** Closing the store *)

Lemma call_count_app (site : CallSite) (l1 l2 : list Event) :
  call_count site (l1 ++ l2)
  = (call_count site l1 + call_count site l2)%nat.
Proof.
  unfold call_count, calls. rewrite flat_map_app, filter_app, length_app.
  reflexivity.
Qed.

Lemma call_count_none (site : CallSite) (tr : list Event) :
  forallb (fun e => negb (is_call site e)) tr = true ->
  call_count site tr = 0%nat.
Proof.
  induction tr as [|e tr IH]; [reflexivity|]. cbn [forallb].
  intros H. apply andb_prop in H as [He Htr].
  change (e :: tr) with ([e] ++ tr). rewrite call_count_app, (IH Htr).
  destruct e; try reflexivity. unfold call_count. cbn in *.
  destruct (CallSite_beq site site0); [discriminate | reflexivity].
Qed.



(** ** The two inspections of the schema *)

Lemma Fixed_step4_on_Map (env : Env) (schema : Value)
    (entries : list (Value * Value)) :
  get_prop schema "eventsDefsMap" = Returns (VMap entries) ->
  completion (Fixed.step4_inspect env schema) = Normal tt.
Proof.
  intros H.
  destruct (Object_keys_returns _ (get_prop_not_nullish _ _ _ H)) as [ks Hks].
  unfold Fixed.step4_inspect, Fixed.eventsDefsMap_size.
  rewrite Hks, H. reflexivity.
Qed.

(** ** Which errors are caught where *)


(** ** What decides the narration *)

Lemma narration_app (l1 l2 : list Event) :
  narration (l1 ++ l2) = narration l1 ++ narration l2.
Proof. apply flat_map_app. Qed.




Lemma every_bind_result {A B : Type} (p : Event -> bool) (m : Run A)
    (k : A -> Run B) :
  every p m -> (forall a, completion m = Normal a -> every p (k a)) ->
  every p (bind m k).
Proof.
  unfold every. intros H1 H2. rewrite trace_bind, forallb_app, H1.
  destruct (completion m); cbn; auto.
Qed.

Lemma step1_events_result (env : Env) (events : Value) :
  completion (Shared.step1_events env) = Normal events ->
  exists testEvent, events = VObject [("testEvent", testEvent)].
Proof.
  unfold Shared.step1_events, lib, bind. cbn.
  destruct (lib_call env Schema_Struct _); cbn; [|discriminate].
  destruct (lib_call env Events_synced _); cbn; [|discriminate].
  intros H. injection H as <-. eauto.
Qed.

Lemma TestBug_main_passes_inventory (env : Env) :
  every passes_inventory (TestBug.main env).
Proof.
  unfold TestBug.main.
  apply every_bind; [| intros ets; unfold_test_bug; repeat every_step].
  unfold Shared.steps_1_to_3.
  do 3 (apply every_bind; [every_step | intros ?]).
  apply every_bind_result; [unfold Shared.step1_events; repeat every_step|].
  intros events Hev. destruct (step1_events_result _ _ Hev) as [t ->].
  unfold Shared.step2_state, Shared.step3_schema. repeat every_step.
Qed.

Lemma TestBug_script_passes_inventory (env : Env) :
  every passes_inventory (TestBug.script env).
Proof.
  unfold TestBug.script, finally_.
  assert (H : every passes_inventory
                (promise_catch (TestBug.main env)
                   (fun error =>
                    console_error [Lit "❌ Unhandled error:"; Val (VError error)] ;;
                    process_exit 1))).
  { apply every_try_catch; [apply TestBug_main_passes_inventory|].
    intros e. repeat every_step. }
  unfold every in *.
  destruct (completion _); cbn [trace]; rewrite ?forallb_app, ?H; reflexivity.
Qed.

Lemma obliging_run_hands_over :
  handed_over (trace (TestBug.script obliging_env))
  = [ VObject [("id", VFunction "String"); ("message", VFunction "String")];
      VObject [("name", VString "v1.TestEvent"); ("schema", VObject [])];
      VObject [("primaryKey", VBool true)];
      VObject [("name", VString "test");
               ("columns", VObject [("id", VObject []);
                                    ("message", VObject [])])];
      VObject [("testEvent", VFunction "testEvent")];
      VObject [("v1.TestEvent", Shared.materializer_handler)];
      VObject [("tables", VObject [("testTable", VObject [])]);
               ("materializers", VObject [])];
      VObject [("events", VObject [("testEvent", VFunction "testEvent")]);
               ("state", VObject [])];
      VObject [("storage", VObject [("type", VString "in-memory")])];
      VObject [("adapter", VObject []); ("schema", sample_schema);
               ("storeId", VString "test-bug-repro")];
      VString "v1.TestEvent"; TestBug.subscribe_callback;
      VString "v1.TestEvent";
      VObject [("id", VString "test-123");
               ("message", VString "Hello World")] ].
Proof. vm_compute. reflexivity. Qed.

Lemma handed_over_in_inventory (tr : list Event) :
  forallb passes_inventory tr = true ->
  forall v, In v (handed_over tr) -> in_inventory v = true.
Proof.
  intros H v Hv. unfold handed_over in Hv.
  apply in_flat_map in Hv as (e & He & Hv).
  rewrite forallb_forall in H. specialize (H e He).
  destruct e as [| |site args| | |]; try contradiction.
  unfold passes_inventory in H. rewrite forallb_forall in H. auto.
Qed.

(** ** Sample runs *)

(** The library of the README: both tests fail, the store is closed, the
    process exits with code 0 after the 123 ms the two awaits take. *)
Example strict_run :
  narration (trace (TestBug.script strict_env))
  = ["✅ Events defined:"; "✅ Event function type:";
     "✅ State defined with materializers"; "✅ Schema created";
     "❌ BUG CONFIRMED: eventsDefsMap is empty!";
     "✅ Store created successfully";
     "❌ SUBSCRIBE FAILED:"; "❌ COMMIT FAILED:"; "✅ Store closed"]
  /\ In (ConsoleLog [Lit "❌ COMMIT FAILED:";
                     Val (VString "No mutation definition found")])
        (trace (TestBug.script strict_env))
  /\ elapsed (TestBug.script strict_env) = 123
  /\ completion (TestBug.script strict_env) = Exited 0.
Proof.
  repeat split; try (vm_compute; reflexivity).
  vm_compute. repeat first [left; reflexivity | right].
Qed.

(** The corrected script against the same library: the Map is found
    populated and both calls work. *)
Example strict_run_corrected :
  narration (trace (Fixed.script strict_env))
  = ["✅ Events defined:"; "✅ Event function type:";
     "✅ State defined with materializers"; "✅ Schema created";
     "✅ CORRECTED: eventsDefsMap is properly populated!";
     "✅ Store created successfully";
     "✅ Subscribe worked with correct API!";
     "✅ Commit worked with correct API!";
     "✅ Store operations completed successfully"]
  /\ completion (Fixed.script strict_env) = Exited 0.
Proof. split; vm_compute; reflexivity. Qed.

(** A store creation that never settles is given up after 5000 ms. *)
Example hanging_run :
  narration (trace (TestBug.script hanging_env))
  = ["✅ Events defined:"; "✅ Event function type:";
     "✅ State defined with materializers"; "✅ Schema created";
     "❌ BUG CONFIRMED: eventsDefsMap is empty!";
     "❌ STORE CREATION FAILED:"]
  /\ calls (trace (TestBug.script hanging_env))
     = [Schema_Struct; Events_synced; SQLite_text_id; SQLite_text_message;
        SQLite_table; SQLite_materializers; SQLite_makeState; makeSchema;
        makeAdapter; createStorePromise]
  /\ elapsed (TestBug.script hanging_env) = 5000
  /\ completion (TestBug.script hanging_env) = Exited 0.
Proof. repeat split; vm_compute; reflexivity. Qed.

(** A store creation rejected after 10 ms is narrated with its own
    message. *)
Example refusing_run :
  In (ConsoleLog [Lit "❌ STORE CREATION FAILED:";
                  Val (VString "adapter not ready")])
     (trace (TestBug.script refusing_env))
  /\ elapsed (TestBug.script refusing_env) = 10
  /\ completion (TestBug.script refusing_env) = Exited 0.
Proof.
  repeat split; try (vm_compute; reflexivity).
  vm_compute. repeat first [left; reflexivity | right].
Qed.

(** A schema factory that raises ends the run with code 1. *)
Example escaping_run :
  exit_codes
    (trace (TestBug.script
              (override obliging_env makeSchema (Raises (Error "no schema")))))
  = [1].
Proof. vm_compute. reflexivity. Qed.

(** * Further properties of the scripts *)

(** ** Blocks that start with a value *)

Lemma bind_ret {A B : Type} (a : A) (k : A -> Run B) : bind (ret a) k = k a.
Proof. unfold bind. cbn. destruct (k a); reflexivity. Qed.

Lemma bind_lift_returns {A B : Type} (a : A) (k : A -> Run B) :
  bind (lift (Returns a)) k = k a.
Proof. apply bind_ret. Qed.

Lemma completion_bind_normal {A B : Type} (m : Run A) (k : A -> Run B) (a : A) :
  completion m = Normal a -> completion (bind m k) = completion (k a).
Proof. intros H. rewrite completion_bind, H. reflexivity. Qed.

Lemma In_trace_bind_left {A B : Type} (m : Run A) (k : A -> Run B) (e : Event) :
  In e (trace m) -> In e (trace (bind m k)).
Proof. intros H. rewrite trace_bind. apply in_or_app. left. exact H. Qed.

Lemma In_trace_bind_right {A B : Type} (m : Run A) (k : A -> Run B) (a : A)
    (e : Event) :
  completion m = Normal a -> In e (trace (k a)) -> In e (trace (bind m k)).
Proof.
  intros H Hin. rewrite trace_bind, H. apply in_or_app. right. exact Hin.
Qed.

(** ** Blocks that end *)

Section Completes.
Context {A B : Type}.

Lemma completes_bind (m : Run A) (k : A -> Run B) :
  completes m -> (forall a, completes (k a)) -> completes (bind m k).
Proof.
  unfold completes. intros H1 H2. rewrite completion_bind.
  destruct (completion m); auto. apply H2.
Qed.

Lemma completes_try_catch (body : Run A) (h : JsError -> Run A) :
  completes body -> (forall e, completes (h e)) ->
  completes (try_catch body h).
Proof.
  unfold completes. intros H1 H2. rewrite completion_try_catch.
  destruct (completion body); auto. apply H2.
Qed.

Lemma completes_if (b : bool) (x y : Run A) :
  completes x -> completes y -> completes (if b then x else y).
Proof. destruct b; auto. Qed.

Lemma completes_lift (o : Outcome A) : completes (lift o).
Proof. destruct o; exact I. Qed.

End Completes.

Lemma completes_lib (env : Env) (site : CallSite) (args : list Value) :
  completes (lib env site args).
Proof.
  unfold lib. apply completes_bind; [exact I | intros _; apply completes_lift].
Qed.

Lemma completes_call_method (env : Env) (site : CallSite) (expr : string)
    (callee : bool) (receiver : Value) (args : list Value) :
  completes (call_method env site expr callee receiver args).
Proof. destruct callee; [apply completes_lib | exact I]. Qed.

Lemma completes_call_function (env : Env) (site : CallSite) (expr : string)
    (f : Value) (args : list Value) :
  completes (call_function env site expr f args).
Proof. destruct f; try exact I. apply completes_lib. Qed.

Lemma completes_call_store (env : Env) (site : CallSite) (expr : string)
    (callee : bool) (store : Value) (args : list Value) :
  completes (Fixed.call_store env site expr callee store args).
Proof.
  destruct callee; [|exact I]. rewrite call_store_run. unfold completes.
  cbn. destruct (lib_call env site (store :: args)); exact I.
Qed.

Ltac completes_step :=
  lazymatch goal with
  | |- completes (bind _ _) => apply completes_bind; [| intros ?]
  | |- completes (call_method _ _ _ _ _ _) => apply completes_call_method
  | |- completes (call_function _ _ _ _ _) => apply completes_call_function
  | |- completes (Fixed.call_store _ _ _ _ _ _) => apply completes_call_store
  | |- completes (try_catch _ _) => apply completes_try_catch; [| intros ?]
  | |- completes (if _ then _ else _) => apply completes_if
  | |- completes (lib _ _ _) => apply completes_lib
  | |- completes (method _ _ _ _) => apply completes_lib
  | |- completes (lift _) => apply completes_lift
  | |- completes (console_log _) => exact I
  | |- completes (Shared.emit_all _) => exact I
  | |- completes (ret _) => exact I
  | |- completes (throw _) => exact I
  end.

(** A guarded block of statements ends normally when its body ends at all
    and its handler only prints. *)
Lemma try_catch_normal (body : Run unit) (h : JsError -> Run unit) :
  completes body -> (forall e, completion (h e) = Normal tt) ->
  completion (try_catch body h) = Normal tt.
Proof.
  unfold completes. intros H1 H2. rewrite completion_try_catch.
  destruct (completion body) as [[]|e|code|]; auto; contradiction.
Qed.

(** ** The time spent waiting *)

Section Elapsed.
Context {A B : Type}.

Lemma elapsed_bind (m : Run A) (k : A -> Run B) :
  elapsed (bind m k)
  = elapsed m + match completion m with Normal a => elapsed (k a) | _ => 0 end.
Proof. unfold bind. destruct (completion m); cbn; lia. Qed.

Lemma elapsed_try_catch (body : Run A) (h : JsError -> Run A) :
  elapsed (try_catch body h)
  = elapsed body
    + match completion body with Throw e => elapsed (h e) | _ => 0 end.
Proof. unfold try_catch. destruct (completion body); cbn; lia. Qed.

Lemma instant_bind (m : Run A) (k : A -> Run B) :
  instant m -> (forall a, instant (k a)) -> instant (bind m k).
Proof.
  unfold instant. intros H1 H2. rewrite elapsed_bind, H1.
  destruct (completion m); auto. apply H2.
Qed.

Lemma instant_try_catch (body : Run A) (h : JsError -> Run A) :
  instant body -> (forall e, instant (h e)) -> instant (try_catch body h).
Proof.
  unfold instant. intros H1 H2. rewrite elapsed_try_catch, H1.
  destruct (completion body); auto. apply H2.
Qed.

Lemma instant_if (b : bool) (x y : Run A) :
  instant x -> instant y -> instant (if b then x else y).
Proof. destruct b; auto. Qed.

Lemma instant_lift (o : Outcome A) : instant (lift o).
Proof. destruct o; reflexivity. Qed.

(** A wait followed by statements that do not wait. *)
Lemma elapsed_then_instant (m : Run A) (k : A -> Run B) :
  (forall a, instant (k a)) -> elapsed (bind m k) = elapsed m.
Proof.
  unfold instant. intros H. rewrite elapsed_bind.
  destruct (completion m); rewrite ?H; lia.
Qed.

(** Statements that do not wait, followed by a block. *)
Lemma elapsed_after_instant (m : Run A) (k : A -> Run B) (n : Z) :
  instant m -> 0 <= n -> (forall a, elapsed (k a) <= n) ->
  elapsed (bind m k) <= n.
Proof.
  unfold instant. intros H1 Hn H2. rewrite elapsed_bind, H1.
  destruct (completion m); auto. apply H2.
Qed.

End Elapsed.

Lemma instant_lib (env : Env) (site : CallSite) (args : list Value) :
  instant (lib env site args).
Proof.
  unfold lib. apply instant_bind; [reflexivity | intros _; apply instant_lift].
Qed.

Lemma instant_call_method (env : Env) (site : CallSite) (expr : string)
    (callee : bool) (receiver : Value) (args : list Value) :
  instant (call_method env site expr callee receiver args).
Proof. destruct callee; [apply instant_lib | reflexivity]. Qed.

Lemma instant_call_function (env : Env) (site : CallSite) (expr : string)
    (f : Value) (args : list Value) :
  instant (call_function env site expr f args).
Proof. destruct f; try reflexivity. apply instant_lib. Qed.

Lemma instant_call_store (env : Env) (site : CallSite) (expr : string)
    (callee : bool) (store : Value) (args : list Value) :
  instant (Fixed.call_store env site expr callee store args).
Proof. destruct callee; [|reflexivity]. rewrite call_store_run. reflexivity. Qed.

Ltac instant_step :=
  lazymatch goal with
  | |- instant (bind _ _) => apply instant_bind; [| intros ?]
  | |- instant (call_method _ _ _ _ _ _) => apply instant_call_method
  | |- instant (call_function _ _ _ _ _) => apply instant_call_function
  | |- instant (Fixed.call_store _ _ _ _ _ _) => apply instant_call_store
  | |- instant (try_catch _ _) => apply instant_try_catch; [| intros ?]
  | |- instant (if _ then _ else _) => apply instant_if
  | |- instant (lib _ _ _) => apply instant_lib
  | |- instant (method _ _ _ _) => apply instant_lib
  | |- instant (lift _) => apply instant_lift
  | |- instant (console_log _) => reflexivity
  | |- instant (Shared.emit_all _) => reflexivity
  | |- instant (ret _) => reflexivity
  | |- instant (throw _) => reflexivity
  end.

(** ** The race, whatever the library does *)

(** The promise [testWithTimeout()] returns, by what the two calls do. *)
Lemma testWithTimeout_adapter_raises (env : Env) (schema : Value) (e : JsError) :
  lib_call env makeAdapter adapter_options = Raises e ->
  Shared.testWithTimeout env schema
  = mkRun [LibCall makeAdapter adapter_options] 0
      (Normal (Settles 0 (Rejected e))).
Proof.
  intros H. unfold Shared.testWithTimeout, lib, async, bind.
  cbn [trace completion elapsed emit]. fold adapter_options. rewrite H.
  reflexivity.
Qed.


Lemma testWithTimeout_creation_returns (env : Env) (schema adapter v : Value) :
  lib_call env makeAdapter adapter_options = Returns adapter ->
  lib_call env createStorePromise (store_options adapter schema) = Returns v ->
  Shared.testWithTimeout env schema
  = mkRun [LibCall makeAdapter adapter_options;
           LibCall createStorePromise (store_options adapter schema)] 0
      (Normal (awaited v)).
Proof.
  intros H1 H2. unfold Shared.testWithTimeout, lib, async, bind.
  cbn [trace completion elapsed emit]. fold adapter_options. rewrite H1.
  cbn [lift ret trace completion elapsed]. fold (store_options adapter schema).
  rewrite H2. cbn [lift ret trace completion elapsed].
  destruct v as [| | | | | | | | | |[ms [x|e']|]];
    cbn [await awaited ret trace elapsed completion app]; try reflexivity;
    rewrite ?Z.add_0_r; reflexivity.
Qed.

(** How the awaited race ends, given the promise of the creation. *)
Lemma race_outcome (env : Env) (schema : Value) (creation : Promise) :
  completion (Shared.testWithTimeout env schema) = Normal creation ->
  elapsed (Shared.race_store_creation env schema) <= 5000
  /\ (forall store,
        completion (Shared.race_store_creation env schema) = Normal store ->
        creation
        = Settles (elapsed (Shared.race_store_creation env schema))
            (Fulfilled store))
  /\ (forall e,
        completion (Shared.race_store_creation env schema) = Throw e ->
        (e = Error "Store creation timed out"
         /\ elapsed (Shared.race_store_creation env schema) = 5000)
        \/ creation
           = Settles (elapsed (Shared.race_store_creation env schema))
               (Rejected e))
  /\ completes (Shared.race_store_creation env schema).
Proof.
  intros H. rewrite (race_run _ _ _ H). unfold completes.
  cbn [elapsed completion].
  unfold timer_promise.
  destruct creation as [ms [x|e]|]; cbn [Promise_race race2];
    try destruct (Z.leb_spec ms 5000); cbn [await elapsed completion];
    (split; [lia|]);
    (split; [intros store [=]; subst; reflexivity|]);
    (split; [intros e0 [=]; subst; auto | exact I]).
Qed.

(** ** The inspections, value by value *)

Lemma index_keys_length (n : nat) : List.length (index_keys n) = n.
Proof. unfold index_keys. rewrite length_map, length_seq. reflexivity. Qed.

Lemma guarded_keys_count (m : Value) :
  exists keys,
    Object_keys (js_or m (VObject [])) = Returns keys
    /\ (Z.of_nat (List.length keys) =? 0) = negb (has_own_keys m).
Proof.
  unfold js_or.
  destruct m as [| |[|]|n|[|c s]| |[|x items]|[|p props]| | |]; cbn;
    try destruct (n =? 0); eexists; split; reflexivity.
Qed.

Lemma original_check (schema m : Value) :
  get_prop schema "eventsDefsMap" = Returns m ->
  TestBug.eventsDefsMap_is_empty schema = ret (negb (has_own_keys m)).
Proof.
  intros H. destruct (guarded_keys_count m) as (keys & Hk & Hc).
  unfold TestBug.eventsDefsMap_is_empty, TestBug.eventsDefsMap_keys_guarded.
  rewrite H. cbn [lift]. unfold bind at 2. cbn [completion ret trace elapsed].
  rewrite Hk. cbn. rewrite Hc. reflexivity.
Qed.

(** ** The two tests of the corrected script *)

(** Following a block along the answers of the library. *)
Lemma bind_throw {A B : Type} (e : JsError) (k : A -> Run B) :
  bind (throw e) k = throw e.
Proof. reflexivity. Qed.

Lemma bind_lift_raises {A B : Type} (e : JsError) (k : A -> Run B) :
  bind (lift (Raises e)) k = throw e.
Proof. reflexivity. Qed.

Lemma lib_returns (env : Env) (site : CallSite) (args : list Value) (v : Value) :
  lib_call env site args = Returns v ->
  lib env site args = mkRun [LibCall site args] 0 (Normal v).
Proof. intros H. unfold lib, bind. cbn. rewrite H. reflexivity. Qed.

Lemma lib_raises (env : Env) (site : CallSite) (args : list Value) (e : JsError) :
  lib_call env site args = Raises e ->
  lib env site args = mkRun [LibCall site args] 0 (Throw e).
Proof. intros H. unfold lib, bind. cbn. rewrite H. reflexivity. Qed.

Lemma bind_run_normal {A B : Type} (tr : list Event) (a : A) (k : A -> Run B) :
  bind (mkRun tr 0 (Normal a)) k
  = mkRun (tr ++ trace (k a)) (elapsed (k a)) (completion (k a)).
Proof. reflexivity. Qed.

Lemma bind_run_throw {A B : Type} (tr : list Event) (e : JsError)
    (k : A -> Run B) :
  bind (mkRun tr 0 (Throw e : Completion A)) k = mkRun tr 0 (Throw e).
Proof. reflexivity. Qed.

Ltac follow :=
  repeat first
    [ rewrite bind_lift_returns
    | rewrite bind_lift_raises
    | rewrite bind_throw
    | erewrite lib_returns by eassumption
    | erewrite lib_raises by eassumption
    | rewrite call_store_run
    | rewrite bind_run_normal
    | rewrite bind_run_throw
    | progress cbn [trace elapsed completion call_method call_function
                    throw] ].

(** Both tests end normally and without waiting, whatever they are given. *)
Lemma corrected_test1_ends (env : Env) (tables store : Value) :
  completion (Fixed.test1_subscribe env tables store) = Normal tt
  /\ instant (Fixed.test1_subscribe env tables store).
Proof.
  unfold Fixed.test1_subscribe. split.
  - rewrite completion_bind. cbn [console_log emit completion].
    apply try_catch_normal; [repeat completes_step | reflexivity].
  - repeat instant_step.
Qed.

Lemma corrected_test2_ends (env : Env) (events store : Value) :
  completion (Fixed.test2_commit env events store) = Normal tt
  /\ instant (Fixed.test2_commit env events store).
Proof.
  unfold Fixed.test2_commit. split.
  - rewrite completion_bind. cbn [console_log emit completion].
    apply try_catch_normal; [repeat completes_step | reflexivity].
  - repeat instant_step.
Qed.

(** ** The store block of the corrected script *)

Lemma completes_of_normal {A : Type} (r : Run A) (a : A) :
  completion r = Normal a -> completes r.
Proof. unfold completes. intros ->. exact I. Qed.

Lemma race_completes (env : Env) (schema : Value) :
  completes (Shared.race_store_creation env schema).
Proof.
  destruct (testWithTimeout_returns env schema) as [creation H].
  apply (race_outcome env schema creation H).
Qed.

Lemma race_elapsed (env : Env) (schema : Value) :
  elapsed (Shared.race_store_creation env schema) <= 5000.
Proof.
  destruct (testWithTimeout_returns env schema) as [creation H].
  apply (race_outcome env schema creation H).
Qed.

Lemma corrected_step6_ends (env : Env) (events tables schema : Value) :
  completion (Fixed.step6_store env events tables schema) = Normal tt
  /\ elapsed (Fixed.step6_store env events tables schema)
     = elapsed (Shared.race_store_creation env schema).
Proof.
  unfold Fixed.step6_store. split.
  - rewrite !completion_bind. cbn [console_log emit completion].
    apply try_catch_normal; [|reflexivity].
    apply completes_bind; [apply race_completes | intros store].
    repeat lazymatch goal with
           | |- completes (Fixed.test1_subscribe _ _ _) =>
               apply (completes_of_normal _ tt), corrected_test1_ends
           | |- completes (Fixed.test2_commit _ _ _) =>
               apply (completes_of_normal _ tt), corrected_test2_ends
           | |- _ => completes_step
           end.
  - rewrite !elapsed_bind. cbn [console_log emit completion elapsed].
    rewrite elapsed_try_catch.
    rewrite elapsed_then_instant.
    + destruct (completion (_ ;; _)); cbn; lia.
    + intros store.
      repeat lazymatch goal with
             | |- instant (Fixed.test1_subscribe _ _ _) =>
                 apply corrected_test1_ends
             | |- instant (Fixed.test2_commit _ _ _) =>
                 apply corrected_test2_ends
             | |- _ => instant_step
             end.
Qed.

Lemma corrected_step6_no_close (env : Env) (events tables schema : Value) :
  every (fun e => negb (is_call store_close e))
    (Fixed.step6_store env events tables schema).
Proof.
  unfold Fixed.step6_store, Shared.race_store_creation,
    Shared.testWithTimeout, Fixed.test1_subscribe, Fixed.test2_commit.
  repeat every_step.
Qed.

(** ** How [main] ends in [src/test-bug.js] *)

Lemma steps_1_to_3_ends (env : Env) (title : string) :
  completes (Shared.steps_1_to_3 env title)
  /\ instant (Shared.steps_1_to_3 env title).
Proof.
  unfold Shared.steps_1_to_3, Shared.step1_events, Shared.step2_state,
    Shared.step3_schema.
  split; [repeat completes_step | repeat instant_step].
Qed.

Lemma Object_keys_nullish (v : Value) :
  nullish v = true ->
  Object_keys v
  = Raises (TypeError "Cannot convert undefined or null to object").
Proof. destruct v; try discriminate; reflexivity. Qed.

Lemma TestBug_step4_on_nullish (schema : Value) :
  nullish schema = true ->
  completion (TestBug.step4_inspect schema)
  = Throw (TypeError "Cannot convert undefined or null to object").
Proof.
  intros H. unfold TestBug.step4_inspect.
  rewrite (Object_keys_nullish _ H). reflexivity.
Qed.


(** How [await store.close()] ends, by what the call did. *)
Lemma close_run_completion (env : Env) (store : Value) :
  completion (close_run env store)
  = match lib_call env store_close [store] with
    | Raises e => Throw e
    | Returns (VPromise (Settles _ (Rejected e))) => Throw e
    | Returns (VPromise NeverSettles) => Suspended
    | Returns _ => Normal tt
    end.
Proof.
  unfold close_run, method, lib.
  destruct (lib_call env store_close [store])
    as [[| | | | | | | | | |[ms [x|e]|]]|e]; reflexivity.
Qed.

(** The store block never throws and never ends the process: it ends
    normally, or it is left suspended at [await store.close()]. *)
Lemma TestBug_step6_completion (env : Env) (schema : Value) :
  completion (TestBug.step6_store env schema)
  = match completion (Shared.race_store_creation env schema) with
    | Normal store =>
        match lib_call env store_close [store] with
        | Returns (VPromise NeverSettles) => Suspended
        | _ => Normal tt
        end
    | _ => Normal tt
    end.
Proof.
  pose proof (race_completes env schema) as Hc. unfold completes in Hc.
  destruct (completion (Shared.race_store_creation env schema))
    as [store|e|code|] eqn:E; try contradiction.
  - destruct (TestBug_step6_on_store env schema store E) as [_ ->].
    rewrite close_run_completion.
    destruct (lib_call env store_close [store])
      as [[| | | | | | | | | |[ms [x|e]|]]|e]; reflexivity.
  - rewrite (TestBug_step6_on_failure _ _ _ E). reflexivity.
Qed.

Lemma TestBug_final_completion (env : Env) (schema : Value) :
  completion (TestBug.final_diagnostics env schema)
  = match JSON_stringify env schema with
    | Returns _ => Normal tt
    | Raises e => Throw e
    end.
Proof.
  unfold TestBug.final_diagnostics.
  destruct (JSON_stringify env schema); reflexivity.
Qed.

(** [main], block by block. *)
Lemma TestBug_main_completion (env : Env) :
  completion (TestBug.main env)
  = match completion (Shared.steps_1_to_3 env report_title) with
    | Normal ets =>
        if nullish (snd ets)
        then Throw (TypeError "Cannot convert undefined or null to object")
        else
          match completion (TestBug.step6_store env (snd ets)) with
          | Normal _ => completion (TestBug.final_diagnostics env (snd ets))
          | Throw e => Throw e
          | Exited code => Exited code
          | Suspended => Suspended
          end
    | Throw e => Throw e
    | Exited code => Exited code
    | Suspended => Suspended
    end.
Proof.
  unfold TestBug.main, report_title. rewrite completion_bind.
  destruct (completion (Shared.steps_1_to_3 env _)) as [ets|e|code|];
    try reflexivity.
  cbv zeta. rewrite completion_bind.
  destruct (nullish (snd ets)) eqn:N.
  - rewrite (TestBug_step4_on_nullish _ N). reflexivity.
  - destruct (TestBug_step4_runs _ N) as [_ ->].
    rewrite completion_bind.
    destruct (TestBug_step5_runs _ N) as [_ ->].
    rewrite completion_bind. reflexivity.
Qed.

Lemma script_completion (main : Run unit) :
  returns_control main ->
  completion
    (finally_
       (promise_catch main
          (fun error =>
           console_error [Lit "❌ Unhandled error:"; Val (VError error)] ;;
           process_exit 1))
       (process_exit 0))
  = match completion main with
    | Normal _ => Exited 0
    | Throw _ => Exited 1
    | _ => Suspended
    end.
Proof.
  intros H. rewrite top_level_run.
  destruct (completion main) eqn:E; cbn [completion]; auto.
  destruct (H _ E).
Qed.

Lemma script_exit_codes (main : Run unit) :
  every keeps_going main ->
  exit_codes
    (trace
       (finally_
          (promise_catch main
             (fun error =>
              console_error [Lit "❌ Unhandled error:"; Val (VError error)] ;;
              process_exit 1))
          (process_exit 0)))
  = match completion main with
    | Normal _ => [0]
    | Throw _ => [1]
    | _ => []
    end.
Proof.
  intros H. apply keeps_going_exit_codes in H. rewrite top_level_run.
  destruct (completion main); cbn [trace]; rewrite ?exit_codes_app, ?H; auto.
Qed.

Lemma script_elapsed (main : Run unit) :
  elapsed
    (finally_
       (promise_catch main
          (fun error =>
           console_error [Lit "❌ Unhandled error:"; Val (VError error)] ;;
           process_exit 1))
       (process_exit 0))
  = elapsed main.
Proof.
  rewrite top_level_run. destruct (completion main); cbn [elapsed]; lia.
Qed.

(** ** How [main] ends in the corrected script *)

Lemma keys_array_ends (env : Env) (m : Value) :
  completes (Fixed.eventsDefsMap_keys_array env m)
  /\ instant (Fixed.eventsDefsMap_keys_array env m).
Proof.
  unfold Fixed.eventsDefsMap_keys_array.
  destruct m; try (split; [exact I | reflexivity]).
  destruct (lookup_prop "keys" props); try (split; [exact I | reflexivity]).
  split; [repeat completes_step | repeat instant_step].
Qed.

Lemma corrected_inspection_ends (env : Env) (schema : Value) :
  completes (Fixed.step4_inspect env schema)
  /\ instant (Fixed.step4_inspect env schema)
  /\ instant (Fixed.step5_verify env schema)
  /\ (completion (Fixed.step4_inspect env schema) = Normal tt ->
      completion (Fixed.step5_verify env schema) = Normal tt).
Proof.
  unfold Fixed.step4_inspect, Fixed.step5_verify,
    Fixed.eventsDefsMap_is_populated, Fixed.eventsDefsMap_size.
  split; [|split; [|split]].
  - repeat first [apply keys_array_ends | completes_step].
  - repeat first [apply keys_array_ends | instant_step].
  - repeat instant_step.
  - destruct (Object_keys schema) as [ks|e]; [|cbn; discriminate].
    destruct (get_prop schema "eventsDefsMap") as [m|e]; [|cbn; discriminate].
    destruct m; cbn; try discriminate; intros _;
      repeat match goal with
             | |- context [if ?b then _ else _] => destruct b
             end; reflexivity.
Qed.

Lemma corrected_final_ends (env : Env) :
  completion (Fixed.final_diagnostics env) = Normal tt
  /\ instant (Fixed.final_diagnostics env).
Proof. split; reflexivity. Qed.

Lemma corrected_main_completion (env : Env) :
  completion (Fixed.main env)
  = match completion (Shared.steps_1_to_3 env corrected_title) with
    | Normal ets => completion (Fixed.step4_inspect env (snd ets))
    | Throw e => Throw e
    | Exited code => Exited code
    | Suspended => Suspended
    end.
Proof.
  unfold Fixed.main, corrected_title. rewrite completion_bind.
  destruct (completion (Shared.steps_1_to_3 env _))
    as [[[events tables] schema]|e|code|]; try reflexivity.
  cbn [snd]. rewrite completion_bind.
  destruct (corrected_inspection_ends env schema) as (_ & _ & _ & H5).
  destruct (completion (Fixed.step4_inspect env schema)) as [[]|e|code|];
    try reflexivity.
  rewrite completion_bind, (H5 eq_refl), completion_bind.
  destruct (corrected_step6_ends env events tables schema) as [-> _].
  apply corrected_final_ends.
Qed.

Lemma corrected_main_elapsed (env : Env) :
  elapsed (Fixed.main env) <= 5000.
Proof.
  unfold Fixed.main.
  apply elapsed_after_instant; [apply steps_1_to_3_ends | lia |].
  intros [[events tables] schema].
  destruct (corrected_inspection_ends env schema) as (_ & I4 & I5 & _).
  apply elapsed_after_instant; [exact I4 | lia | intros _].
  apply elapsed_after_instant; [exact I5 | lia | intros _].
  rewrite elapsed_then_instant by (intros _; apply corrected_final_ends).
  destruct (corrected_step6_ends env events tables schema) as [_ ->].
  apply race_elapsed.
Qed.

Lemma corrected_main_no_close (env : Env) :
  every (fun e => negb (is_call store_close e)) (Fixed.main env).
Proof.
  unfold_fixed. repeat every_step.
  destruct a as [[events tables] schema].
  repeat first [every_step | apply keys_array_every; reflexivity].
Qed.

(** ** Order and multiplicity of the landmarks of the corrected script *)

Lemma keys_array_ordered (env : Env) (m : Value) :
  ordered (Fixed.eventsDefsMap_keys_array env m) [MCall eventsDefsMap_keys].
Proof.
  unfold Fixed.eventsDefsMap_keys_array.
  destruct m; try reflexivity.
  destruct (lookup_prop "keys" props); try reflexivity.
  eapply ordered_as; [repeat ordered_step | reflexivity].
Qed.

Lemma corrected_script_ordered (env : Env) :
  ordered (Fixed.script env) corrected_order.
Proof.
  eapply ordered_as.
  - unfold Fixed.script. unfold_fixed. repeat ordered_step.
    destruct a as [[events tables] schema].
    repeat first [eapply keys_array_ordered | ordered_step].
  - vm_compute. reflexivity.
Qed.

Lemma corrected_order_NoDup : NoDup corrected_order.
Proof.
  unfold corrected_order.
  repeat (constructor; [cbn; intuition discriminate|]). constructor.
Qed.

(** ** The run of the corrected script in which nothing goes wrong *)

Lemma steps_1_to_3_run_values (env : Env) (title : string) :
  all_calls_succeed env ->
  exists testEvent testTable schema args_event args_table args,
    runs_to (Shared.steps_1_to_3 env title)
      (heading title
       ++ [MHeading 1; MCall Schema_Struct; MCall Events_synced;
           MHeading 2; MCall SQLite_text_id; MCall SQLite_text_message;
           MCall SQLite_table; MCall SQLite_materializers;
           MCall SQLite_makeState; MHeading 3; MCall makeSchema])
      (VObject [("testEvent", testEvent)],
       VObject [("testTable", testTable)], schema)
    /\ lib_call env Events_synced args_event = Returns testEvent
    /\ lib_call env SQLite_table args_table = Returns testTable
    /\ lib_call env makeSchema args = Returns schema.
Proof.
  intros [Hlib _].
  destruct (Hlib Schema_Struct
    [VObject [("id", Schema_String env); ("message", Schema_String env)]])
    as (struct & H1 & _ & _).
  destruct (Hlib Events_synced
    [VObject [("name", VString "v1.TestEvent"); ("schema", struct)]])
    as (testEvent & H2 & _ & _).
  destruct (Hlib SQLite_text_id [VObject [("primaryKey", VBool true)]])
    as (id_column & H3 & _ & _).
  destruct (Hlib SQLite_text_message []) as (message_column & H4 & _ & _).
  destruct (Hlib SQLite_table
    [VObject [("name", VString "test");
              ("columns", VObject [("id", id_column);
                                   ("message", message_column)])]])
    as (testTable & H5 & _ & _).
  destruct (Hlib SQLite_materializers
    [VObject [("testEvent", testEvent)];
     VObject [("v1.TestEvent", Shared.materializer_handler)]])
    as (materializers & H6 & _ & _).
  destruct (Hlib SQLite_makeState
    [VObject [("tables", VObject [("testTable", testTable)]);
              ("materializers", materializers)]])
    as (state & H7 & _ & _).
  destruct (Hlib makeSchema
    [VObject [("events", VObject [("testEvent", testEvent)]);
              ("state", state)]])
    as (schema & H8 & _ & _).
  exists testEvent, testTable, schema. eexists. eexists. eexists.
  split; [|exact (conj H2 (conj H5 H8))].
  eapply runs_to_as.
  - unfold Shared.steps_1_to_3, Shared.step1_events, Shared.step2_state,
      Shared.step3_schema. cbv zeta. run.
  - cbn. reflexivity.
Qed.

Lemma corrected_inspection_runs (env : Env) (schema : Value)
    (entries : list (Value * Value)) :
  get_prop schema "eventsDefsMap" = Returns (VMap entries) ->
  runs_to (Fixed.step4_inspect env schema) [MHeading 4] tt
  /\ runs_to (Fixed.step5_verify env schema) [MHeading 5] tt.
Proof.
  intros H.
  destruct (Object_keys_returns _ (get_prop_not_nullish _ _ _ H)) as [ks Hks].
  unfold Fixed.step4_inspect, Fixed.step5_verify,
    Fixed.eventsDefsMap_is_populated, Fixed.eventsDefsMap_size.
  rewrite Hks, H. split; [split; reflexivity|].
  destruct entries; split; reflexivity.
Qed.

Lemma runs_to_lift_eq {A : Type} (o : Outcome A) (a : A) :
  o = Returns a -> runs_to (lift o) [] a.
Proof. intros ->. split; reflexivity. Qed.

Lemma runs_to_call_method (env : Env) (site : CallSite) (expr : string)
    (receiver : Value) (args : list Value) (v : Value) :
  lib_call env site (receiver :: args) = Returns v ->
  runs_to (call_method env site expr true receiver args) [MCall site] v.
Proof. apply runs_to_lib. Qed.

Lemma runs_to_call_function (env : Env) (site : CallSite) (expr label : string)
    (args : list Value) (v : Value) :
  lib_call env site (VFunction label :: args) = Returns v ->
  runs_to (call_function env site expr (VFunction label) args) [MCall site] v.
Proof. apply runs_to_lib. Qed.

Lemma runs_to_call_store (env : Env) (site : CallSite) (expr : string)
    (store : Value) (args : list Value) (v : Value) :
  lib_call env site (store :: args) = Returns v ->
  runs_to (Fixed.call_store env site expr true store args) [MCall site] v.
Proof.
  intros H. rewrite call_store_run, H. split; [|reflexivity].
  cbn [trace]. apply handler_markers.
Qed.

Ltac run_corrected :=
  lazymatch goal with
  | |- runs_to (bind _ _) _ _ =>
      eapply runs_to_bind;
      [run_corrected | cbv beta zeta; cbn [fst snd]; run_corrected]
  | |- runs_to (try_catch _ _) _ _ => eapply runs_to_try_catch; run_corrected
  | |- runs_to (console_log (Lit _ :: _)) _ _ => apply runs_to_log_lit
  | |- runs_to (console_log (Val _ :: _)) _ _ => apply runs_to_log_val
  | |- runs_to (lib _ _ _) _ _ => eapply runs_to_lib; eassumption
  | |- runs_to (call_method _ _ _ _ _ _) _ _ =>
      eapply runs_to_call_method; eassumption
  | |- runs_to (call_function _ _ _ _ _) _ _ =>
      eapply runs_to_call_function; eassumption
  | |- runs_to (Fixed.call_store _ _ _ _ _ _) _ _ =>
      eapply runs_to_call_store; eassumption
  | |- runs_to (lift (method_of _ _)) _ _ =>
      eapply runs_to_lift_eq; eassumption
  | |- _ => first [eassumption | split; reflexivity]
  end.

Lemma corrected_step6_runs (env : Env) (label : string)
    (testTable schema : Value) :
  all_calls_succeed env -> usable_values env ->
  method_of testTable "where" = Returns true ->
  runs_to
    (Fixed.step6_store env (VObject [("testEvent", VFunction label)])
       (VObject [("testTable", testTable)]) schema)
    [MHeading 6; MCall makeAdapter; MCall createStorePromise; MTimer;
     MCall table_where; MCall queryDb; MCall store_subscribe;
     MCall events_testEvent; MCall store_commit] tt.
Proof.
  intros H (_ & _ & Hu) Hw. destruct (race_runs env schema H) as [store Hr].
  destruct (Hu schema store (proj2 Hr)) as [Hs Hc].
  destruct H as [Hlib _].
  destruct (Hlib table_where [testTable; VObject []]) as (filter & H1 & _ & _).
  destruct (Hlib queryDb [filter]) as (testQuery & H2 & _ & _).
  destruct (Hlib store_subscribe
    [store; testQuery; VObject [("onUpdate", Fixed.onUpdate_callback)]])
    as (r1 & H3 & _ & _).
  destruct (Hlib events_testEvent
    [VFunction label;
     VObject [("id", VString "test-123"); ("message", VString "Hello World")]])
    as (event & H4 & _ & _).
  destruct (Hlib store_commit [store; event]) as (r2 & H5 & _ & _).
  eapply runs_to_as.
  - unfold Fixed.step6_store, Fixed.test1_subscribe, Fixed.test2_commit.
    run_corrected.
  - reflexivity.
Qed.

Lemma corrected_main_runs (env : Env) :
  all_calls_succeed env -> schema_holds_Map env -> usable_values env ->
  runs_to (Fixed.main env)
    (remove Marker_eq_dec (MCall eventsDefsMap_keys) corrected_order) tt.
Proof.
  intros H HM HU.
  destruct (steps_1_to_3_run_values env corrected_title H)
    as (testEvent & testTable & schema & args_event & args_table & args
        & R1 & He & Ht & Hs).
  destruct HU as (Hf & Hw & Hu).
  destruct (Hf _ _ He) as [label ->].
  destruct (HM _ _ Hs) as [entries Hm].
  destruct (corrected_inspection_runs env schema entries Hm) as [R4 R5].
  pose proof (corrected_step6_runs env label testTable schema H
                (conj Hf (conj Hw Hu)) (Hw _ _ Ht)) as R6.
  assert (R7 : runs_to (Fixed.final_diagnostics env) [MFinal] tt)
    by (split; reflexivity).
  eapply runs_to_as.
  - unfold Fixed.main. fold corrected_title. run.
  - vm_compute. reflexivity.
Qed.

Lemma obliging_usable_values : usable_values obliging_env.
Proof.
  split; [|split].
  - intros args v [= <-]. eexists. reflexivity.
  - intros args v [= <-]. reflexivity.
  - intros schema store H.
    assert (E : completion (Shared.race_store_creation obliging_env schema)
                = Normal sample_store) by reflexivity.
    rewrite E in H. injection H as <-. split; reflexivity.
Qed.

Lemma obliging_schema_holds_Map : schema_holds_Map obliging_env.
Proof.
  intros args v H. cbn in H. injection H as <-. eexists. reflexivity.
Qed.

(** ** The text before the first line feed *)

Lemma first_line_no_line_feed (s : string) :
  no_line_feed (first_line s) = true.
Proof.
  induction s as [|c s IH]; [reflexivity|]. cbn [first_line].
  destruct (Ascii.eqb c (ascii_of_nat 10)) eqn:E; [reflexivity|].
  cbn [no_line_feed]. rewrite E, IH. reflexivity.
Qed.

Lemma first_line_prefix (s : string) : prefix (first_line s) s = true.
Proof.
  induction s as [|c s IH]; [reflexivity|]. cbn [first_line].
  destruct (Ascii.eqb c (ascii_of_nat 10)) eqn:E; [reflexivity|].
  cbn [prefix].
  destruct (ascii_dec c c) as [_|N]; [exact IH | destruct N; reflexivity].
Qed.

Lemma first_line_whole (s : string) :
  no_line_feed s = true -> first_line s = s.
Proof.
  induction s as [|c s IH]; [reflexivity|]. cbn [first_line no_line_feed].
  destruct (Ascii.eqb c (ascii_of_nat 10)); [discriminate|].
  cbn [negb andb]. intros H. rewrite (IH H). reflexivity.
Qed.

Lemma first_line_cut (a b : string) :
  no_line_feed a = true -> first_line (a ++ LF ++ b)%string = a.
Proof.
  induction a as [|c a IH]; [reflexivity|].
  cbn [first_line no_line_feed String.append].
  destruct (Ascii.eqb c (ascii_of_nat 10)); [discriminate|].
  cbn [negb andb]. intros H. rewrite (IH H). reflexivity.
Qed.

(** ** The script without the store block *)

Lemma calls_app (l1 l2 : list Event) : calls (l1 ++ l2) = calls l1 ++ calls l2.
Proof. apply flat_map_app. Qed.

Lemma calls_none (tr : list Event) : forallb no_call tr = true -> calls tr = [].
Proof.
  induction tr as [|e tr IH]; [reflexivity|]. cbn [forallb].
  intros H. apply andb_prop in H as [He Htr].
  unfold calls in *. cbn [flat_map]. rewrite (IH Htr).
  destruct e; try discriminate; reflexivity.
Qed.

Lemma calls_all (p : CallSite -> bool) (tr : list Event) :
  forallb (fun e => match e with LibCall site _ => p site | _ => true end) tr
  = true ->
  forallb p (calls tr) = true.
Proof.
  induction tr as [|e tr IH]; [reflexivity|]. cbn [forallb].
  intros H. apply andb_prop in H as [He Htr].
  unfold calls in *. cbn [flat_map]. rewrite forallb_app, (IH Htr).
  destruct e; cbn; rewrite ?He; reflexivity.
Qed.

Lemma schema_only_final_quiet (env : Env) (schema : Value) :
  calls (trace (SchemaOnly.final_diagnostics env schema)) = []
  /\ narration (trace (SchemaOnly.final_diagnostics env schema)) = []
  /\ completion (SchemaOnly.final_diagnostics env schema)
     = completion (TestBug.final_diagnostics env schema).
Proof.
  unfold SchemaOnly.final_diagnostics, TestBug.final_diagnostics.
  destruct (JSON_stringify env schema); repeat split; reflexivity.
Qed.

Lemma TestBug_final_quiet (env : Env) (schema : Value) :
  calls (trace (TestBug.final_diagnostics env schema)) = []
  /\ narration (trace (TestBug.final_diagnostics env schema)) = [].
Proof.
  unfold TestBug.final_diagnostics.
  destruct (JSON_stringify env schema); split; reflexivity.
Qed.

Lemma TestBug_step6_store_sites (env : Env) (schema : Value) :
  forallb is_store_site (calls (trace (TestBug.step6_store env schema))) = true.
Proof.
  apply calls_all.
  change (every (fun e => match e with
                          | LibCall site _ => is_store_site site
                          | _ => true
                          end) (TestBug.step6_store env schema)).
  unfold TestBug.step6_store, Shared.race_store_creation,
    Shared.testWithTimeout, TestBug.test1_subscribe, TestBug.test2_commit.
  repeat every_step.
Qed.

(** Both scripts, split after step 5. *)
Lemma split_after_step5 (env : Env) (rest : Value -> Run unit) :
  exists (common : list Event) (reached : option Value),
    trace (ets <- Shared.steps_1_to_3 env report_title ;;
           let schema := snd ets in
           TestBug.step4_inspect schema ;;
           TestBug.step5_impact schema ;;
           rest schema)
    = common ++ match reached with
                | Some schema => trace (rest schema)
                | None => []
                end
    /\ reached
       = match completion (Shared.steps_1_to_3 env report_title) with
         | Normal ets => if nullish (snd ets) then None else Some (snd ets)
         | _ => None
         end
    /\ common
       = trace (Shared.steps_1_to_3 env report_title)
         ++ match completion (Shared.steps_1_to_3 env report_title) with
            | Normal ets =>
                trace (TestBug.step4_inspect (snd ets))
                ++ if nullish (snd ets) then []
                   else trace (TestBug.step5_impact (snd ets))
            | _ => []
            end.
Proof.
  eexists. eexists. split; [|split; reflexivity].
  rewrite trace_bind.
  destruct (completion (Shared.steps_1_to_3 env report_title))
    as [ets|e|code|]; try (rewrite !app_nil_r; reflexivity).
  cbv zeta. rewrite trace_bind. destruct (nullish (snd ets)) eqn:N.
  - rewrite (TestBug_step4_on_nullish _ N), !app_nil_r. reflexivity.
  - destruct (TestBug_step4_runs _ N) as [_ ->]. rewrite trace_bind.
    destruct (TestBug_step5_runs _ N) as [_ ->].
    rewrite <- !app_assoc. reflexivity.
Qed.

(** ** Where the errors of steps 1 to 3 come from *)

Lemma raised_by_last_call_bind {A B : Type} (env : Env) (m : Run A)
    (k : A -> Run B) :
  raised_by_last_call env m -> (forall a, raised_by_last_call env (k a)) ->
  raised_by_last_call env (bind m k).
Proof.
  unfold raised_by_last_call. intros H1 H2 e.
  rewrite completion_bind, trace_bind.
  destruct (completion m) as [a|e'|code|]; try discriminate.
  - intros He. destruct (H2 a e He) as (site & args & pre & -> & Hr).
    exists site, args, (trace m ++ pre). rewrite app_assoc. auto.
  - intros [= ->]. destruct (H1 e eq_refl) as (site & args & pre & -> & Hr).
    exists site, args, pre. rewrite app_nil_r. auto.
Qed.

Lemma raised_by_last_call_lib (env : Env) (site : CallSite) (args : list Value) :
  raised_by_last_call env (lib env site args).
Proof.
  intros e. unfold lib, bind. cbn.
  destruct (lib_call env site args) as [v|e'] eqn:E; cbn; [discriminate|].
  intros [= ->]. exists site, args, []. auto.
Qed.

Lemma raised_by_last_call_normal {A : Type} (env : Env) (r : Run A) (a : A) :
  completion r = Normal a -> raised_by_last_call env r.
Proof. intros H e. rewrite H. discriminate. Qed.

Ltac raised_step :=
  lazymatch goal with
  | |- raised_by_last_call _ (bind _ _) =>
      apply raised_by_last_call_bind; [| intros ?]
  | |- raised_by_last_call _ (lib _ _ _) => apply raised_by_last_call_lib
  | |- raised_by_last_call _ _ =>
      eapply raised_by_last_call_normal; reflexivity
  end.

Lemma steps_1_to_3_raised_by_last_call (env : Env) (title : string) :
  raised_by_last_call env (Shared.steps_1_to_3 env title).
Proof.
  unfold Shared.steps_1_to_3, Shared.step1_events, Shared.step2_state,
    Shared.step3_schema.
  cbv zeta. repeat raised_step.
Qed.

(** ** The narration of steps 1 to 3 and of the whole run *)













(** ** Landmarks of a run that is cut short *)


















(** ** What each call is handed, in every run *)

Section Handed.
Context {A B : Type} (P : Event -> Prop).

Lemma handed_bind (m : Run A) (k : A -> Run B) :
  Forall P (trace m) ->
  (forall a, completion m = Normal a -> Forall P (trace (k a))) ->
  Forall P (trace (bind m k)).
Proof.
  intros H1 H2. rewrite trace_bind. apply Forall_app. split; [exact H1|].
  destruct (completion m); auto.
Qed.

Lemma handed_try_catch (body : Run A) (h : JsError -> Run A) :
  Forall P (trace body) -> (forall e, Forall P (trace (h e))) ->
  Forall P (trace (try_catch body h)).
Proof.
  intros H1 H2. rewrite trace_try_catch. apply Forall_app. split; [exact H1|].
  destruct (completion body); auto.
Qed.

Lemma handed_if (b : bool) (x y : Run A) :
  Forall P (trace x) -> Forall P (trace y) ->
  Forall P (trace (if b then x else y)).
Proof. destruct b; auto. Qed.

Lemma handed_lift (o : Outcome A) : Forall P (trace (lift o)).
Proof. destruct o; constructor. Qed.

End Handed.

Lemma handed_emit (P : Event -> Prop) (e : Event) :
  P e -> Forall P (trace (emit e)).
Proof. intros H. repeat constructor. exact H. Qed.

Lemma handed_lib (P : Event -> Prop) (env : Env) (site : CallSite)
    (args : list Value) :
  P (LibCall site args) -> Forall P (trace (lib env site args)).
Proof.
  intros H. unfold lib. apply handed_bind; [apply handed_emit, H|].
  intros _ _. apply handed_lift.
Qed.

Lemma handed_await (P : Event -> Prop) (v : Value) :
  Forall P (trace (await v)).
Proof. rewrite trace_await. constructor. Qed.

Ltac as_in_source :=
  cbn;
  first [ reflexivity
        | eexists; reflexivity
        | eexists; eexists; reflexivity ].

Ltac handed_step :=
  lazymatch goal with
  | |- Forall _ (trace (bind _ _)) =>
      apply handed_bind; [|intros ? _; cbv beta zeta]
  | |- Forall _ (trace (try_catch _ _)) =>
      apply handed_try_catch; [|intros ?]
  | |- Forall _ (trace (promise_catch _ _)) =>
      apply handed_try_catch; [|intros ?]
  | |- Forall _ (trace (if _ then _ else _)) => apply handed_if
  | |- Forall _ (trace (console_log _)) => apply handed_emit; exact I
  | |- Forall _ (trace (console_error _)) => apply handed_emit; exact I
  | |- Forall _ (trace (Shared.emit_all _)) =>
      cbn [trace Shared.emit_all]; repeat constructor
  | |- Forall _ (trace (process_exit _)) => repeat constructor
  | |- Forall _ (trace (lift _)) => apply handed_lift
  | |- Forall _ (trace (ret _)) => constructor
  | |- Forall _ (trace (await _)) => apply handed_await
  | |- Forall _ (trace (async _)) => cbn [async trace]
  | |- Forall _ (trace (reject_after _ _)) => repeat constructor
  | |- Forall _ (trace (method _ _ _ _)) => apply handed_lib; as_in_source
  | |- Forall _ (trace (lib _ _ _)) => apply handed_lib; as_in_source
  end.

Lemma TestBug_main_constructs (env : Env) :
  Forall (constructs env) (trace (TestBug.main env)).
Proof.
  unfold TestBug.main.
  apply handed_bind;
    [| intros ets _; unfold_test_bug; repeat handed_step].
  unfold Shared.steps_1_to_3.
  do 3 (apply handed_bind; [handed_step | intros ? _]).
  apply handed_bind; [unfold Shared.step1_events; repeat handed_step|].
  intros events Hev. destruct (step1_events_result _ _ Hev) as [t ->].
  unfold Shared.step2_state, Shared.step3_schema. repeat handed_step.
Qed.

Lemma TestBug_script_constructs (env : Env) :
  Forall (constructs env) (trace (TestBug.script env)).
Proof.
  unfold TestBug.script. rewrite top_level_run.
  pose proof (TestBug_main_constructs env) as H.
  destruct (completion (TestBug.main env)); cbn [trace]; try exact H;
    apply Forall_app; (split; [exact H | repeat constructor]).
Qed.

(** ** The error of the timer *)

Lemma race_times_out (env : Env) (schema adapter : Value) :
  lib_call env makeAdapter adapter_options = Returns adapter ->
  lib_call env createStorePromise (store_options adapter schema)
  = Returns (VPromise NeverSettles) ->
  completion (Shared.race_store_creation env schema)
  = Throw (mkError "Error" "Store creation timed out")
  /\ elapsed (Shared.race_store_creation env schema) = Shared.timeoutMs.
Proof.
  intros Ha Hc.
  pose proof (testWithTimeout_creation_returns _ _ _ _ Ha Hc) as T.
  rewrite (race_run env schema NeverSettles) by (rewrite T; reflexivity).
  split; reflexivity.
Qed.

(** ** Waiting for [store.close()] *)



(** ** Closing the store, after both tests *)






(** ** How long [main] of [src/test-bug.js] waits *)


(** * The statements of the specification, C1 to C10 *)

(** C1. The two scripts classify [schema.eventsDefsMap] by different
    tests, [Object.keys(schema.eventsDefsMap || {}).length === 0] in
    [src/test-bug.js] and [schema.eventsDefsMap.size > 0] in the corrected
    script, and they disagree on every Map with at least one entry: the
    original finds it empty and prints the "BUG CONFIRMED" branch, the
    corrected one finds it populated and prints the "properly populated"
    branch. *)
Theorem C1_inspections_disagree_on_nonempty_Map
    (env : Env) (schema : Value) (entries : list (Value * Value)) :
  get_prop schema "eventsDefsMap" = Returns (VMap entries) ->
  entries <> [] ->
  TestBug.eventsDefsMap_is_empty schema = ret true
  /\ Fixed.eventsDefsMap_is_populated env schema = ret true
  /\ completion (TestBug.step4_inspect schema) = Normal tt
  /\ TestBug.step5_impact schema
     = mkRun (ConsoleLog [Lit "Step 5: Demonstrating bug impact..."]
              :: TestBug.bug_confirmed_lines ++ [ConsoleLog [Lit ""]])
         0 (Normal tt)
  /\ completion (Fixed.step4_inspect env schema) = Normal tt
  /\ Fixed.step5_verify env schema
     = mkRun (ConsoleLog [Lit "Step 5: Verifying eventsDefsMap is properly populated..."]
              :: Fixed.populated_lines ++ [ConsoleLog [Lit ""]])
         0 (Normal tt).
Proof.
  intros H Hne.
  pose proof (get_prop_not_nullish _ _ _ H) as Hn.
  assert (He : TestBug.eventsDefsMap_is_empty schema = ret true).
  { unfold TestBug.eventsDefsMap_is_empty, TestBug.eventsDefsMap_keys_guarded.
    rewrite H. reflexivity. }
  assert (Hp : Fixed.eventsDefsMap_is_populated env schema = ret true).
  { unfold Fixed.eventsDefsMap_is_populated, Fixed.eventsDefsMap_size.
    rewrite H. destruct entries as [|entry rest]; [contradiction|].
    reflexivity. }
  repeat split.
  - exact He.
  - exact Hp.
  - apply TestBug_step4_runs, Hn.
  - unfold TestBug.step5_impact. rewrite He. reflexivity.
  - apply (Fixed_step4_on_Map env schema entries H).
  - unfold Fixed.step5_verify. rewrite Hp. reflexivity.
Qed.

(** C1 at a schema whose Map holds one event definition. *)
Lemma C1_witness :
  TestBug.eventsDefsMap_is_empty sample_schema = ret true
  /\ Fixed.eventsDefsMap_is_populated obliging_env sample_schema = ret true.
Proof.
  destruct (C1_inspections_disagree_on_nonempty_Map obliging_env sample_schema
              [(VString "v1.TestEvent",
                VObject [("name", VString "v1.TestEvent")])]
              eq_refl)
    as (H1 & H2 & _); [discriminate | exact (conj H1 H2)].
Defined.

(** C2. Store creation is raced against one timer of 5000 ms whose promise
    rejects with the message "Store creation timed out".  The [await] takes
    the outcome of whichever settles first: the store (or the rejection)
    of the creation when that comes before 5000 ms, the timeout error
    otherwise, which the handler of either script catches and narrates.
    A run sets the timer at most once; neither script ever clears it, and
    the options of [createStorePromise] carry no cancellation token. *)
Theorem C2_store_creation_raced_against_timer
    (env : Env) (events tables schema : Value) (creation : Promise) :
  completion (Shared.testWithTimeout env schema) = Normal creation ->
  Shared.timeoutMs = 5000
  /\ trace (Shared.race_store_creation env schema)
     = trace (Shared.testWithTimeout env schema) ++ [SetTimeout 5000]
  /\ (forall ms store,
        creation = Settles ms (Fulfilled store) -> ms < 5000 ->
        completion (Shared.race_store_creation env schema) = Normal store
        /\ elapsed (Shared.race_store_creation env schema) = ms)
  /\ (forall ms e,
        creation = Settles ms (Rejected e) -> ms < 5000 ->
        completion (Shared.race_store_creation env schema) = Throw e
        /\ elapsed (Shared.race_store_creation env schema) = ms)
  /\ (creation = NeverSettles
      \/ (exists ms s, creation = Settles ms s /\ 5000 < ms) ->
      completion (Shared.race_store_creation env schema)
      = Throw (Error "Store creation timed out")
      /\ elapsed (Shared.race_store_creation env schema) = 5000
      /\ completion (TestBug.step6_store env schema) = Normal tt
      /\ In (ConsoleLog [Lit "❌ STORE CREATION FAILED:";
                         Val (VString "Store creation timed out")])
            (trace (TestBug.step6_store env schema))
      /\ completion (Fixed.step6_store env events tables schema) = Normal tt
      /\ In (ConsoleLog [Lit "❌ STORE CREATION FAILED:";
                         Val (VString "Store creation timed out")])
            (trace (Fixed.step6_store env events tables schema)))
  /\ (count_occ Marker_eq_dec (markers (trace (TestBug.script env))) MTimer
      <= 1)%nat
  /\ every cancels_nothing (TestBug.script env)
  /\ every cancels_nothing (Fixed.script env).
Proof.
  intros H. pose proof (race_run env schema creation H) as R.
  split; [reflexivity|]. split; [rewrite R; reflexivity|].
  split; [|split; [|split; [|split; [|split]]]].
  - intros ms store -> Hms. rewrite R, race_creation_first by exact Hms.
    split; reflexivity.
  - intros ms e -> Hms. rewrite R, race_creation_first by exact Hms.
    split; reflexivity.
  - intros Hlate.
    assert (W : Promise_race [creation; timer_promise] = timer_promise).
    { destruct Hlate as [->|(ms & s & -> & Hms)];
        [reflexivity | apply race_timer_first, Hms]. }
    assert (T : completion (Shared.race_store_creation env schema)
                = Throw (Error "Store creation timed out")).
    { rewrite R, W. reflexivity. }
    split; [exact T|]. split; [rewrite R, W; reflexivity|].
    rewrite (TestBug_step6_on_failure _ _ _ T).
    rewrite (Fixed_step6_on_failure _ _ _ _ _ T).
    cbn [completion trace]. repeat split.
    + apply in_or_app. right. apply in_or_app. right. left. reflexivity.
    + apply in_or_app. right. apply in_or_app. right. left. reflexivity.
  - apply NoDup_count_occ.
    exact (subseq_NoDup _ _ (TestBug_script_ordered env) script_order_NoDup).
  - apply TestBug_script_cancels_nothing.
  - apply Fixed_script_cancels_nothing.
Qed.

(** C2 at a library whose store creation never settles. *)
Lemma C2_witness :
  completion (Shared.testWithTimeout hanging_env sample_schema)
  = Normal NeverSettles
  /\ completion (Shared.race_store_creation hanging_env sample_schema)
     = Throw (Error "Store creation timed out").
Proof.
  split; [reflexivity|].
  destruct (C2_store_creation_raced_against_timer hanging_env VNull VNull
              sample_schema NeverSettles eq_refl)
    as (_ & _ & _ & _ & H & _).
  apply H. left. reflexivity.
Defined.

(** C3. An error that escapes [main] is logged and the process exits with
    code 1; when [main] completes, the process is made to exit with code 0.
    In both scripts these are the only calls of [process.exit], at most one
    per run: after the exit with code 1 the [finally] handler does not run.
    ([main] never returns when [store.close()] never settles; then the
    script makes no call of [process.exit].) *)
Theorem C3_exit_codes (env : Env) :
  (trace (TestBug.script env)
   = trace (TestBug.main env)
     ++ match completion (TestBug.main env) with
        | Normal _ => [ProcessExit 0]
        | Throw e => [ConsoleError [Lit "❌ Unhandled error:"; Val (VError e)];
                      ProcessExit 1]
        | _ => []
        end)
  /\ exit_codes (trace (TestBug.script env))
     = match completion (TestBug.main env) with
       | Normal _ => [0]
       | Throw _ => [1]
       | _ => []
       end
  /\ completion (TestBug.script env)
     = match completion (TestBug.main env) with
       | Normal _ => Exited 0
       | Throw _ => Exited 1
       | _ => Suspended
       end
  /\ (trace (Fixed.script env)
      = trace (Fixed.main env)
        ++ match completion (Fixed.main env) with
           | Normal _ => [ProcessExit 0]
           | Throw e => [ConsoleError [Lit "❌ Unhandled error:"; Val (VError e)];
                         ProcessExit 1]
           | _ => []
           end)
  /\ exit_codes (trace (Fixed.script env))
     = match completion (Fixed.main env) with
       | Normal _ => [0]
       | Throw _ => [1]
       | _ => []
       end
  /\ completion (Fixed.script env)
     = match completion (Fixed.main env) with
       | Normal _ => Exited 0
       | Throw _ => Exited 1
       | _ => Suspended
       end.
Proof.
  pose proof (TestBug_main_returns_control env) as Ht.
  pose proof (TestBug_main_keeps_going env) as Et.
  pose proof (Fixed_main_returns_control env) as Hf.
  pose proof (Fixed_main_keeps_going env) as Ef.
  apply keeps_going_exit_codes in Et, Ef.
  unfold TestBug.script, Fixed.script.
  rewrite !top_level_run.
  repeat split.
  - destruct (completion (TestBug.main env)); cbn [trace];
      auto using app_nil_r.
  - destruct (completion (TestBug.main env)) eqn:E; cbn [trace];
      rewrite ?exit_codes_app, ?Et; auto.
  - destruct (completion (TestBug.main env)) eqn:E; cbn [completion]; auto.
    destruct (Ht _ E).
  - destruct (completion (Fixed.main env)); cbn [trace];
      auto using app_nil_r.
  - destruct (completion (Fixed.main env)) eqn:E; cbn [trace];
      rewrite ?exit_codes_app, ?Ef; auto.
  - destruct (completion (Fixed.main env)) eqn:E; cbn [completion]; auto.
    destruct (Hf _ E).
Qed.









(** C7 as stated fails: the map of materializers, handed to
    [State.SQLite.materializers], is none of the items the claim lists.
    Nor is the error "Store creation timed out": no call of the library
    raises it, the script builds it for its timer. *)
Lemma C7_counterexample :
  In (VObject [("v1.TestEvent", Shared.materializer_handler)])
     (handed_over (trace (TestBug.script obliging_env)))
  /\ claimed_literal (VObject [("v1.TestEvent", Shared.materializer_handler)])
     = false
  /\ ~ constructs_only_claimed_data
  /\ (forall site args, exists v, lib_call hanging_env site args = Returns v)
  /\ In (ConsoleLog [Lit "❌ STORE CREATION FAILED:";
                     Val (VString "Store creation timed out")])
        (trace (TestBug.script hanging_env)).
Proof.
  assert (E : In (ConsoleLog [Lit "❌ STORE CREATION FAILED:";
                             Val (VString "Store creation timed out")])
                 (trace (TestBug.script hanging_env))).
  { vm_compute. repeat first [left; reflexivity | right]. }
  assert (L : forall site args, exists v,
                lib_call hanging_env site args = Returns v).
  { intros site args. destruct site; eexists; reflexivity. }
  assert (H : In (VObject [("v1.TestEvent", Shared.materializer_handler)])
                 (handed_over (trace (TestBug.script obliging_env)))).
  { vm_compute. repeat first [left; reflexivity | right]. }
  split; [exact H|]. split; [reflexivity|]. split; [|exact (conj L E)].
  intros claim. specialize (claim _ _ H). discriminate claim.
Qed.

(** C7, amended. Whatever [src/test-bug.js] hands to the library is one of:
    the event definition named "v1.TestEvent" with its struct of the fields
    [id] and [message], the table "test" with its columns [id] (primary
    key) and [message], the adapter options (storage type "in-memory"), the
    store options (storeId "test-bug-repro"), the commit payload; and also
    the [events] object, the map of materializers with its handler, the
    objects [{tables, materializers}] and [{events, state}], the event name
    "v1.TestEvent" and the subscribe callback.  The run in which nothing
    goes wrong hands over exactly these, in this order.  In every run each
    call is handed the literals the source text gives it at its site: the
    struct of [id] and [message], both [Schema.String]; the commit payload
    [{id: "test-123", message: "Hello World"}]; and so on, whatever the
    values of the library are that the source puts into them; and the timer
    is set to 5000 ms.  Besides, the script builds the error "Store creation
    timed out" for its timer: that is what the race throws, after 5000 ms,
    when the store creation never settles, and whatever else the race
    throws is the error the store creation was rejected with. *)
Theorem C7_locally_constructed_data (env : Env) :
  every passes_inventory (TestBug.script env)
  /\ (forall v, In v (handed_over (trace (TestBug.script env))) ->
                in_inventory v = true)
  /\ handed_over (trace (TestBug.script obliging_env))
     = [ VObject [("id", VFunction "String"); ("message", VFunction "String")];
         VObject [("name", VString "v1.TestEvent"); ("schema", VObject [])];
         VObject [("primaryKey", VBool true)];
         VObject [("name", VString "test");
                  ("columns", VObject [("id", VObject []);
                                       ("message", VObject [])])];
         VObject [("testEvent", VFunction "testEvent")];
         VObject [("v1.TestEvent", Shared.materializer_handler)];
         VObject [("tables", VObject [("testTable", VObject [])]);
                  ("materializers", VObject [])];
         VObject [("events", VObject [("testEvent", VFunction "testEvent")]);
                  ("state", VObject [])];
         VObject [("storage", VObject [("type", VString "in-memory")])];
         VObject [("adapter", VObject []); ("schema", sample_schema);
                  ("storeId", VString "test-bug-repro")];
         VString "v1.TestEvent"; TestBug.subscribe_callback;
         VString "v1.TestEvent";
         VObject [("id", VString "test-123");
                  ("message", VString "Hello World")] ]
  /\ Forall (constructs env) (trace (TestBug.script env))
  /\ (forall schema adapter,
      lib_call env makeAdapter adapter_options = Returns adapter ->
      lib_call env createStorePromise (store_options adapter schema)
      = Returns (VPromise NeverSettles) ->
      completion (Shared.race_store_creation env schema)
      = Throw (mkError "Error" "Store creation timed out")
      /\ elapsed (Shared.race_store_creation env schema) = Shared.timeoutMs)
  /\ (forall schema e,
      completion (Shared.race_store_creation env schema) = Throw e ->
      e = mkError "Error" "Store creation timed out"
      \/ exists ms,
           completion (Shared.testWithTimeout env schema)
           = Normal (Settles ms (Rejected e))).
Proof.
  split; [apply TestBug_script_passes_inventory|].
  split; [apply handed_over_in_inventory, TestBug_script_passes_inventory|].
  split; [exact obliging_run_hands_over|].
  split; [apply TestBug_script_constructs|]. split.
  - intros schema adapter. apply race_times_out.
  - intros schema e He.
    destruct (testWithTimeout_returns env schema) as [creation H].
    destruct (race_outcome env schema creation H) as (_ & _ & H3 & _).
    destruct (H3 e He) as [[-> _]|Hr]; [left; reflexivity | right].
    eexists. rewrite H, Hr. reflexivity.
Qed.


(** C9. Whatever value [schema.eventsDefsMap] holds, steps 4 and 5 of
    [src/test-bug.js] complete normally.  Step 4 of the corrected script
    throws a TypeError when the value is [undefined] or [null], and it
    completes normally only if the value is a non-null object; its reading
    of [.size] alone (step 5) throws exactly on [undefined] and [null]. *)
Theorem C9_guarded_inspection_never_throws
    (env : Env) (schema m : Value) :
  get_prop schema "eventsDefsMap" = Returns m ->
  completion (TestBug.step4_inspect schema) = Normal tt
  /\ completion (TestBug.step5_impact schema) = Normal tt
  /\ (nullish m = true ->
      exists e,
        completion (Fixed.step4_inspect env schema) = Throw e
        /\ completion (Fixed.step5_verify env schema) = Throw e
        /\ err_constructor_name e = "TypeError")
  /\ (completion (Fixed.step4_inspect env schema) = Normal tt -> is_object m)
  /\ (completion (Fixed.step5_verify env schema) = Normal tt <->
      nullish m = false).
Proof.
  intros H. pose proof (get_prop_not_nullish _ _ _ H) as Hn.
  destruct (Object_keys_returns _ Hn) as [ks Hks].
  split; [apply TestBug_step4_runs, Hn|].
  split; [apply TestBug_step5_runs, Hn|].
  unfold Fixed.step4_inspect, Fixed.step5_verify,
    Fixed.eventsDefsMap_is_populated, Fixed.eventsDefsMap_size.
  rewrite Hks, H. split; [|split].
  - destruct m; try discriminate; intros _; eexists; repeat split.
  - destruct m; try exact (fun _ => I); cbn; discriminate.
  - destruct m; cbn [nullish];
      try (split; discriminate);
      (split; [reflexivity | intros _]); cbn;
      repeat match goal with
             | |- context [if ?b then _ else _] => destruct b
             end; reflexivity.
Qed.

(** C9 at a schema whose [eventsDefsMap] is [null]. *)
Lemma C9_witness :
  completion (TestBug.step4_inspect (VObject [("eventsDefsMap", VNull)]))
  = Normal tt
  /\ exists e,
       completion (Fixed.step4_inspect obliging_env
                     (VObject [("eventsDefsMap", VNull)])) = Throw e.
Proof.
  destruct (C9_guarded_inspection_never_throws obliging_env
              (VObject [("eventsDefsMap", VNull)]) VNull eq_refl)
    as (H1 & _ & H3 & _).
  split; [exact H1|].
  destruct (H3 eq_refl) as (e & He & _). exists e. exact He.
Defined.




(** * Properties beyond the specification, X1 to X15 *)

(** X1. Whatever the library does, the awaited race of store creation
    against the timer is over after at most 5000 ms: it hands over a store
    or throws, it never waits for ever and never ends the process.  A store
    it hands over is the one the creation was fulfilled with, at that time;
    an error it throws is the timeout error after 5000 ms or the error the
    creation was rejected with, at that time. *)
Theorem X1_race_over_within_timeout (env : Env) (schema : Value) :
  completes (Shared.race_store_creation env schema)
  /\ elapsed (Shared.race_store_creation env schema) <= Shared.timeoutMs
  /\ (forall store,
        completion (Shared.race_store_creation env schema) = Normal store ->
        completion (Shared.testWithTimeout env schema)
        = Normal (Settles (elapsed (Shared.race_store_creation env schema))
                    (Fulfilled store)))
  /\ (forall e,
        completion (Shared.race_store_creation env schema) = Throw e ->
        (e = Error "Store creation timed out"
         /\ elapsed (Shared.race_store_creation env schema) = Shared.timeoutMs)
        \/ completion (Shared.testWithTimeout env schema)
           = Normal (Settles (elapsed (Shared.race_store_creation env schema))
                       (Rejected e))).
Proof.
  destruct (testWithTimeout_returns env schema) as [creation H].
  destruct (race_outcome env schema creation H) as (H1 & H2 & H3 & H4).
  split; [exact H4|]. split; [exact H1|]. split.
  - intros store Hs. rewrite H. f_equal. apply H2, Hs.
  - intros e He. destruct (H3 e He) as [Ht|Hr]; [left; exact Ht | right].
    rewrite H. f_equal. exact Hr.
Qed.

(** X2. [testWithTimeout] is an async function: when [makeAdapter] throws,
    nothing is thrown at the call; the promise is rejected at once,
    [createStorePromise] is not called, the timer is still set, and the race
    throws the error of the adapter without waiting.  Both scripts narrate
    it as a failed store creation and go on. *)
Theorem X2_adapter_failure_becomes_rejection
    (env : Env) (events tables schema : Value) (e : JsError) :
  lib_call env makeAdapter adapter_options = Raises e ->
  Shared.race_store_creation env schema
  = mkRun [LibCall makeAdapter adapter_options; SetTimeout 5000] 0 (Throw e)
  /\ TestBug.step6_store env schema
     = mkRun
         [ConsoleLog [Lit "Step 6: Creating store and testing subscribe/commit..."];
          ConsoleLog [Lit ""];
          ConsoleLog [Lit "⏱️  Setting 5000ms timeout to prevent hanging..."];
          LibCall makeAdapter adapter_options; SetTimeout 5000;
          ConsoleLog [Lit "❌ STORE CREATION FAILED:";
                      Val (VString (err_message e))];
          ConsoleLog [Lit "   This might be another symptom of the same bug"]]
         0 (Normal tt)
  /\ Fixed.step6_store env events tables schema
     = mkRun
         [ConsoleLog [Lit "Step 6: Creating store and testing CORRECT subscribe/commit..."];
          ConsoleLog [Lit ""];
          ConsoleLog [Lit "⏱️  Setting 5000ms timeout to prevent hanging..."];
          LibCall makeAdapter adapter_options; SetTimeout 5000;
          ConsoleLog [Lit "❌ STORE CREATION FAILED:";
                      Val (VString (err_message e))];
          ConsoleLog [Lit "   This might indicate a different issue"]]
         0 (Normal tt).
Proof.
  intros H.
  pose proof (testWithTimeout_adapter_raises env schema e H) as T.
  assert (R : Shared.race_store_creation env schema
              = mkRun [LibCall makeAdapter adapter_options; SetTimeout 5000]
                  0 (Throw e)).
  { rewrite (race_run env schema (Settles 0 (Rejected e)))
      by (rewrite T; reflexivity).
    rewrite T. reflexivity. }
  split; [exact R|]. split.
  - rewrite (TestBug_step6_on_failure env schema e) by (rewrite R; reflexivity).
    rewrite R. reflexivity.
  - rewrite (Fixed_step6_on_failure env events tables schema e)
      by (rewrite R; reflexivity).
    rewrite R. reflexivity.
Qed.

(** X2 at a library whose adapter factory raises. *)
Lemma X2_witness :
  lib_call (override obliging_env makeAdapter (Raises (Error "no storage")))
    makeAdapter adapter_options
  = Raises (Error "no storage")
  /\ call_count createStorePromise
       (trace (Shared.race_store_creation
                 (override obliging_env makeAdapter (Raises (Error "no storage")))
                 sample_schema))
     = 0%nat.
Proof.
  split; [reflexivity|].
  destruct (X2_adapter_failure_becomes_rejection
              (override obliging_env makeAdapter (Raises (Error "no storage")))
              VNull VNull sample_schema (Error "no storage") eq_refl)
    as (H & _).
  rewrite H. reflexivity.
Defined.

(** X3. The check of line 80 of [src/test-bug.js] (line 74 of
    [src/unnamed/part_001]), value by value: it finds [eventsDefsMap]
    non-empty exactly when the value is an ordinary object, an array or a
    string with at least one element.  For everything else, a Map of any
    size, a number, a boolean, a function, [undefined] and [null] alike,
    step 5 prints the "BUG CONFIRMED" lines. *)
Theorem X3_original_check_value_by_value (schema m : Value) :
  get_prop schema "eventsDefsMap" = Returns m ->
  TestBug.eventsDefsMap_is_empty schema = ret (negb (has_own_keys m))
  /\ TestBug.step5_impact schema
     = mkRun (ConsoleLog [Lit "Step 5: Demonstrating bug impact..."]
              :: (if has_own_keys m
                  then TestBug.working_lines
                  else TestBug.bug_confirmed_lines)
              ++ [ConsoleLog [Lit ""]])
         0 (Normal tt).
Proof.
  intros H. pose proof (original_check schema m H) as E.
  split; [exact E|].
  unfold TestBug.step5_impact. rewrite E.
  destruct (has_own_keys m); reflexivity.
Qed.

(** X3 at a schema that holds its event definitions in an array. *)
Lemma X3_witness :
  TestBug.eventsDefsMap_is_empty
    (VObject [("eventsDefsMap", VArray [VString "v1.TestEvent"])])
  = ret false.
Proof.
  apply (X3_original_check_value_by_value
           (VObject [("eventsDefsMap", VArray [VString "v1.TestEvent"])])
           (VArray [VString "v1.TestEvent"]) eq_refl).
Defined.

(** X4. The inspection of the corrected script on a schema whose
    [eventsDefsMap] is a Map: step 4 prints the number of entries as the
    size and the keys of the entries in their order, and completes; step 5
    finds the Map populated exactly when it has an entry.  On the empty Map
    both scripts print their failure line. *)
Theorem X4_corrected_inspection_of_a_Map
    (env : Env) (schema : Value) (entries : list (Value * Value))
    (keys : list string) :
  get_prop schema "eventsDefsMap" = Returns (VMap entries) ->
  Object_keys schema = Returns keys ->
  Fixed.step4_inspect env schema
  = mkRun
      [ConsoleLog [Lit "Step 4: Inspecting schema results (CORRECTED)..."];
       ConsoleLog [Lit "Schema keys:"; Val (strings keys)];
       ConsoleLog [Lit ""];
       ConsoleLog [Lit "🔍 CORRECTED: Using proper Map inspection methods"];
       ConsoleLog [Lit "📊 ACTUAL RESULTS:"];
       ConsoleLog [Lit "  eventsDefsMap size:";
                   Val (VNumber (Z.of_nat (List.length entries)))];
       ConsoleLog [Lit "  eventsDefsMap keys:"; Val (VArray (map fst entries))];
       ConsoleLog [Lit ""]]
      0 (Normal tt)
  /\ Fixed.eventsDefsMap_is_populated env schema
     = ret (match entries with [] => false | _ :: _ => true end)
  /\ (entries = [] ->
      Fixed.step5_verify env schema
      = mkRun (ConsoleLog [Lit "Step 5: Verifying eventsDefsMap is properly populated..."]
               :: Fixed.still_empty_lines ++ [ConsoleLog [Lit ""]])
          0 (Normal tt)
      /\ TestBug.step5_impact schema
         = mkRun (ConsoleLog [Lit "Step 5: Demonstrating bug impact..."]
                  :: TestBug.bug_confirmed_lines ++ [ConsoleLog [Lit ""]])
             0 (Normal tt)).
Proof.
  intros H Hk.
  assert (P : Fixed.eventsDefsMap_is_populated env schema
              = ret (match entries with [] => false | _ :: _ => true end)).
  { unfold Fixed.eventsDefsMap_is_populated, Fixed.eventsDefsMap_size.
    rewrite H. destruct entries; reflexivity. }
  split; [|split; [exact P|]].
  - unfold Fixed.step4_inspect, Fixed.eventsDefsMap_size.
    rewrite Hk, H. reflexivity.
  - intros ->. split.
    + unfold Fixed.step5_verify. rewrite P. reflexivity.
    + unfold TestBug.step5_impact. rewrite (original_check schema _ H).
      reflexivity.
Qed.

(** X4 at the sample schema, whose Map holds one event definition. *)
Lemma X4_witness :
  Fixed.eventsDefsMap_is_populated obliging_env sample_schema = ret true.
Proof.
  destruct (X4_corrected_inspection_of_a_Map obliging_env sample_schema
              [(VString "v1.TestEvent",
                VObject [("name", VString "v1.TestEvent")])]
              ["eventsDefsMap"; "state"] eq_refl eq_refl)
    as (_ & H & _).
  exact H.
Defined.

(** X5. Test 1 of the corrected script, inside one [try]: it reads
    [tables.testTable.where] and calls it with [{}], calls [queryDb] on the
    result, reads [store.subscribe] and calls it with the query and the
    [onUpdate] handler.  The first of these to throw ends the [try]: no
    later call is made, and the error is printed as "SUBSCRIBE FAILED"
    whatever threw it.  A table or a store that is [undefined] or [null]
    throws at the read, before any call; a [where] or a [subscribe] that is
    no function throws "is not a function" without a call into the library.
    While [subscribe] runs, the store may run the handler: each run prints
    "Query results updated:" with its results, before the success or
    failure lines.  The test itself always completes normally. *)
Theorem X5_corrected_subscribe_test
    (env : Env) (tables store testTable : Value) :
  get_prop tables "testTable" = Returns testTable ->
  completion (Fixed.test1_subscribe env tables store) = Normal tt
  /\ (forall e,
        method_of testTable "where" = Raises e ->
        trace (Fixed.test1_subscribe env tables store)
        = ConsoleLog [Lit "Test 1: Attempting store.subscribe() with CORRECT API..."]
          :: corrected_subscribe_failure e)
  /\ (method_of testTable "where" = Returns false ->
      trace (Fixed.test1_subscribe env tables store)
      = ConsoleLog [Lit "Test 1: Attempting store.subscribe() with CORRECT API..."]
        :: corrected_subscribe_failure
             (not_a_function "tables.testTable.where"))
  /\ (method_of testTable "where" = Returns true ->
      (forall e,
          lib_call env table_where (where_args testTable) = Raises e ->
          trace (Fixed.test1_subscribe env tables store)
          = ConsoleLog [Lit "Test 1: Attempting store.subscribe() with CORRECT API..."]
            :: LibCall table_where (where_args testTable)
            :: corrected_subscribe_failure e)
      /\ (forall filter e,
            lib_call env table_where (where_args testTable) = Returns filter ->
            lib_call env queryDb [filter] = Raises e ->
            trace (Fixed.test1_subscribe env tables store)
            = ConsoleLog [Lit "Test 1: Attempting store.subscribe() with CORRECT API..."]
              :: LibCall table_where (where_args testTable)
              :: LibCall queryDb [filter]
              :: corrected_subscribe_failure e)
      /\ (forall filter testQuery,
            lib_call env table_where (where_args testTable) = Returns filter ->
            lib_call env queryDb [filter] = Returns testQuery ->
            (forall e,
                method_of store "subscribe" = Raises e ->
                trace (Fixed.test1_subscribe env tables store)
                = ConsoleLog [Lit "Test 1: Attempting store.subscribe() with CORRECT API..."]
                  :: LibCall table_where (where_args testTable)
                  :: LibCall queryDb [filter]
                  :: corrected_subscribe_failure e)
            /\ (method_of store "subscribe" = Returns false ->
                trace (Fixed.test1_subscribe env tables store)
                = ConsoleLog [Lit "Test 1: Attempting store.subscribe() with CORRECT API..."]
                  :: LibCall table_where (where_args testTable)
                  :: LibCall queryDb [filter]
                  :: corrected_subscribe_failure
                       (not_a_function "store.subscribe"))
            /\ (method_of store "subscribe" = Returns true ->
                trace (Fixed.test1_subscribe env tables store)
                = ConsoleLog [Lit "Test 1: Attempting store.subscribe() with CORRECT API..."]
                  :: LibCall table_where (where_args testTable)
                  :: LibCall queryDb [filter]
                  :: LibCall store_subscribe
                       (query_subscribe_args store testQuery)
                  :: handler_lines
                       (onUpdate_runs env store_subscribe
                          (query_subscribe_args store testQuery))
                  ++ after_call
                       (lib_call env store_subscribe
                          (query_subscribe_args store testQuery))
                       corrected_subscribe_success
                       corrected_subscribe_failure))).
Proof.
  intros H. split; [apply corrected_test1_ends|].
  unfold Fixed.test1_subscribe, where_args, query_subscribe_args.
  rewrite H, bind_lift_returns.
  split; [|split].
  - intros e ->. follow. reflexivity.
  - intros ->. follow. reflexivity.
  - intros ->. rewrite bind_lift_returns. split; [|split].
    + intros e Hw. follow. reflexivity.
    + intros filter e Hw Hq. follow. reflexivity.
    + intros filter testQuery Hw Hq. split; [|split].
      * intros e ->. follow. reflexivity.
      * intros ->. follow. reflexivity.
      * intros ->. follow. unfold handler_lines.
        destruct (lib_call env store_subscribe _); cbn [app];
          rewrite <- ?app_assoc; reflexivity.
Qed.

(** X5 at a store that runs the handler once while it is subscribed to. *)
Lemma X5_witness :
  get_prop (VObject [("testTable", VObject [])]) "testTable"
  = Returns (VObject [])
  /\ In (ConsoleLog [Lit "Query results updated:"; Val (VArray [])])
        (trace (Fixed.test1_subscribe notifying_env
                  (VObject [("testTable", VObject [])]) sample_store)).
Proof.
  split; [reflexivity|].
  destruct (X5_corrected_subscribe_test notifying_env
              (VObject [("testTable", VObject [])]) sample_store (VObject [])
              eq_refl)
    as (_ & _ & _ & H).
  destruct (H eq_refl) as (_ & _ & H3).
  destruct (H3 (VObject []) (VObject []) eq_refl eq_refl) as (_ & _ & H4).
  rewrite (H4 eq_refl). do 4 right. left. reflexivity.
Defined.

(** X6. Test 2 of the corrected script, inside one [try]: it reads
    [store.commit], calls the event factory [events.testEvent({...})], and
    calls [commit] on the event.  A store that is [undefined] or [null]
    throws at the read, before the factory is called; an [events.testEvent]
    that is no function throws "is not a function" without any call into
    the library; when the factory raises, [commit] is not called; a
    [commit] that is no function throws after the factory was called.
    Whatever threw, the error is printed as "COMMIT FAILED", with the first
    line of its message only.  While [commit] runs, the store may run the
    [onUpdate] handler of Test 1.  The test always completes normally. *)
Theorem X6_corrected_commit_test
    (env : Env) (events store testEvent : Value) :
  get_prop events "testEvent" = Returns testEvent ->
  completion (Fixed.test2_commit env events store) = Normal tt
  /\ (forall e,
        method_of store "commit" = Raises e ->
        trace (Fixed.test2_commit env events store)
        = ConsoleLog [Lit "Test 2: Attempting store.commit() with CORRECT API..."]
          :: corrected_commit_failure e)
  /\ (forall callee,
        method_of store "commit" = Returns callee ->
        ((forall label, testEvent <> VFunction label) ->
         trace (Fixed.test2_commit env events store)
         = ConsoleLog [Lit "Test 2: Attempting store.commit() with CORRECT API..."]
           :: corrected_commit_failure (not_a_function "events.testEvent"))
        /\ (forall label,
              testEvent = VFunction label ->
              (forall e,
                  lib_call env events_testEvent (testEvent_args testEvent)
                  = Raises e ->
                  trace (Fixed.test2_commit env events store)
                  = ConsoleLog [Lit "Test 2: Attempting store.commit() with CORRECT API..."]
                    :: LibCall events_testEvent (testEvent_args testEvent)
                    :: corrected_commit_failure e)
              /\ (forall event,
                    lib_call env events_testEvent (testEvent_args testEvent)
                    = Returns event ->
                    (callee = false ->
                     trace (Fixed.test2_commit env events store)
                     = ConsoleLog [Lit "Test 2: Attempting store.commit() with CORRECT API..."]
                       :: LibCall events_testEvent (testEvent_args testEvent)
                       :: corrected_commit_failure
                            (not_a_function "store.commit"))
                    /\ (callee = true ->
                        trace (Fixed.test2_commit env events store)
                        = ConsoleLog [Lit "Test 2: Attempting store.commit() with CORRECT API..."]
                          :: LibCall events_testEvent (testEvent_args testEvent)
                          :: LibCall store_commit (event_commit_args store event)
                          :: handler_lines
                               (onUpdate_runs env store_commit
                                  (event_commit_args store event))
                          ++ after_call
                               (lib_call env store_commit
                                  (event_commit_args store event))
                               corrected_commit_success
                               corrected_commit_failure)))).
Proof.
  intros H. split; [apply corrected_test2_ends|].
  unfold Fixed.test2_commit, testEvent_args, event_commit_args.
  split.
  - intros e ->. follow. reflexivity.
  - intros callee ->. rewrite bind_lift_returns, H, bind_lift_returns. split.
    + intros Hn. destruct testEvent; try (follow; reflexivity).
      destruct (Hn label eq_refl).
    + intros label ->. split.
      * intros e He. follow. reflexivity.
      * intros event He. split.
        -- intros ->. follow. reflexivity.
        -- intros ->. follow. unfold handler_lines.
           destruct (lib_call env store_commit _); cbn [app];
             rewrite <- ?app_assoc; reflexivity.
Qed.

(** X6 at a store that is [undefined]: the event factory is not called. *)
Lemma X6_witness :
  get_prop (VObject [("testEvent", VFunction "testEvent")]) "testEvent"
  = Returns (VFunction "testEvent")
  /\ trace (Fixed.test2_commit obliging_env
              (VObject [("testEvent", VFunction "testEvent")]) VUndefined)
     = ConsoleLog [Lit "Test 2: Attempting store.commit() with CORRECT API..."]
       :: corrected_commit_failure
            (TypeError "Cannot read properties of undefined (reading 'commit')").
Proof.
  split; [reflexivity|].
  destruct (X6_corrected_commit_test obliging_env
              (VObject [("testEvent", VFunction "testEvent")]) VUndefined
              (VFunction "testEvent") eq_refl)
    as (_ & H & _).
  apply H. reflexivity.
Defined.

(** X7. The corrected script never closes the store and never waits for
    anything but the race.  So its store block always completes normally,
    and the script always ends by one call of [process.exit], after at most
    5000 ms of waiting, whatever the calls of the library return or raise
    (what they raise being error objects): with code 0 exactly when steps 1
    to 3 and the inspection of step 4 complete, with code 1 otherwise. *)
Theorem X7_corrected_script_always_exits (env : Env) :
  (forall events tables schema,
      completion (Fixed.step6_store env events tables schema) = Normal tt
      /\ elapsed (Fixed.step6_store env events tables schema)
         <= Shared.timeoutMs)
  /\ call_count store_close (trace (Fixed.script env)) = 0%nat
  /\ (completion (Fixed.script env) = Exited 0
      \/ completion (Fixed.script env) = Exited 1)
  /\ exit_codes (trace (Fixed.script env))
     = match completion (Fixed.script env) with
       | Exited code => [code]
       | _ => []
       end
  /\ elapsed (Fixed.script env) <= Shared.timeoutMs
  /\ (completion (Fixed.script env) = Exited 0 <->
      exists ets,
        completion (Shared.steps_1_to_3 env corrected_title) = Normal ets
        /\ completion (Fixed.step4_inspect env (snd ets)) = Normal tt).
Proof.
  pose proof (Fixed_main_returns_control env) as Hr.
  pose proof (Fixed_main_keeps_going env) as Hk.
  pose proof (corrected_main_completion env) as Hc.
  destruct (steps_1_to_3_ends env corrected_title) as [Hs _].
  unfold completes in Hs.
  assert (Hm : completes (Fixed.main env)).
  { unfold completes. rewrite Hc.
    destruct (completion (Shared.steps_1_to_3 env corrected_title))
      as [ets|e|code|]; try exact Hs.
    apply (corrected_inspection_ends env (snd ets)). }
  unfold completes in Hm.
  split; [|split; [|split; [|split; [|split]]]].
  - intros events tables schema.
    destruct (corrected_step6_ends env events tables schema) as [H1 H2].
    split; [exact H1|]. rewrite H2. apply race_elapsed.
  - unfold Fixed.script. rewrite top_level_run.
    pose proof (call_count_none _ _ (corrected_main_no_close env)) as Hn.
    destruct (completion (Fixed.main env)); cbn [trace];
      rewrite ?call_count_app, ?Hn; reflexivity.
  - unfold Fixed.script. rewrite (script_completion _ Hr).
    destruct (completion (Fixed.main env)); auto; contradiction.
  - unfold Fixed.script.
    rewrite (script_completion _ Hr), (script_exit_codes _ Hk).
    destruct (completion (Fixed.main env)); try reflexivity; contradiction.
  - unfold Fixed.script. rewrite script_elapsed.
    apply corrected_main_elapsed.
  - unfold Fixed.script. rewrite (script_completion _ Hr), Hc.
    destruct (completion (Shared.steps_1_to_3 env corrected_title))
      as [ets|e|code|]; try contradiction.
    + split.
      * intros H. exists ets. split; [reflexivity|].
        destruct (completion (Fixed.step4_inspect env (snd ets))) as [[]|e|code|];
          try discriminate. reflexivity.
      * intros (ets' & [= <-] & ->). reflexivity.
    + split; [discriminate | intros (ets & [=] & _)].
Qed.

(** X8. In every run of the corrected script the landmarks come in the one
    order of its source text, none twice and none out of turn, so that no
    call site is reached more than once; and when nothing goes wrong, the
    schema holds a Map, and the event factory, the table and the store are
    values that can be called as the script calls them, the run passes all
    of the landmarks but the call of a library [keys] function (for a Map,
    [keys] is built in) and exits with code 0.  A table that is [null]
    makes Test 1 throw before any of its calls, though every call made
    returns. *)
Theorem X8_corrected_steps_in_one_order (env : Env) :
  ordered (Fixed.script env) corrected_order
  /\ NoDup (markers (trace (Fixed.script env)))
  /\ (forall site, (call_count site (trace (Fixed.script env)) <= 1)%nat)
  /\ (all_calls_succeed env -> schema_holds_Map env -> usable_values env ->
      markers (trace (Fixed.script env))
      = remove Marker_eq_dec (MCall eventsDefsMap_keys) corrected_order
      /\ completion (Fixed.script env) = Exited 0)
  /\ (all_calls_succeed (override obliging_env SQLite_table (Returns VNull))
      /\ schema_holds_Map (override obliging_env SQLite_table (Returns VNull))
      /\ calls (trace (Fixed.script
                         (override obliging_env SQLite_table (Returns VNull))))
         = [Schema_Struct; Events_synced; SQLite_text_id; SQLite_text_message;
            SQLite_table; SQLite_materializers; SQLite_makeState; makeSchema;
            makeAdapter; createStorePromise; events_testEvent; store_commit]).
Proof.
  pose proof (corrected_script_ordered env) as H.
  pose proof (subseq_NoDup _ _ H corrected_order_NoDup) as N.
  split; [exact H|]. split; [exact N|]. split; [|split].
  - intros site. rewrite call_count_markers. apply NoDup_count_occ, N.
  - intros Hok HM HU. destruct (corrected_main_runs env Hok HM HU) as [Hm Hc].
    unfold Fixed.script. rewrite top_level_run, Hc. cbn [trace completion].
    rewrite markers_app, Hm. split; reflexivity.
  - split; [|split].
    + split.
      * intros site args. destruct site; eexists; cbn;
          (split; [reflexivity
                  | split; [exact I || reflexivity
                           | discriminate || reflexivity]]).
      * intros v. eexists. reflexivity.
    + intros args v [= <-]. eexists. reflexivity.
    + vm_compute. reflexivity.
Qed.

(** X8 at a library that answers every call. *)
Lemma X8_witness :
  markers (trace (Fixed.script obliging_env))
  = remove Marker_eq_dec (MCall eventsDefsMap_keys) corrected_order.
Proof.
  destruct (X8_corrected_steps_in_one_order obliging_env) as (_ & _ & _ & H & _).
  apply H;
    [ apply obliging_env_succeeds | apply obliging_schema_holds_Map
    | apply obliging_usable_values ].
Defined.



(** X10. How a run of [src/test-bug.js] ends.  [process.exit] is called
    with code 1 when one of the eight calls of steps 1 to 3 raises, when the
    schema is [undefined] or [null] (step 4 throws on it), and when
    [JSON.stringify] of the schema raises at the end; with code 0 otherwise,
    save for one case.  Nothing that is thrown in the store block changes
    the code: a failed or timed-out creation and failing subscribe, commit
    or close calls are all caught there (what is thrown being an error
    object).  The one case: when [store.close()] returns a promise that
    never settles, [main] is left suspended and [process.exit] is not
    called; Node.js then ends the process by itself with status 0, unless
    the library holds it open. *)
Theorem X10_exit_code_of_the_original_script (env : Env) :
  exit_codes (trace (TestBug.script env))
  = match completion (Shared.steps_1_to_3 env report_title) with
    | Normal ets =>
        if nullish (snd ets) then [1]
        else
          match completion (TestBug.step6_store env (snd ets)) with
          | Suspended => []
          | _ =>
              match JSON_stringify env (snd ets) with
              | Returns _ => [0]
              | Raises _ => [1]
              end
          end
    | _ => [1]
    end
  /\ (forall schema,
        completion (TestBug.step6_store env schema) = Normal tt
        \/ completion (TestBug.step6_store env schema) = Suspended)
  /\ (forall held_open,
        process_end held_open (TestBug.script env)
        = match completion (Shared.steps_1_to_3 env report_title) with
          | Normal ets =>
              if nullish (snd ets) then ExitCalled 1
              else
                match completion (TestBug.step6_store env (snd ets)) with
                | Suspended =>
                    if held_open then KeptAlive else EndedByItself 0
                | _ =>
                    match JSON_stringify env (snd ets) with
                    | Returns _ => ExitCalled 0
                    | Raises _ => ExitCalled 1
                    end
                end
          | _ => ExitCalled 1
          end).
Proof.
  pose proof (TestBug_main_keeps_going env) as Hk.
  pose proof (TestBug_main_returns_control env) as Hr.
  pose proof (TestBug_main_completion env) as Hc.
  destruct (steps_1_to_3_ends env report_title) as [Hs _].
  unfold completes in Hs.
  assert (H6 : forall schema,
             completion (TestBug.step6_store env schema) = Normal tt
             \/ completion (TestBug.step6_store env schema) = Suspended).
  { intros schema. rewrite TestBug_step6_completion.
    destruct (completion (Shared.race_store_creation env schema)) as [store|e|code|];
      auto.
    destruct (lib_call env store_close [store])
      as [[| | | | | | | | | |[ms [x|e]|]]|e]; auto. }
  split; [|split; [exact H6|]].
  - unfold TestBug.script. rewrite (script_exit_codes _ Hk), Hc.
    destruct (completion (Shared.steps_1_to_3 env report_title))
      as [ets|e|code|]; try contradiction; [|reflexivity].
    destruct (nullish (snd ets)); [reflexivity|].
    destruct (H6 (snd ets)) as [->| ->]; [|reflexivity].
    rewrite TestBug_final_completion.
    destruct (JSON_stringify env (snd ets)); reflexivity.
  - intros held_open. unfold process_end, TestBug.script.
    rewrite (script_completion _ Hr), Hc.
    destruct (completion (Shared.steps_1_to_3 env report_title))
      as [ets|e|code|]; try contradiction; [|reflexivity].
    destruct (nullish (snd ets)); [reflexivity|].
    destruct (H6 (snd ets)) as [->| ->]; [|reflexivity].
    rewrite TestBug_final_completion.
    destruct (JSON_stringify env (snd ets)); reflexivity.
Qed.

(** X11. [src/unnamed/part_001] is [src/test-bug.js] without its store
    block: it prints lines and makes the eight calls of steps 1 to 3,
    nothing else (no store call, no timer, no [process.exit]).  A run of
    [main] of [src/test-bug.js] against the same library starts with the
    same library calls and the same success and failure lines, and goes on
    with calls of the store block only; and unless it is left suspended at
    [store.close()], it ends as the run of part_001 does, normally or with
    the same error. *)
Theorem X11_script_without_store_block (env : Env) :
  every defines_schema_only (SchemaOnly.script env)
  /\ (exists rest,
        calls (trace (TestBug.main env))
        = calls (trace (SchemaOnly.script env)) ++ rest
        /\ forallb is_store_site rest = true)
  /\ (exists rest,
        narration (trace (TestBug.main env))
        = narration (trace (SchemaOnly.script env)) ++ rest)
  /\ (completion (TestBug.main env) = completion (SchemaOnly.script env)
      \/ completion (TestBug.main env) = Suspended).
Proof.
  split; [|split; [|split]].
  - unfold SchemaOnly.script, Shared.steps_1_to_3, Shared.step1_events,
      Shared.step2_state, Shared.step3_schema, TestBug.step4_inspect,
      TestBug.step5_impact, TestBug.eventsDefsMap_is_empty,
      TestBug.eventsDefsMap_keys_guarded, SchemaOnly.final_diagnostics.
    cbv zeta. repeat every_step.
  - destruct (split_after_step5 env (SchemaOnly.final_diagnostics env))
      as (common & reached & T1 & R1 & C1).
    destruct (split_after_step5 env
                (fun schema => TestBug.step6_store env schema ;;
                               TestBug.final_diagnostics env schema))
      as (common' & reached' & T2 & R2 & C2).
    subst common' reached'. rewrite <- C1, <- R1 in T2.
    change (trace (TestBug.main env)
            = common ++ match reached with
                        | Some schema =>
                            trace (TestBug.step6_store env schema ;;
                                   TestBug.final_diagnostics env schema)
                        | None => []
                        end) in T2.
    change (trace (SchemaOnly.script env)
            = common ++ match reached with
                        | Some schema =>
                            trace (SchemaOnly.final_diagnostics env schema)
                        | None => []
                        end) in T1.
    rewrite T1, T2, !calls_app.
    destruct reached as [schema|].
    + destruct (schema_only_final_quiet env schema) as (-> & _).
      rewrite app_nil_r. eexists. split; [reflexivity|].
      rewrite trace_bind, calls_app, forallb_app, TestBug_step6_store_sites.
      destruct (completion (TestBug.step6_store env schema)); try reflexivity.
      destruct (TestBug_final_quiet env schema) as [-> _]. reflexivity.
    + exists []. rewrite !app_nil_r. split; reflexivity.
  - destruct (split_after_step5 env (SchemaOnly.final_diagnostics env))
      as (common & reached & T1 & R1 & C1).
    destruct (split_after_step5 env
                (fun schema => TestBug.step6_store env schema ;;
                               TestBug.final_diagnostics env schema))
      as (common' & reached' & T2 & R2 & C2).
    subst common' reached'. rewrite <- C1, <- R1 in T2.
    change (trace (TestBug.main env)
            = common ++ match reached with
                        | Some schema =>
                            trace (TestBug.step6_store env schema ;;
                                   TestBug.final_diagnostics env schema)
                        | None => []
                        end) in T2.
    change (trace (SchemaOnly.script env)
            = common ++ match reached with
                        | Some schema =>
                            trace (SchemaOnly.final_diagnostics env schema)
                        | None => []
                        end) in T1.
    rewrite T1, T2, !narration_app.
    destruct reached as [schema|].
    + destruct (schema_only_final_quiet env schema) as (_ & -> & _).
      rewrite app_nil_r. eexists. reflexivity.
    + exists []. rewrite !app_nil_r. reflexivity.
  - rewrite TestBug_main_completion.
    unfold SchemaOnly.script. fold report_title. rewrite completion_bind.
    destruct (completion (Shared.steps_1_to_3 env report_title))
      as [ets|e|code|]; auto.
    cbv zeta. rewrite completion_bind.
    destruct (nullish (snd ets)) eqn:N.
    + rewrite (TestBug_step4_on_nullish _ N). auto.
    + destruct (TestBug_step4_runs _ N) as [_ ->]. rewrite completion_bind.
      destruct (TestBug_step5_runs _ N) as [_ ->].
      destruct (schema_only_final_quiet env (snd ets)) as (_ & _ & ->).
      rewrite TestBug_step6_completion.
      destruct (completion (Shared.race_store_creation env (snd ets)))
        as [store|e|code|]; auto.
      destruct (lib_call env store_close [store])
        as [[| | | | | | | | | |[ms [x|e]|]]|e]; auto.
Qed.

(** X12. The text [message.split("\n")[0]] that the handlers of the commit
    tests print (line 167 of [src/test-bug.js], line 160 of the corrected
    script): it has no line feed, it is the beginning of the message, it
    is the whole message when that has no line feed, and of a message
    [a + "\n" + b] whose part [a] has none it is [a]. *)
Theorem X12_first_line_of_a_message (s a b : string) :
  no_line_feed (first_line s) = true
  /\ prefix (first_line s) s = true
  /\ (no_line_feed s = true -> first_line s = s)
  /\ (no_line_feed a = true -> first_line (a ++ LF ++ b)%string = a).
Proof.
  split; [apply first_line_no_line_feed|].
  split; [apply first_line_prefix|].
  split; [apply first_line_whole | apply first_line_cut].
Qed.

(** X13. The corrected inspection does not accept every schema the
    original one accepts.  On a schema that holds its event definitions in
    an ordinary object without a [keys] function, line 71 of the corrected
    script throws the TypeError "schema.eventsDefsMap.keys is not a
    function" after the size was printed as [undefined]; the error escapes
    [main].  The original script finds such an object working when it has
    at least one key. *)
Theorem X13_corrected_inspection_rejects_plain_objects
    (env : Env) (schema : Value) (props : list (string * Value)) :
  get_prop schema "eventsDefsMap" = Returns (VObject props) ->
  (forall label, lookup_prop "keys" props <> VFunction label) ->
  completion (Fixed.step4_inspect env schema)
  = Throw (TypeError "schema.eventsDefsMap.keys is not a function")
  /\ In (ConsoleLog [Lit "  eventsDefsMap size:"; Val (lookup_prop "size" props)])
        (trace (Fixed.step4_inspect env schema))
  /\ (props <> [] -> TestBug.eventsDefsMap_is_empty schema = ret false).
Proof.
  intros H Hk.
  destruct (Object_keys_returns _ (get_prop_not_nullish _ _ _ H)) as [ks Hks].
  assert (K : Fixed.eventsDefsMap_keys_array env (VObject props)
              = throw (TypeError "schema.eventsDefsMap.keys is not a function")).
  { unfold Fixed.eventsDefsMap_keys_array.
    destruct (lookup_prop "keys" props) eqn:L; try reflexivity.
    destruct (Hk label). reflexivity. }
  split; [|split].
  - unfold Fixed.step4_inspect, Fixed.eventsDefsMap_size.
    rewrite Hks, H.
    do 9 (erewrite completion_bind_normal by reflexivity).
    rewrite completion_bind, K. reflexivity.
  - unfold Fixed.step4_inspect, Fixed.eventsDefsMap_size.
    rewrite Hks, H.
    do 7 (eapply In_trace_bind_right; [reflexivity|]).
    apply In_trace_bind_left. left. reflexivity.
  - intros Hp. rewrite (original_check schema _ H).
    destruct props; [contradiction | reflexivity].
Qed.

(** X13 at a schema whose event definitions are the fields of an object. *)
Lemma X13_witness :
  completion
    (Fixed.step4_inspect obliging_env
       (VObject [("eventsDefsMap", VObject [("v1.TestEvent", VObject [])])]))
  = Throw (TypeError "schema.eventsDefsMap.keys is not a function").
Proof.
  apply (X13_corrected_inspection_rejects_plain_objects obliging_env
           (VObject [("eventsDefsMap", VObject [("v1.TestEvent", VObject [])])])
           [("v1.TestEvent", VObject [])] eq_refl).
  intros label. discriminate.
Defined.

(** X14. Steps 1 to 3 never throw by themselves: when they throw, the
    error is the one the library raised at the last call made, and no
    statement after that call was run; the error then escapes [main] and
    the script exits with code 1.  When every call made returned, the steps
    complete, whatever the values returned (an event definition that is
    [undefined] is printed with the type "undefined"). *)
Theorem X14_errors_of_steps_1_to_3 (env : Env) (title : string) :
  (forall e,
      completion (Shared.steps_1_to_3 env title) = Throw e ->
      exists site args pre,
        trace (Shared.steps_1_to_3 env title) = pre ++ [LibCall site args]
        /\ lib_call env site args = Raises e)
  /\ (all_returned env (trace (Shared.steps_1_to_3 env title)) ->
      exists ets, completion (Shared.steps_1_to_3 env title) = Normal ets)
  /\ (forall e,
      completion (Shared.steps_1_to_3 env report_title) = Throw e ->
      completion (TestBug.main env) = Throw e
      /\ completion (TestBug.script env) = Exited 1
      /\ completion (SchemaOnly.script env) = Throw e).
Proof.
  pose proof (steps_1_to_3_raised_by_last_call env title) as H.
  split; [exact H|]. split.
  - intros Hall. destruct (steps_1_to_3_ends env title) as [Hc _].
    unfold completes in Hc.
    destruct (completion (Shared.steps_1_to_3 env title)) as [ets|e|code|] eqn:E;
      try contradiction; [eauto|].
    destruct (H e E) as (site & args & pre & Ht & Hr).
    destruct (Hall site args) as [v Hv].
    + rewrite Ht. apply in_or_app. right. left. reflexivity.
    + rewrite Hr in Hv. discriminate.
  - intros e He.
    assert (Hm : completion (TestBug.main env) = Throw e).
    { rewrite TestBug_main_completion, He. reflexivity. }
    split; [exact Hm|]. split.
    + unfold TestBug.script.
      rewrite (script_completion _ (TestBug_main_returns_control env)), Hm.
      reflexivity.
    + unfold SchemaOnly.script. fold report_title.
      rewrite completion_bind, He. reflexivity.
Qed.

(** X14 at a library whose schema factory raises. *)
Lemma X14_witness :
  completion
    (TestBug.script
       (override obliging_env makeSchema (Raises (Error "no schema"))))
  = Exited 1.
Proof.
  destruct (X14_errors_of_steps_1_to_3
              (override obliging_env makeSchema (Raises (Error "no schema")))
              report_title)
    as (_ & _ & H).
  apply (H (Error "no schema")). reflexivity.
Defined.

(** X15. The check of line 77 of the corrected script, value by value: a
    Map is found populated exactly when it has an entry, and an ordinary
    object by its own [size] property; every other value that is not
    [undefined] or [null], an array or a string of any length included,
    has no [size], so that [undefined > 0] is false and step 5 prints
    "still empty". *)
Theorem X15_corrected_check_value_by_value
    (env : Env) (schema m : Value) :
  get_prop schema "eventsDefsMap" = Returns m ->
  nullish m = false ->
  Fixed.eventsDefsMap_is_populated env schema
  = ret (match m with
         | VMap entries => match entries with [] => false | _ :: _ => true end
         | VObject props => gt_zero env (lookup_prop "size" props)
         | _ => false
         end)
  /\ (forall items,
        m = VArray items ->
        Fixed.step5_verify env schema
        = mkRun (ConsoleLog [Lit "Step 5: Verifying eventsDefsMap is properly populated..."]
                 :: Fixed.still_empty_lines ++ [ConsoleLog [Lit ""]])
            0 (Normal tt)
        /\ TestBug.eventsDefsMap_is_empty schema
           = ret (match items with [] => true | _ :: _ => false end)).
Proof.
  intros H Hn.
  assert (P : Fixed.eventsDefsMap_is_populated env schema
              = ret (match m with
                     | VMap entries =>
                         match entries with [] => false | _ :: _ => true end
                     | VObject props => gt_zero env (lookup_prop "size" props)
                     | _ => false
                     end)).
  { unfold Fixed.eventsDefsMap_is_populated, Fixed.eventsDefsMap_size.
    rewrite H.
    destruct m as [| | | |s| |items|props|[|entry entries]| |];
      try discriminate; reflexivity. }
  split; [exact P|].
  intros items ->. split.
  - unfold Fixed.step5_verify. rewrite P. reflexivity.
  - rewrite (original_check schema _ H). destruct items; reflexivity.
Qed.

(** X15 at a schema that holds its event definitions in an array. *)
Lemma X15_witness :
  Fixed.eventsDefsMap_is_populated obliging_env
    (VObject [("eventsDefsMap", VArray [VString "v1.TestEvent"])])
  = ret false.
Proof.
  apply (X15_corrected_check_value_by_value obliging_env
           (VObject [("eventsDefsMap", VArray [VString "v1.TestEvent"])])
           (VArray [VString "v1.TestEvent"]) eq_refl eq_refl).
Defined.
